(** * YouTube analytics backend (backend/app.py): derived metrics and request flow

    A shallow embedding of the Flask backend's computational core and of the
    order in which its handlers talk to the upstream video API, followed by
    the properties the specification states about them.

    Conventions of the embedding
    - Python [int] is [Z]; a Python [float] obtained by true division of
      integers is the rational it approximates ([Q]); comparisons of such
      values are comparisons of rationals.
    - Python [str] is [string]; a character is a code point below 256
      (Latin-1), on which [str.lower] acts character by character.
    - A handler runs in a world that holds the wall clock, the replies the
      upstream API will give, and the log of the requests sent so far.

    Part I is the program, Part II the vocabulary in which its properties
    are stated, Part III the properties and their proofs. *)

From Stdlib Require Import String Ascii List ZArith QArith Qround Lia Bool Arith.
From Stdlib Require Import DecimalString DecimalZ DecimalPos Permutation Sorted.
Import ListNotations.

Local Open Scope list_scope.
Local Open Scope string_scope.

(* ================================================================== *)
(** * Part I: the program *)
(* ================================================================== *)

(** ** Python built-ins the program relies on *)

(** [str.lower] on one code point below 256: the ASCII capitals and the
    Latin-1 capitals (U+00C0..U+00DE, the multiplication sign U+00D7 apart)
    move 32 places up; every other code point is left alone. *)
Definition lower_char (c : ascii) : ascii :=
  let n := nat_of_ascii c in
  if (((65 <=? n) && (n <=? 90))
      || ((192 <=? n) && (n <=? 222) && negb (n =? 215)))%nat
  then ascii_of_nat (n + 32)
  else c.

(** [s.lower()] *)
Fixpoint lower (s : string) : string :=
  match s with
  | EmptyString => EmptyString
  | String c s' => String (lower_char c) (lower s')
  end.

(** [s.startswith(p)] *)
Fixpoint startswith (s p : string) {struct p} : bool :=
  match p with
  | EmptyString => true
  | String c p' =>
      match s with
      | EmptyString => false
      | String d s' => Ascii.eqb c d && startswith s' p'
      end
  end.

(** [w in s] for strings: [w] occurs in [s] as a contiguous run of
    characters, starting at some position of [s]. *)
Fixpoint contains (w s : string) : bool :=
  if startswith s w then true
  else match s with
       | EmptyString => false
       | String _ s' => contains w s'
       end.

(** [sum(1 for x in xs if p x)] *)
Definition sum_ones {A : Type} (p : A -> bool) (xs : list A) : nat :=
  list_sum (map (fun _ => 1%nat) (filter p xs)).

(** ** Sentiment classifier (app.py, [analyze_sentiment]) *)

Inductive Sentiment : Type := positive | negative | neutral.

Definition positive_words : list string :=
  ["good"; "great"; "awesome"; "amazing"; "love"; "excellent"; "perfect";
   "best"; "wonderful"; "fantastic"; "nice"; "beautiful"; "cool"; "thanks";
   "thank"].

Definition negative_words : list string :=
  ["bad"; "hate"; "terrible"; "awful"; "worst"; "stupid"; "boring"; "sucks";
   "disappointing"; "useless"; "garbage"; "trash"; "horrible"].

Definition analyze_sentiment (text : string) : Sentiment :=
  let text_lower := lower text in
  let positive_count := sum_ones (fun word => contains word text_lower) positive_words in
  let negative_count := sum_ones (fun word => contains word text_lower) negative_words in
  if (negative_count <? positive_count)%nat then positive
  else if (positive_count <? negative_count)%nat then negative
  else neutral.

(** ** Numbers *)

(** [a / b] on integers (true division): [None] stands for the
    [ZeroDivisionError] Python raises when [b] is zero. *)
Definition truediv (a b : Z) : option Q :=
  if (b =? 0)%Z then None else Some (inject_Z a / inject_Z b)%Q.

(** [int(x)] on a float: the fractional part is dropped, so the result is
    the integer next to [x] on the side of zero. *)
Definition int_of_float (x : Q) : Z :=
  if Qle_bool 0 x then Qfloor x else Qceiling x.

(** [sum(xs)] on integers and on floats. *)
Definition sumZ (xs : list Z) : Z := fold_left Z.add xs 0%Z.
Definition sumQ (xs : list Q) : Q := fold_left Qplus xs 0%Q.

(** [len(xs)] *)
Definition len {A : Type} (xs : list A) : Z := Z.of_nat (length xs).

(** [s.endswith(suffix)] *)
Definition endswith (s suffix : string) : bool :=
  (String.length suffix <=? String.length s)%nat
  && String.eqb (substring (String.length s - String.length suffix)
                           (String.length suffix) s) suffix.

(** [s[:-1]] *)
Definition drop_last (s : string) : string :=
  substring 0 (String.length s - 1) s.

(** [s[1:]] *)
Definition drop_first (s : string) : string :=
  match s with
  | EmptyString => EmptyString
  | String _ s' => s'
  end.

(** [sep.join(parts)] *)
Fixpoint join (sep : string) (parts : list string) : string :=
  match parts with
  | [] => ""
  | [p] => p
  | p :: rest => p ++ sep ++ join sep rest
  end.

(** [str.upper] on one code point below 256 whose upper-case form is again
    below 256: the ASCII small letters and the Latin-1 small letters
    (U+00E0..U+00FE, the division sign U+00F7 apart) move 32 places down.
    The sharp s, the micro sign and y with diaeresis, whose upper-case
    forms lie outside Latin-1, are outside the domain of the model. *)
Definition upper_char (c : ascii) : ascii :=
  let n := nat_of_ascii c in
  if (((97 <=? n) && (n <=? 122))
      || ((224 <=? n) && (n <=? 254) && negb (n =? 247)))%nat
  then ascii_of_nat (n - 32)
  else c.

(** [s.upper()] *)
Fixpoint upper (s : string) : string :=
  match s with
  | EmptyString => EmptyString
  | String c s' => String (upper_char c) (upper s')
  end.

(** [str(n)] on an integer. *)
Definition str (n : Z) : string := NilZero.string_of_int (Z.to_int n).

(** ** Stable sort by a key, largest key first

    [xs.sort(key=key, reverse=True)]: Python's sort is stable, also with
    [reverse=True] (elements with equal keys keep their order), and a
    stable sort has one possible result, so the insertion sort below
    yields the list Python's algorithm yields. *)
Section SortByKey.
Context {A : Type} (key : A -> Q).

Fixpoint insert_desc (x : A) (l : list A) : list A :=
  match l with
  | [] => [x]
  | y :: l' =>
      if Qle_bool (key y) (key x) then x :: y :: l'
      else y :: insert_desc x l'
  end.

Fixpoint sort_desc (l : list A) : list A :=
  match l with
  | [] => []
  | x :: l' => insert_desc x (sort_desc l')
  end.

End SortByKey.

(** ** Insertion-ordered dictionaries with string keys ([dict]) *)
Section Dict.
Context {V : Type}.

Definition dict : Type := list (string * V).

(** [k in d] *)
Definition dict_mem (k : string) (d : dict) : bool :=
  existsb (fun kv => String.eqb (fst kv) k) d.

(** [d[k] = f(d[k])]; a key that is absent is left absent. *)
Fixpoint dict_update (k : string) (f : V -> V) (d : dict) : dict :=
  match d with
  | [] => []
  | (k', v) :: d' =>
      if String.eqb k' k then (k', f v) :: d'
      else (k', v) :: dict_update k f d'
  end.

(** [d[k] = v] for a key that is not in [d] yet: a new last entry. *)
Definition dict_add (k : string) (v : V) (d : dict) : dict := (d ++ [(k, v)])%list.

(** [d.get(k)] *)
Fixpoint dict_get (k : string) (d : dict) : option V :=
  match d with
  | [] => None
  | (k', v) :: d' => if String.eqb k' k then Some v else dict_get k d'
  end.

End Dict.
Arguments dict V : clear implicits.

(** ** Library functions and configuration

    What the program obtains from its libraries and its environment, as an
    interface: the program is verified against every implementation of it.
    Instants are integers, the microseconds since the epoch (the resolution
    of [datetime]); a difference of instants is a [timedelta]. *)
Class Runtime : Type := {
  (** [os.getenv('YOUTUBE_API_KEY')] *)
  YOUTUBE_API_KEY : option string;
  (** [isodate.parse_duration(d).total_seconds()], [None] when the call
      raises *)
  isodate_total_seconds : string -> option Q;
  (** [datetime.fromisoformat(s)], [None] when the call raises *)
  fromisoformat : string -> option Z;
  (** [t.isoformat()] *)
  isoformat : Z -> string;
  (** [round(x, 2)] on a float *)
  round2 : Q -> Q;
  (** the format [{x:.1f}] of a float *)
  format_1f : Q -> string
}.

Definition microseconds_per_second : Z := 1000000.
Definition microseconds_per_day : Z := 86400 * microseconds_per_second.

(** [timedelta(days=n)] *)
Definition timedelta_days (n : Z) : Z := n * microseconds_per_day.

(** [d.days] of a [timedelta]: whole days, rounded down (the remainder of
    a negative difference is kept non-negative in the seconds). *)
Definition days (d : Z) : Z := (d / microseconds_per_day)%Z.

(** [d.total_seconds()] of a [timedelta] *)
Definition total_seconds (d : Z) : Q :=
  (inject_Z d / inject_Z microseconds_per_second)%Q.

(** ** Upstream resources

    An item of a list response of the upstream API, with the parts the
    program reads.  [videoId] is [item['id']['videoId']] of a search result
    and [id] is [item['id']] of a video resource; a statistic the API left
    out is [None] (the program reads it with [.get(name, 0)]). *)
Module Api.

Record Thumbnail : Type := {
  url : string;
  width : Z;
  height : Z
}.

Record Snippet : Type := {
  title : string;
  channelTitle : string;
  channelId : string;
  publishedAt : string;
  thumbnails : dict Thumbnail
}.

Record Statistics : Type := {
  viewCount : option Z;
  likeCount : option Z;
  commentCount : option Z
}.

Record ContentDetails : Type := {
  duration : string
}.

Record Item : Type := {
  id : string;
  videoId : string;
  snippet : Snippet;
  statistics : Statistics;
  contentDetails : ContentDetails
}.

(** The value of a query parameter. *)
Inductive Param : Type :=
| PStr (s : string)
| PInt (n : Z)
| PNone.

Record Request : Type := {
  endpoint : string;
  params : list (string * Param)
}.

End Api.

(** [int(stats.get(name, 0))] *)
Definition int_or_0 (field : option Z) : Z :=
  match field with
  | Some n => n
  | None => 0%Z
  end.

(** ** The world of a request

    [clock] gives the successive readings of the wall clock and [reads]
    counts the readings taken; [replies] holds what the upstream API will
    answer to the coming requests, in order ([None]: a transport failure or
    a status other than 200; [Some items]: a document with these items);
    [sent] is the log of the requests made.  A document of the API has
    members beside its items (its kind, its page information), so as a
    condition it is true also when it has no item: [not data] holds of
    [None] only, [not data.get('items')] of a document without items. *)
Record World : Type := {
  clock : nat -> Z;
  reads : nat;
  replies : list (option (list Api.Item));
  sent : list Api.Request
}.

Definition M (A : Type) : Type := World -> A * World.

Definition ret {A : Type} (a : A) : M A := fun w => (a, w).

Definition bind {A B : Type} (m : M A) (k : A -> M B) : M B :=
  fun w => let (a, w') := m w in k a w'.

Notation "x <- m ;; k" := (bind m (fun x => k))
  (at level 61, m at next level, right associativity).

(** ** Helpers of app.py *)
Section Helpers.
Context {R : Runtime}.

(** [make_youtube_request]: the key joins the parameters, the request goes
    out, and the reply is the document or [None]. *)
Definition make_youtube_request (endpoint : string)
    (params : list (string * Api.Param)) : M (option (list Api.Item)) :=
  fun w =>
    let params :=
      (params ++ [("key", match YOUTUBE_API_KEY with
                          | Some k => Api.PStr k
                          | None => Api.PNone
                          end)])%list in
    let request := {| Api.endpoint := endpoint; Api.params := params |} in
    let log := (sent w ++ [request])%list in
    match replies w with
    | [] =>
        (None, {| clock := clock w; reads := reads w; replies := []; sent := log |})
    | reply :: rest =>
        (reply, {| clock := clock w; reads := reads w; replies := rest; sent := log |})
    end.

(** [format_number] *)
Definition format_number (num : Z) : string :=
  if (1000000000 <=? num)%Z then
    format_1f (inject_Z num / inject_Z 1000000000)%Q ++ "B"
  else if (1000000 <=? num)%Z then
    format_1f (inject_Z num / inject_Z 1000000)%Q ++ "M"
  else if (1000 <=? num)%Z then
    format_1f (inject_Z num / inject_Z 1000)%Q ++ "K"
  else str num.

(** [parse_duration]: whatever the library raises is caught. *)
Definition parse_duration (duration : string) : Z :=
  match isodate_total_seconds duration with
  | Some seconds => int_of_float seconds
  | None => 0%Z
  end.

(** [get_utc_now] *)
Definition get_utc_now : M Z :=
  fun w =>
    (clock w (reads w),
     {| clock := clock w; reads := S (reads w); replies := replies w; sent := sent w |}).

(** [parse_youtube_datetime]: a final Z becomes the offset of UTC; when
    the library raises, the answer is the current instant. *)
Definition parse_youtube_datetime (date_string : string) : M Z :=
  let date_string :=
    if endswith date_string "Z" then drop_last date_string ++ "+00:00"
    else date_string in
  match fromisoformat date_string with
  | Some t => ret t
  | None => get_utc_now
  end.

End Helpers.

(** ** Responses of the service *)

(** An entry of [trending_videos]. *)
Module Entry.
Record t : Type := {
  id : string;
  title : string;
  channelTitle : string;
  publishedAt : string;
  thumbnails : dict Api.Thumbnail;
  viewCount : Z;
  likeCount : Z;
  commentCount : Z;
  viewCountFormatted : string;
  viewVelocity : Q;
  duration : Z
}.
End Entry.

(** A value of the [categories] dictionary. *)
Module Category.
Record t : Type := {
  count : Z;
  totalViews : Z;
  avgEngagement : Q
}.
End Category.

Module Summary.
Record t : Type := {
  totalVideos : Z;
  totalViews : Z;
  averageViews : Z;
  topPerformer : option Entry.t;
  avgEngagement : Q
}.
End Summary.

(** An element of [categoryBreakdown]. *)
Module Breakdown.
Record t : Type := {
  category : string;
  count : Z;
  avgViews : Z;
  avgEngagement : Q
}.
End Breakdown.

(** An element of [engagementDistribution]. *)
Module Band.
Record t : Type := {
  range : string;
  count : Z
}.
End Band.

Module Trending.
Record t : Type := {
  trendingVideos : list Entry.t;
  region : string;
  summary : Summary.t;
  categoryBreakdown : list Breakdown.t;
  engagementDistribution : list Band.t
}.
End Trending.

(** The JSON body of a response: an object with the one field [error], the
    trending report, or another document, given by its text. *)
Inductive Body : Type :=
| ErrorBody (error : string)
| TrendingBody (result : Trending.t)
| DocumentBody (text : string).

(** A body and a status; [jsonify(x)] alone answers with status 200. *)
Definition Response : Type := (Body * Z)%type.

(** The character U+0022. *)
Definition dquote : string := String (ascii_of_nat 34) EmptyString.

(** [for x in xs: ...] collecting one result per element. *)
Fixpoint for_each {A B : Type} (f : A -> M B) (xs : list A) : M (list B) :=
  match xs with
  | [] => ret []
  | x :: xs' => y <- f x ;; ys <- for_each f xs' ;; ret (y :: ys)
  end.

(** ** Channel resolver and channel handler *)
Section Channel.
Context {R : Runtime}.

(** [get_channel_id_from_name] *)
Definition get_channel_id_from_name (name : string) : M (option string) :=
  search_data <- make_youtube_request "search"
    [("part", Api.PStr "snippet");
     ("q", Api.PStr name);
     ("type", Api.PStr "channel");
     ("maxResults", Api.PInt 1)] ;;
  match search_data with
  | Some (item :: _) => ret (Some (Api.channelId (Api.snippet item)))
  | _ => ret None
  end.

(** The resolution of the input, lines 262 to 270 of
    [get_channel_analytics] (and again lines 196 to 204 of
    [test_channel_resolution]). *)
Definition resolve_channel_id (channel_input : string) : M (option string) :=
  if startswith channel_input "@" then
    get_channel_id_from_name (drop_first channel_input)
  else if negb (startswith channel_input "UC")
          && negb (String.length channel_input =? 24)%nat then
    get_channel_id_from_name channel_input
  else ret (Some channel_input).

(** [get_channel_analytics].  [not channel_id] holds of [None] and of the
    empty string.  [channel_report] is the rest of the handler (lines 275
    to 359), which runs on the resolved id once there is one. *)
Definition get_channel_analytics (channel_report : string -> M Response)
    (channel_input : string) : M Response :=
  channel_id <- resolve_channel_id channel_input ;;
  let not_found : M Response :=
    ret (ErrorBody ("Channel " ++ dquote ++ channel_input ++ dquote ++ " not found"),
         404%Z) in
  match channel_id with
  | None => not_found
  | Some channel_id =>
      if String.eqb channel_id "" then not_found
      else channel_report channel_id
  end.

End Channel.

(** ** Video handler: the derived metrics of [get_video_analytics] *)
Section Video.
Context {R : Runtime}.

(** Line 385: [engagement_rate]; [None] stands for a raised
    [ZeroDivisionError]. *)
Definition engagement_rate (views likes comments : Z) : option Q :=
  if (0 <? views)%Z then
    match truediv (likes + comments) views with
    | Some ratio => Some (ratio * 100)%Q
    | None => None
    end
  else Some 0%Q.

(** Lines 410 to 415: [upload_frequency], from the reply to the search for
    the channel's videos. *)
Definition upload_frequency (channel_videos : option (list Api.Item)) : M Q :=
  match channel_videos with
  | Some ((first :: _ :: _) as items) =>
      latest <- parse_youtube_datetime (Api.publishedAt (Api.snippet first)) ;;
      oldest <- parse_youtube_datetime
                  (Api.publishedAt (Api.snippet (List.last items first))) ;;
      let days_diff := days (latest - oldest) in
      ret (if (0 <? days_diff)%Z
           then (inject_Z (len items) / inject_Z (Z.max days_diff 1))%Q
           else 0%Q)
  | _ => ret 0%Q
  end.

End Video.

(** ** Trending handler ([get_trending_analysis]) *)
Section TrendingHandler.
Context {R : Runtime}.

(** [round(views / hours_since_publish, 2) if hours_since_publish > 0 else 0] *)
Definition view_velocity (views : Z) (now published : Z) : Q :=
  let hours_since_publish := (total_seconds (now - published) / 3600)%Q in
  if Qlt_le_dec 0 hours_since_publish
  then round2 (inject_Z views / hours_since_publish)%Q
  else 0%Q.

(** Lines 513 to 534: the entry of an item of the most-popular listing. *)
Definition popular_entry (item : Api.Item) : M Entry.t :=
  let snippet := Api.snippet item in
  let stats := Api.statistics item in
  let content := Api.contentDetails item in
  let views := int_or_0 (Api.viewCount stats) in
  published <- parse_youtube_datetime (Api.publishedAt snippet) ;;
  now <- get_utc_now ;;
  ret {| Entry.id := Api.id item;
         Entry.title := Api.title snippet;
         Entry.channelTitle := Api.channelTitle snippet;
         Entry.publishedAt := Api.publishedAt snippet;
         Entry.thumbnails := Api.thumbnails snippet;
         Entry.viewCount := views;
         Entry.likeCount := int_or_0 (Api.likeCount stats);
         Entry.commentCount := int_or_0 (Api.commentCount stats);
         Entry.viewCountFormatted := format_number views;
         Entry.viewVelocity := view_velocity views now published;
         Entry.duration := parse_duration (Api.duration content) |}.

(** Lines 492 to 509: the entry of a search result and its details. *)
Definition searched_entry (item video : Api.Item) : M Entry.t :=
  let views := int_or_0 (Api.viewCount (Api.statistics video)) in
  published <- parse_youtube_datetime (Api.publishedAt (Api.snippet item)) ;;
  now <- get_utc_now ;;
  ret {| Entry.id := Api.videoId item;
         Entry.title := Api.title (Api.snippet item);
         Entry.channelTitle := Api.channelTitle (Api.snippet item);
         Entry.publishedAt := Api.publishedAt (Api.snippet item);
         Entry.thumbnails := Api.thumbnails (Api.snippet item);
         Entry.viewCount := views;
         Entry.likeCount := int_or_0 (Api.likeCount (Api.statistics video));
         Entry.commentCount := int_or_0 (Api.commentCount (Api.statistics video));
         Entry.viewCountFormatted := format_number views;
         Entry.viewVelocity := view_velocity views now published;
         Entry.duration := parse_duration (Api.duration (Api.contentDetails video)) |}.

(** Lines 489 to 509: [for i, item in enumerate(items)], an entry for
    each [i] below the number of details. *)
Fixpoint searched_entries (i : nat) (items details : list Api.Item)
  : M (list Entry.t) :=
  match items with
  | [] => ret []
  | item :: rest =>
      match nth_error details i with
      | Some video =>
          entry <- searched_entry item video ;;
          entries <- searched_entries (S i) rest details ;;
          ret (entry :: entries)
      | None => searched_entries (S i) rest details
      end
  end.

(** [(likeCount + commentCount) / max(viewCount, 1) * 100] *)
Definition engagement (video : Entry.t) : Q :=
  (inject_Z (Entry.likeCount video + Entry.commentCount video)
   / inject_Z (Z.max (Entry.viewCount video) 1) * 100)%Q.

Definition category_of (duration : Z) : string :=
  if (duration <? 300)%Z then "Short"
  else if (duration <? 1200)%Z then "Medium"
  else "Long".

(** Lines 541 to 554: one round of the loop over the videos. *)
Definition tally_category (categories : dict Category.t) (video : Entry.t)
  : dict Category.t :=
  let category := category_of (Entry.duration video) in
  let categories :=
    if dict_mem category categories then categories
    else dict_add category
           {| Category.count := 0; Category.totalViews := 0;
              Category.avgEngagement := 0 |} categories in
  dict_update category
    (fun data =>
       {| Category.count := Category.count data + 1;
          Category.totalViews := Category.totalViews data + Entry.viewCount video;
          Category.avgEngagement :=
            (Category.avgEngagement data + engagement video)%Q |})
    categories.

(** Lines 557 and 558: the sums of engagement become means. *)
Definition average_category (entry : string * Category.t) : string * Category.t :=
  let (category, data) := entry in
  (category,
   {| Category.count := Category.count data;
      Category.totalViews := Category.totalViews data;
      Category.avgEngagement :=
        (Category.avgEngagement data / inject_Z (Category.count data))%Q |}).

(** Lines 562 to 569: one round of the loop over the videos. *)
Definition tally_engagement (engagement_ranges : dict Z) (video : Entry.t)
  : dict Z :=
  let engagement_rate := engagement video in
  if Qlt_le_dec engagement_rate 2 then
    dict_update "Low (0-2%)" Z.succ engagement_ranges
  else if Qlt_le_dec engagement_rate 5 then
    dict_update "Medium (2-5%)" Z.succ engagement_ranges
  else
    dict_update "High (5%+)" Z.succ engagement_ranges.

(** Lines 536 to 591: what both tiers do with [trending_videos]. *)
Definition trending_report (region_code : string)
    (trending_videos : list Entry.t) : Response :=
  let trending_videos := sort_desc Entry.viewVelocity trending_videos in
  let categories := fold_left tally_category trending_videos [] in
  let categories := map average_category categories in
  let engagement_ranges :=
    fold_left tally_engagement trending_videos
      [("Low (0-2%)", 0%Z); ("Medium (2-5%)", 0%Z); ("High (5%+)", 0%Z)] in
  let nonempty := negb (len trending_videos =? 0)%Z in
  let result :=
    {| Trending.trendingVideos := firstn 30 trending_videos;
       Trending.region := upper region_code;
       Trending.summary :=
         {| Summary.totalVideos := len trending_videos;
            Summary.totalViews := sumZ (map Entry.viewCount trending_videos);
            Summary.averageViews :=
              if nonempty
              then (sumZ (map Entry.viewCount trending_videos) / len trending_videos)%Z
              else 0%Z;
            Summary.topPerformer := hd_error trending_videos;
            Summary.avgEngagement :=
              if nonempty
              then (sumQ (map engagement trending_videos)
                    / inject_Z (len trending_videos))%Q
              else 0%Q |};
       Trending.categoryBreakdown :=
         map (fun entry : string * Category.t =>
                let (cat, data) := entry in
                {| Breakdown.category := cat;
                   Breakdown.count := Category.count data;
                   Breakdown.avgViews :=
                     (Category.totalViews data / Category.count data)%Z;
                   Breakdown.avgEngagement := round2 (Category.avgEngagement data) |})
             categories;
       Trending.engagementDistribution :=
         map (fun entry : string * Z =>
                let (range_name, count) := entry in
                {| Band.range := range_name; Band.count := count |})
             engagement_ranges |} in
  (TrendingBody result, 200%Z).

(** [not data or not data.get('items')] *)
Definition no_items (data : option (list Api.Item)) : bool :=
  match data with
  | Some (_ :: _) => false
  | _ => true
  end.

(** [data['items']] *)
Definition items_of (data : option (list Api.Item)) : list Api.Item :=
  match data with
  | Some items => items
  | None => []
  end.

Definition get_trending_analysis (region_code : string) : M Response :=
  trending_data <- make_youtube_request "videos"
    [("part", Api.PStr "snippet,statistics,contentDetails");
     ("chart", Api.PStr "mostPopular");
     ("regionCode", Api.PStr (upper region_code));
     ("maxResults", Api.PInt 50)] ;;
  if no_items trending_data then
    now <- get_utc_now ;;
    let one_day_ago := isoformat (now - timedelta_days 1) in
    trending_data <- make_youtube_request "search"
      [("part", Api.PStr "snippet");
       ("type", Api.PStr "video");
       ("order", Api.PStr "viewCount");
       ("publishedAfter", Api.PStr one_day_ago);
       ("maxResults", Api.PInt 50);
       ("regionCode", Api.PStr (upper region_code))] ;;
    if no_items trending_data then
      ret (ErrorBody "No trending data available. This might be due to API quotas or restrictions.",
           404%Z)
    else
      let video_ids := map Api.videoId (items_of trending_data) in
      video_details <- make_youtube_request "videos"
        [("part", Api.PStr "statistics,contentDetails");
         ("id", Api.PStr (join "," video_ids))] ;;
      match video_details with
      | None => ret (ErrorBody "Failed to fetch video details", 500%Z)
      | Some details =>
          trending_videos <- searched_entries 0 (items_of trending_data) details ;;
          ret (trending_report region_code trending_videos)
      end
  else
    trending_videos <- for_each popular_entry (items_of trending_data) ;;
    ret (trending_report region_code trending_videos).

End TrendingHandler.

(** ** A reference runtime

    One implementation of the interface, for running the program on
    concrete inputs: durations in the designator form of ISO 8601 with
    weeks, days, hours, minutes and seconds; timestamps in the form the
    upstream API emits, [YYYY-MM-DDTHH:MM:SS+00:00]; rounding to the
    nearest multiple of the unit, ties to the even one. *)
Module Reference.

Definition digit_of (c : ascii) : option Z :=
  let n := nat_of_ascii c in
  if ((48 <=? n) && (n <=? 57))%nat then Some (Z.of_nat (n - 48)) else None.

(** The digits [s] starts with: their number, their value, and the rest. *)
Fixpoint read_digits (s : string) (count : nat) (value : Z) : nat * Z * string :=
  match s with
  | EmptyString => (count, value, s)
  | String c s' =>
      match digit_of c with
      | Some d => read_digits s' (S count) (10 * value + d)%Z
      | None => (count, value, s)
      end
  end.

(** A number with an optional fraction after a point or a comma. *)
Definition read_number (s : string) : option (Q * string) :=
  match read_digits s 0 0%Z with
  | (O, _, _) => None
  | (_, whole, String sep rest) =>
      if (Ascii.eqb sep "." || Ascii.eqb sep ",")%bool then
        match read_digits rest 0 0%Z with
        | (O, _, _) => None
        | (k, frac, rest') =>
            Some ((inject_Z whole + inject_Z frac / inject_Z (10 ^ Z.of_nat k))%Q, rest')
        end
      else Some (inject_Z whole, String sep rest)
  | (_, whole, rest) => Some (inject_Z whole, rest)
  end.

(** A number followed by the designator [unit], when [s] starts with one:
    its value, whether it was there, and the rest. *)
Definition read_unit (unit : ascii) (s : string) : Q * bool * string :=
  match read_number s with
  | Some (q, String c rest) =>
      if Ascii.eqb c unit then (q, true, rest) else (0%Q, false, s)
  | _ => (0%Q, false, s)
  end.

Definition duration_seconds (s : string) : option Q :=
  match s with
  | String "P" s0 =>
      let '(w, has_w, s1) := read_unit "W" s0 in
      let '(d, has_d, s2) := read_unit "D" s1 in
      let date_part := (w * 604800 + d * 86400)%Q in
      match s2 with
      | EmptyString => if (has_w || has_d)%bool then Some date_part else None
      | String "T" s3 =>
          let '(h, has_h, s4) := read_unit "H" s3 in
          let '(m, has_m, s5) := read_unit "M" s4 in
          let '(sec, has_s, s6) := read_unit "S" s5 in
          match s6 with
          | EmptyString =>
              if (has_h || has_m || has_s)%bool
              then Some (Qred (date_part + h * 3600 + m * 60 + sec))%Q
              else None
          | _ => None
          end
      | _ => None
      end
  | _ => None
  end.

(** Days since the epoch of a date of the proleptic Gregorian calendar. *)
Definition days_from_civil (y m d : Z) : Z :=
  let y := (if m <=? 2 then y - 1 else y)%Z in
  let era := (y / 400)%Z in
  let yoe := (y - era * 400)%Z in
  let doy := ((153 * (if 2 <? m then m - 3 else m + 9) + 2) / 5 + d - 1)%Z in
  let doe := (yoe * 365 + yoe / 4 - yoe / 100 + doy)%Z in
  (era * 146097 + doe - 719468)%Z.

(** The date of a day since the epoch: year, month, day. *)
Definition civil_from_days (z : Z) : Z * Z * Z :=
  let z := (z + 719468)%Z in
  let era := (z / 146097)%Z in
  let doe := (z - era * 146097)%Z in
  let yoe := ((doe - doe / 1460 + doe / 36524 - doe / 146096) / 365)%Z in
  let y := (yoe + era * 400)%Z in
  let doy := (doe - (365 * yoe + yoe / 4 - yoe / 100))%Z in
  let mp := ((5 * doy + 2) / 153)%Z in
  let d := (doy - (153 * mp + 2) / 5 + 1)%Z in
  let m := (if mp <? 10 then mp + 3 else mp - 9)%Z in
  ((if m <=? 2 then y + 1 else y)%Z, m, d).

(** Exactly [n] digits, then the rest. *)
Definition read_fixed (n : nat) (s : string) : option (Z * string) :=
  match read_digits (substring 0 n s) 0 0%Z with
  | (k, value, EmptyString) =>
      if (k =? n)%nat then Some (value, substring n (String.length s - n) s)
      else None
  | _ => None
  end.

(** The separator [sep], then exactly [n] digits. *)
Definition read_field (sep : string) (n : nat) (s : string) : option (Z * string) :=
  if startswith s sep
  then read_fixed n (substring (String.length sep)
                               (String.length s - String.length sep) s)
  else None.

Definition in_range (lo x hi : Z) : bool := ((lo <=? x) && (x <=? hi))%Z.

Definition timestamp_microseconds (s : string) : option Z :=
  match read_field "" 4 s with
  | Some (y, s) =>
  match read_field "-" 2 s with
  | Some (mo, s) =>
  match read_field "-" 2 s with
  | Some (d, s) =>
  match read_field "T" 2 s with
  | Some (h, s) =>
  match read_field ":" 2 s with
  | Some (mi, s) =>
  match read_field ":" 2 s with
  | Some (sec, s) =>
      if String.eqb s "+00:00"
         && in_range 1 mo 12 && in_range 1 d 31
         && in_range 0 h 23 && in_range 0 mi 59 && in_range 0 sec 59
      then Some ((((days_from_civil y mo d * 24 + h) * 60 + mi) * 60 + sec)
                 * microseconds_per_second)%Z
      else None
  | None => None end
  | None => None end
  | None => None end
  | None => None end
  | None => None end
  | None => None end.

(** [n] written with at least [width] digits. *)
Definition pad (width : nat) (n : Z) : string :=
  let digits := str n in
  string_of_list_ascii (repeat "0"%char (width - String.length digits)) ++ digits.

Definition timestamp_text (t : Z) : string :=
  let seconds := (t / microseconds_per_second)%Z in
  let micro := (t mod microseconds_per_second)%Z in
  let day := (seconds / 86400)%Z in
  let rest := (seconds mod 86400)%Z in
  let '(y, m, d) := civil_from_days day in
  pad 4 y ++ "-" ++ pad 2 m ++ "-" ++ pad 2 d ++ "T"
  ++ pad 2 (rest / 3600) ++ ":" ++ pad 2 (rest mod 3600 / 60) ++ ":"
  ++ pad 2 (rest mod 60)
  ++ (if (micro =? 0)%Z then "" else "." ++ pad 6 micro)
  ++ "+00:00".

(** The integer nearest to [x], the even one of two that are equally near. *)
Definition round_half_even (x : Q) : Z :=
  let f := Qfloor x in
  match ((x - inject_Z f) ?= 1 # 2)%Q with
  | Lt => f
  | Gt => (f + 1)%Z
  | Eq => if Z.even f then f else (f + 1)%Z
  end.

Definition round_to (unit_inverse : Z) (x : Q) : Q :=
  Qred (inject_Z (round_half_even (x * inject_Z unit_inverse)) / inject_Z unit_inverse).

Definition one_decimal (x : Q) : string :=
  let tenths := round_half_even (x * 10) in
  (if (tenths <? 0)%Z then "-" else "")
  ++ str (Z.abs tenths / 10) ++ "." ++ str (Z.abs tenths mod 10).

#[export] Instance runtime : Runtime := {
  YOUTUBE_API_KEY := Some "key";
  isodate_total_seconds := duration_seconds;
  fromisoformat := timestamp_microseconds;
  isoformat := timestamp_text;
  round2 := round_to 100;
  format_1f := one_decimal
}.

End Reference.

(** ** Sample inputs *)
Module Sample.

(** A video with the given id, publication time, counts and duration. *)
Definition video (id published : string) (views likes comments : Z)
    (duration : string) : Api.Item :=
  {| Api.id := id;
     Api.videoId := id;
     Api.snippet :=
       {| Api.title := "Video " ++ id;
          Api.channelTitle := "Channel";
          Api.channelId := "UC0123456789abcdefghijkl";
          Api.publishedAt := published;
          Api.thumbnails := [] |};
     Api.statistics :=
       {| Api.viewCount := Some views;
          Api.likeCount := Some likes;
          Api.commentCount := Some comments |};
     Api.contentDetails := {| Api.duration := duration |} |}.

(** Noon of 2 January 2024, UTC. *)
Definition noon : Z := 1704196800000000.

(** A world whose clock starts at [noon] and moves one millisecond with
    every reading, and whose upstream API gives the replies [script]. *)
Definition world (script : list (option (list Api.Item))) : World :=
  {| clock := fun n => (noon + 1000 * Z.of_nat n)%Z;
     reads := 0;
     replies := script;
     sent := [] |}.

(** Two videos of one channel, published twelve hours apart. *)
Definition same_day : list Api.Item :=
  [video "b" "2024-01-01T12:00:00Z" 100 5 3 "PT5M30S";
   video "a" "2024-01-01T00:00:00Z" 200 9 1 "PT25M"].

(** Three videos published ten days apart, the newest first. *)
Definition three_in_ten_days : list Api.Item :=
  [video "c" "2024-01-01T12:00:00Z" 100 5 3 "PT5M30S";
   video "b" "2023-12-28T08:00:00Z" 100 5 3 "PT3M";
   video "a" "2023-12-22T12:00:00Z" 200 9 1 "PT25M"].

(** Three videos published an hour before [noon], with 10, 50 and 30
    views. *)
Definition three_by_velocity : list Api.Item :=
  [video "a" "2024-01-02T11:00:00Z" 10 1 0 "PT4M";
   video "b" "2024-01-02T11:00:00Z" 50 2 1 "PT10M";
   video "c" "2024-01-02T11:00:00Z" 30 0 0 "PT30M"].

(** [n] videos published an hour before [noon], the [k]-th of them with
    [100 * k] views. *)
Definition listing (n : nat) : list Api.Item :=
  map (fun k : nat =>
         video (str (Z.of_nat k)) "2024-01-02T11:00:00Z"
               (100 * Z.of_nat k) (Z.of_nat k) 1 "PT4M")
      (seq 1 n).

(** An entry of a trending list with the given id, counts, velocity and
    duration. *)
Definition entry (id : string) (views likes comments : Z) (velocity : Q)
    (duration : Z) : Entry.t :=
  {| Entry.id := id;
     Entry.title := "Video " ++ id;
     Entry.channelTitle := "Channel";
     Entry.publishedAt := "2024-01-01T12:00:00Z";
     Entry.thumbnails := [];
     Entry.viewCount := views;
     Entry.likeCount := likes;
     Entry.commentCount := comments;
     Entry.viewCountFormatted := str views;
     Entry.viewVelocity := velocity;
     Entry.duration := duration |}.

(** Two videos found by a search, and their details in the other order. *)
Definition crossed_details : list Api.Item * list Api.Item :=
  ([video "a" "2024-01-02T11:00:00Z" 0 0 0 "";
    video "b" "2024-01-02T11:00:00Z" 0 0 0 ""],
   [video "b" "" 50 2 1 "PT10M";
    video "a" "" 10 1 0 "PT4M"]).

(** A video with a thumbnail of medium size. *)
Definition with_thumbnail (id : string) : Api.Item :=
  {| Api.id := id;
     Api.videoId := id;
     Api.snippet :=
       {| Api.title := "Video " ++ id;
          Api.channelTitle := "Channel";
          Api.channelId := "UC0123456789abcdefghijkl";
          Api.publishedAt := "2024-01-01T12:00:00Z";
          Api.thumbnails :=
            [("default", {| Api.url := "https://img.example/" ++ id ++ "/default.jpg";
                            Api.width := 120; Api.height := 90 |});
             ("medium", {| Api.url := "https://img.example/" ++ id ++ "/mqdefault.jpg";
                           Api.width := 320; Api.height := 180 |})] |};
     Api.statistics :=
       {| Api.viewCount := None; Api.likeCount := None; Api.commentCount := None |};
     Api.contentDetails := {| Api.duration := "PT1M" |} |}.

End Sample.

(** ** Video handler, continued: further blocks of [get_video_analytics] *)

(** [a / b] on floats: [None] stands for the [ZeroDivisionError] raised
    when [b] is zero. *)
Definition float_truediv (a b : Q) : option Q :=
  if Qeq_bool b 0 then None else Some (a / b)%Q.

(** An element of [related_videos]. *)
Module Related.
Record t : Type := {
  id : string;
  title : string;
  thumbnail : string
}.
End Related.

Section VideoBlocks.
Context {R : Runtime}.

(** Line 436, [viewsPerHour]: the clock is read before the timestamp of
    the video is; [None] stands for a raised [ZeroDivisionError]. *)
Definition views_per_hour (views : Z) (publishedAt : string) : M (option Q) :=
  if (0 <? views)%Z then
    now <- get_utc_now ;;
    published <- parse_youtube_datetime publishedAt ;;
    ret (match float_truediv (inject_Z views)
                 (total_seconds (now - published) / 3600)%Q with
         | Some rate => Some (round2 rate)
         | None => None
         end)
  else ret (Some 0%Q).

(** Lines 398 to 404, the loop over the channel's videos; [None] stands
    for the [KeyError] raised when a video has no thumbnail of medium
    size. *)
Fixpoint collect_related (video_id : string) (items : list Api.Item)
    (related_videos : list Related.t) : option (list Related.t) :=
  match items with
  | [] => Some related_videos
  | item :: rest =>
      if negb (String.eqb (Api.videoId item) video_id) then
        match dict_get "medium" (Api.thumbnails (Api.snippet item)) with
        | Some medium =>
            collect_related video_id rest
              (related_videos
               ++ [{| Related.id := Api.videoId item;
                      Related.title := Api.title (Api.snippet item);
                      Related.thumbnail := Api.url medium |}])%list
        | None => None
        end
      else collect_related video_id rest related_videos
  end.

(** Lines 396 to 404: [related_videos], from the reply to the search for
    the channel's videos. *)
Definition related_videos (video_id : string)
    (channel_videos : option (list Api.Item)) : option (list Related.t) :=
  match channel_videos with
  | Some ((_ :: _) as items) => collect_related video_id items []
  | _ => Some []
  end.

(** Line 441: the [relatedVideos] of the response, [related_videos[:3]]. *)
Definition relatedVideos (video_id : string)
    (channel_videos : option (list Api.Item)) : option (list Related.t) :=
  option_map (firstn 3) (related_videos video_id channel_videos).

End VideoBlocks.

(** ** Channel handler, continued: the recent videos of the channel and
    what [get_channel_analytics] derives from them *)

(** [xs[start:]] *)
Definition slice_from {A : Type} (start : Z) (xs : list A) : list A :=
  let start := (if start <? 0 then Z.max (len xs + start) 0 else start)%Z in
  skipn (Z.to_nat start) xs.

(** [max(xs, key=key)] on a list that is not empty: the first of the
    elements with the largest key. *)
Fixpoint max_by {A : Type} (key : A -> Z) (best : A) (xs : list A) : A :=
  match xs with
  | [] => best
  | x :: xs' => max_by key (if (key best <? key x)%Z then x else best) xs'
  end.

(** An element of [video_stats]. *)
Module Stat.
Record t : Type := {
  title : string;
  publishedAt : string;
  views : Z;
  likes : Z;
  comments : Z;
  duration : Z
}.
End Stat.

(** An element of [trendData]. *)
Module Trend.
Record t : Type := {
  date : string;
  views : Z
}.
End Trend.

Module Enhanced.
Record t : Type := {
  avgViewsPerVideo : Z;
  avgEngagementRate : Q;
  contentDistribution : dict Z;
  topPerformingVideo : option Stat.t
}.
End Enhanced.

Section ChannelVideos.
Context {R : Runtime}.

(** [t.strftime('%Y-%m-%d')] and [round(x)] on a float, from the
    libraries. *)
Variable strftime_date : Z -> string.
Variable round_int : Q -> Z.

(** Lines 306 to 314: the loop over the details; [None] stands for the
    [IndexError] raised when the search has no item at the position of a
    detail. *)
Fixpoint collect_stats (i : nat) (details items : list Api.Item)
    (video_stats : list Stat.t) : option (list Stat.t) :=
  match details with
  | [] => Some video_stats
  | video :: rest =>
      match nth_error items i with
      | Some item =>
          collect_stats (S i) rest items
            (video_stats
             ++ [{| Stat.title := Api.title (Api.snippet item);
                    Stat.publishedAt := Api.publishedAt (Api.snippet item);
                    Stat.views := int_or_0 (Api.viewCount (Api.statistics video));
                    Stat.likes := int_or_0 (Api.likeCount (Api.statistics video));
                    Stat.comments :=
                      int_or_0 (Api.commentCount (Api.statistics video));
                    Stat.duration :=
                      parse_duration (Api.duration (Api.contentDetails video)) |}])%list
      | None => None
      end
  end.

(** Lines 288 to 314: [video_stats], the recent videos of the channel. *)
Definition recent_video_stats (channel_id : string) : M (option (list Stat.t)) :=
  videos_data <- make_youtube_request "search"
    [("part", Api.PStr "snippet");
     ("channelId", Api.PStr channel_id);
     ("type", Api.PStr "video");
     ("order", Api.PStr "date");
     ("maxResults", Api.PInt 10)] ;;
  match videos_data with
  | Some ((_ :: _) as items) =>
      let video_ids := map Api.videoId items in
      video_details <- make_youtube_request "videos"
        [("part", Api.PStr "statistics,contentDetails");
         ("id", Api.PStr (join "," video_ids))] ;;
      match video_details with
      | Some details => ret (collect_stats 0 details items [])
      | None => ret (Some [])
      end
  | _ => ret (Some [])
  end.

(** Line 317 *)
Definition avg_views_per_video (video_stats : list Stat.t) : Q :=
  match video_stats with
  | [] => 0%Q
  | _ => (inject_Z (sumZ (map Stat.views video_stats))
          / inject_Z (len video_stats))%Q
  end.

(** Line 318 *)
Definition avg_engagement (video_stats : list Stat.t) : Q :=
  match video_stats with
  | [] => 0%Q
  | _ =>
      (sumQ (map (fun v => inject_Z (Stat.likes v + Stat.comments v)
                           / inject_Z (Z.max (Stat.views v) 1) * 100)
                 video_stats)
       / inject_Z (len video_stats))%Q
  end.

(** Lines 321 to 328 *)
Definition duration_analysis (video_stats : list Stat.t) : dict Z :=
  fold_left
    (fun (duration_analysis : dict Z) (video : Stat.t) =>
       if (Stat.duration video <? 300)%Z then
         dict_update "short" Z.succ duration_analysis
       else if (Stat.duration video <? 1200)%Z then
         dict_update "medium" Z.succ duration_analysis
       else
         dict_update "long" Z.succ duration_analysis)
    video_stats
    [("short", 0%Z); ("medium", 0%Z); ("long", 0%Z)].

(** Lines 346 to 350: one element of [trendData]. *)
Definition trend_point (video_stats : list Stat.t) (i : Z) : M Trend.t :=
  now <- get_utc_now ;;
  ret {| Trend.date := strftime_date (now - timedelta_days i);
         Trend.views :=
           sumZ (if (i <? len video_stats)%Z
                 then map Stat.views (slice_from (- i - 1) video_stats)
                 else [0%Z]) |}.

(** Lines 346 to 350: [trendData], for [i] from 7 down to 0. *)
Definition trendData (video_stats : list Stat.t) : M (list Trend.t) :=
  for_each (trend_point video_stats) [7; 6; 5; 4; 3; 2; 1; 0]%Z.

(** Lines 351 to 356: [enhancedAnalytics]. *)
Definition enhancedAnalytics (video_stats : list Stat.t) : Enhanced.t :=
  {| Enhanced.avgViewsPerVideo := round_int (avg_views_per_video video_stats);
     Enhanced.avgEngagementRate := round2 (avg_engagement video_stats);
     Enhanced.contentDistribution := duration_analysis video_stats;
     Enhanced.topPerformingVideo :=
       match video_stats with
       | [] => None
       | first :: rest => Some (max_by Stat.views first rest)
       end |}.

End ChannelVideos.

(** ** Comment analyzer ([get_video_comments_analysis]) *)

(** The class [\s] of a pattern on text and the separators of
    [str.split()], on code points below 256: the ASCII white space, the
    separators U+001C to U+001F, the next-line control U+0085 and the
    no-break space U+00A0. *)
Definition is_space (c : ascii) : bool :=
  let n := nat_of_ascii c in
  (((9 <=? n) && (n <=? 13)) || ((28 <=? n) && (n <=? 32))
   || (n =? 133) || (n =? 160))%nat.

(** The class [\w] of a pattern on text, on code points below 256: the
    letters and the digits of ASCII, the underscore, and the letters and
    numeric characters of Latin-1. *)
Definition is_word (c : ascii) : bool :=
  let n := nat_of_ascii c in
  (((48 <=? n) && (n <=? 57)) || ((65 <=? n) && (n <=? 90))
   || ((97 <=? n) && (n <=? 122)) || (n =? 95)
   || (n =? 170) || (n =? 178) || (n =? 179) || (n =? 181)
   || (n =? 185) || (n =? 186) || ((188 <=? n) && (n <=? 190))
   || ((192 <=? n) && (n <=? 214)) || ((216 <=? n) && (n <=? 246))
   || ((248 <=? n) && (n <=? 255)))%nat.

(** [re.sub(r'[^\w\s]', '', s)] *)
Fixpoint strip_punctuation (s : string) : string :=
  match s with
  | EmptyString => EmptyString
  | String c s' =>
      if is_word c || is_space c then String c (strip_punctuation s')
      else strip_punctuation s'
  end.

(** [s.split()]: the maximal runs of characters that are no white space;
    [word] is the run read so far. *)
Fixpoint split_from (s : string) (word : string) : list string :=
  match s with
  | EmptyString => if String.eqb word "" then [] else [word]
  | String c s' =>
      if is_space c then
        if String.eqb word "" then split_from s' ""
        else word :: split_from s' ""
      else split_from s' (word ++ String c "")
  end.

Definition split (s : string) : list string := split_from s "".

(** [counter.update(words)] on a [Counter]: a word not counted yet enters
    behind the others. *)
Definition counter_update (counter : dict Z) (words : list string) : dict Z :=
  fold_left
    (fun (counter : dict Z) (word : string) =>
       if dict_mem word counter then dict_update word Z.succ counter
       else dict_add word 1%Z counter)
    words counter.

(** [counter.most_common(n)]: the [n] entries of the largest counts, the
    largest first, entries of equal count in the order they entered. *)
Definition most_common (n : nat) (counter : dict Z) : list (string * Z) :=
  firstn n (sort_desc (fun entry => inject_Z (snd entry)) counter).

(** [Counter(xs).get(x, 0)] *)
Definition occurrences (x : Sentiment) (xs : list Sentiment) : Z :=
  len (filter (fun y => match x, y with
                        | positive, positive => true
                        | negative, negative => true
                        | neutral, neutral => true
                        | _, _ => false
                        end) xs).

(** The snippet of the top-level comment of a comment thread,
    [item['snippet']['topLevelComment']['snippet']], with the members the
    program reads. *)
Module Comment.
Record t : Type := {
  textDisplay : string;
  likeCount : option Z;
  publishedAt : string
}.
End Comment.

(** An element of [comments]. *)
Module Remark.
Record t : Type := {
  text : string;
  likeCount : Z;
  sentiment : Sentiment;
  publishedAt : string
}.
End Remark.

Module Distribution.
Record t : Type := {
  positive : Z;
  negative : Z;
  neutral : Z
}.
End Distribution.

Module Analysis.
Record t : Type := {
  comments : list Remark.t;
  sentimentDistribution : Distribution.t;
  topWords : dict Z;
  totalComments : Z
}.
End Analysis.

(** Lines 133 and 134: the words of a comment that enter the count. *)
Definition counted_words (text : string) : list string :=
  let clean_text := strip_punctuation (lower text) in
  filter (fun word => (3 <? String.length word)%nat) (split clean_text).

(** Lines 140 to 145: the element of [comments] for a comment. *)
Definition remark (comment : Comment.t) : Remark.t :=
  let text := Comment.textDisplay comment in
  {| Remark.text :=
       if (100 <? String.length text)%nat
       then substring 0 100 text ++ "..."
       else text;
     Remark.likeCount := int_or_0 (Comment.likeCount comment);
     Remark.sentiment := analyze_sentiment text;
     Remark.publishedAt := Comment.publishedAt comment |}.

(** Lines 121 to 159 of [get_video_comments_analysis], from the reply to
    the request for the comment threads of the video: [None] when there is
    no reply or none with items.  The loop adds one element to [comments]
    and to [sentiments] for each item and counts the words of each. *)
Definition comments_analysis (comments_data : option (list Comment.t))
  : option Analysis.t :=
  match comments_data with
  | Some ((_ :: _) as items) =>
      let comments := map remark items in
      let sentiments :=
        map (fun comment => analyze_sentiment (Comment.textDisplay comment)) items in
      let word_freq :=
        fold_left
          (fun (word_freq : dict Z) (comment : Comment.t) =>
             counter_update word_freq (counted_words (Comment.textDisplay comment)))
          items [] in
      Some {| Analysis.comments := firstn 20 comments;
              Analysis.sentimentDistribution :=
                {| Distribution.positive := occurrences positive sentiments;
                   Distribution.negative := occurrences negative sentiments;
                   Distribution.neutral := occurrences neutral sentiments |};
              Analysis.topWords := most_common 10 word_freq;
              Analysis.totalComments := len comments |}
  | _ => None
  end.

(** ** Health check ([health_check]) *)
Module Health.
Record t : Type := {
  status : string;
  timestamp : string;
  api_key_configured : bool;
  api_key_length : Z
}.
End Health.

Section HealthCheck.
Context {R : Runtime}.

(** [bool(YOUTUBE_API_KEY)]: [None] and the empty text are false. *)
Definition key_configured : bool :=
  match YOUTUBE_API_KEY with
  | Some k => negb (String.eqb k "")
  | None => false
  end.

Definition health_check : M Health.t :=
  now <- get_utc_now ;;
  ret {| Health.status := "healthy";
         Health.timestamp := isoformat now;
         Health.api_key_configured := key_configured;
         Health.api_key_length :=
           if key_configured
           then match YOUTUBE_API_KEY with
                | Some k => Z.of_nat (String.length k)
                | None => 0%Z
                end
           else 0%Z |}.

End HealthCheck.

(** ** More sample inputs *)
Module MoreSamples.

(** Three recent videos, the newest first. *)
Definition stats : list Stat.t :=
  [{| Stat.title := "c"; Stat.publishedAt := "2024-01-01T12:00:00Z";
      Stat.views := 100; Stat.likes := 5; Stat.comments := 3;
      Stat.duration := 330 |};
   {| Stat.title := "b"; Stat.publishedAt := "2023-12-28T08:00:00Z";
      Stat.views := 700; Stat.likes := 5; Stat.comments := 3;
      Stat.duration := 180 |};
   {| Stat.title := "a"; Stat.publishedAt := "2023-12-22T12:00:00Z";
      Stat.views := 200; Stat.likes := 9; Stat.comments := 1;
      Stat.duration := 1500 |}].

(** The date of an instant, as [YYYY-MM-DD]. *)
Definition date_text (t : Z) : string :=
  let '(y, m, d) := Reference.civil_from_days (t / microseconds_per_day) in
  Reference.pad 4 y ++ "-" ++ Reference.pad 2 m ++ "-" ++ Reference.pad 2 d.

(** Three comments on a video. *)
Definition comments : list Comment.t :=
  [{| Comment.textDisplay := "Great video, thanks! Really GREAT editing.";
      Comment.likeCount := Some 12%Z;
      Comment.publishedAt := "2024-01-01T12:00:00Z" |};
   {| Comment.textDisplay := "The editing was boring and the sound terrible";
      Comment.likeCount := None;
      Comment.publishedAt := "2024-01-01T13:00:00Z" |};
   {| Comment.textDisplay := "First!";
      Comment.likeCount := Some 0%Z;
      Comment.publishedAt := "2024-01-01T14:00:00Z" |}].

(** A comment of 109 characters, with its one negative word at the end. *)
Definition long_comment : Comment.t :=
  {| Comment.textDisplay :=
       string_of_list_ascii (repeat "x"%char 100) ++ " terrible";
     Comment.likeCount := Some 1%Z;
     Comment.publishedAt := "2024-01-01T12:00:00Z" |}.

End MoreSamples.

(* ================================================================== *)
(** * Part II: the vocabulary of the properties *)
(* ================================================================== *)

Section Vocabulary.
Context {R : Runtime}.

(** [w] occurs in [s]: [s] is some text, then [w], then some text. *)
Definition occurs_in (w s : string) : Prop :=
  exists pre post : string, s = pre ++ w ++ post.

(** [term_count t words k]: exactly [k] entries of [words] occur in [t];
    an entry counts once, however often it occurs in [t]. *)
Inductive term_count (t : string) : list string -> nat -> Prop :=
| tc_nil : term_count t [] 0
| tc_hit (w : string) (ws : list string) (k : nat) :
    occurs_in w t -> term_count t ws k -> term_count t (w :: ws) (S k)
| tc_miss (w : string) (ws : list string) (k : nat) :
    ~ occurs_in w t -> term_count t ws k -> term_count t (w :: ws) k.

(** The reply the upstream API gives to the [n]-th coming request; a
    request beyond the script fails. *)
Definition reply_at (w : World) (n : nat) : option (list Api.Item) :=
  nth n (replies w) None.

(** The world once [request] has gone out and its reply has come in. *)
Definition after_request (w : World) (request : Api.Request) : World :=
  {| clock := clock w; reads := reads w;
     replies := tl (replies w); sent := (sent w ++ [request])%list |}.

(** The world once the clock has been read. *)
Definition after_reading (w : World) : World :=
  {| clock := clock w; reads := S (reads w);
     replies := replies w; sent := sent w |}.

(** The parameter that carries the API key. *)
Definition key_param : string * Api.Param :=
  ("key", match YOUTUBE_API_KEY with
          | Some k => Api.PStr k
          | None => Api.PNone
          end).

(** The library understands the timestamp [date_string] as the instant
    [t]. *)
Definition reads_as (date_string : string) (t : Z) : Prop :=
  forall w : World, parse_youtube_datetime date_string w = (t, w).

(** The search for a channel by name: one result, of type channel. *)
Definition channel_search (name : string) : Api.Request :=
  {| Api.endpoint := "search";
     Api.params :=
       [("part", Api.PStr "snippet");
        ("q", Api.PStr name);
        ("type", Api.PStr "channel");
        ("maxResults", Api.PInt 1);
        key_param] |}.

(** The channel id of the first hit of a reply, if it has one. *)
Definition first_hit (reply : option (list Api.Item)) : option string :=
  match reply with
  | Some (item :: _) => Some (Api.channelId (Api.snippet item))
  | _ => None
  end.

(** The answer to a channel that was not found. *)
Definition channel_not_found (channel_input : string) : Response :=
  (ErrorBody ("Channel " ++ dquote ++ channel_input ++ dquote ++ " not found"),
   404%Z).

(** The input is one the resolver looks up by a search. *)
Definition searched_for (channel_input : string) : Prop :=
  startswith channel_input "@" = true
  \/ (startswith channel_input "UC" = false
      /\ String.length channel_input <> 24%nat).

(** The most-popular listing of a region, up to 50 items. *)
Definition popular_listing (region_code : string) : Api.Request :=
  {| Api.endpoint := "videos";
     Api.params :=
       [("part", Api.PStr "snippet,statistics,contentDetails");
        ("chart", Api.PStr "mostPopular");
        ("regionCode", Api.PStr (upper region_code));
        ("maxResults", Api.PInt 50);
        key_param] |}.

(** The search for the videos published after [since], ordered by
    [order]. *)
Definition recent_search (region_code order : string) (since : Z) : Api.Request :=
  {| Api.endpoint := "search";
     Api.params :=
       [("part", Api.PStr "snippet");
        ("type", Api.PStr "video");
        ("order", Api.PStr order);
        ("publishedAfter", Api.PStr (isoformat since));
        ("maxResults", Api.PInt 50);
        ("regionCode", Api.PStr (upper region_code));
        key_param] |}.

(** The batch request for the statistics and content details of the
    videos found. *)
Definition details_lookup (found : list Api.Item) : Api.Request :=
  {| Api.endpoint := "videos";
     Api.params :=
       [("part", Api.PStr "statistics,contentDetails");
        ("id", Api.PStr (join "," (map Api.videoId found)));
        key_param] |}.

Definition no_trending_data : Response :=
  (ErrorBody "No trending data available. This might be due to API quotas or restrictions.",
   404%Z).

Definition details_failed : Response :=
  (ErrorBody "Failed to fetch video details", 500%Z).

(** [m] makes no request: it leaves the log and the script as they are. *)
Definition quiet {A : Type} (m : M A) : Prop :=
  forall w : World,
    sent (snd (m w)) = sent w /\ replies (snd (m w)) = replies w.

(** The entries the handler builds, in upstream order, before it ranks
    them: one for each item of the most-popular listing, or, in the second
    tier, one for each video found that has details. *)
Definition fetched_videos (region_code : string) (w : World) : list Entry.t :=
  let w1 := after_request w (popular_listing region_code) in
  let since := (clock w (reads w) - microseconds_per_day)%Z in
  let w3 := after_request (after_reading w1)
              (recent_search region_code "viewCount" since) in
  let found := items_of (reply_at w 1) in
  let w4 := after_request w3 (details_lookup found) in
  if no_items (reply_at w 0) then
    if no_items (reply_at w 1) then []
    else match reply_at w 2 with
         | None => []
         | Some details => fst (searched_entries 0 found details w4)
         end
  else fst (for_each popular_entry (items_of (reply_at w 0)) w1).

(** The report a response carries, if it carries one. *)
Definition report_in (response : Response) : option Trending.t :=
  match fst response with
  | TrendingBody result => Some result
  | _ => None
  end.

(** The band of the engagement of a video. *)
Definition band_of (video : Entry.t) : string :=
  if Qlt_le_dec (engagement video) 2 then "Low (0-2%)"
  else if Qlt_le_dec (engagement video) 5 then "Medium (2-5%)"
  else "High (5%+)".

(** The videos of [videos] in the band [range]. *)
Definition in_band (range : string) (videos : list Entry.t) : list Entry.t :=
  filter (fun video => String.eqb (band_of video) range) videos.

(** What a video adds to the data of its category. *)
Definition credit (video : Entry.t) (data : Category.t) : Category.t :=
  {| Category.count := Category.count data + 1;
     Category.totalViews := Category.totalViews data + Entry.viewCount video;
     Category.avgEngagement :=
       (Category.avgEngagement data + engagement video)%Q |}.

Definition no_data : Category.t :=
  {| Category.count := 0; Category.totalViews := 0; Category.avgEngagement := 0 |}.

(** The videos of [videos] in the duration category [category]. *)
Definition in_category (category : string) (videos : list Entry.t)
  : list Entry.t :=
  filter (fun video => String.eqb (category_of (Entry.duration video)) category)
         videos.

(** The data of a category after the videos [videos] have been added. *)
Definition accumulate (videos : list Entry.t) (start : Category.t) : Category.t :=
  fold_left (fun data video => credit video data) videos start.

(** The row of [categoryBreakdown] for an entry of [categories]. *)
Definition breakdown_row (entry : string * Category.t) : Breakdown.t :=
  let (cat, data) := entry in
  {| Breakdown.category := cat;
     Breakdown.count := Category.count data;
     Breakdown.avgViews := (Category.totalViews data / Category.count data)%Z;
     Breakdown.avgEngagement := round2 (Category.avgEngagement data) |}.

End Vocabulary.

(** Lists ranked by a key. *)
Section Ranked.
Context {A : Type} (key : A -> Q).

(** [a] may stand before [b] in a list ranked by falling key. *)
Definition ranks_before (a b : A) : Prop := (key b <= key a)%Q.

(** The elements of [l] whose key is [v], in their order in [l]. *)
Definition with_key (v : Q) (l : list A) : list A :=
  filter (fun a => Qeq_bool (key a) v) l.

End Ranked.

(** ** Vocabulary of the further properties *)
Section FurtherVocabulary.
Context {R : Runtime}.

(** The request carries the API key as its last parameter. *)
Definition carries_key (request : Api.Request) : Prop :=
  exists others : list (string * Api.Param),
    Api.params request = (others ++ [key_param])%list.

(** The report on no video at all. *)
Definition empty_report (region_code : string) : Trending.t :=
  {| Trending.trendingVideos := [];
     Trending.region := upper region_code;
     Trending.summary :=
       {| Summary.totalVideos := 0;
          Summary.totalViews := 0;
          Summary.averageViews := 0;
          Summary.topPerformer := None;
          Summary.avgEngagement := 0 |};
     Trending.categoryBreakdown := [];
     Trending.engagementDistribution :=
       [{| Band.range := "Low (0-2%)"; Band.count := 0 |};
        {| Band.range := "Medium (2-5%)"; Band.count := 0 |};
        {| Band.range := "High (5%+)"; Band.count := 0 |}] |}.

(** The entry [video] shows the search result [item] with the counts and
    the duration of the details [details]. *)
Definition shows (item details : Api.Item) (video : Entry.t) : Prop :=
  Entry.id video = Api.videoId item
  /\ Entry.title video = Api.title (Api.snippet item)
  /\ Entry.publishedAt video = Api.publishedAt (Api.snippet item)
  /\ Entry.viewCount video = int_or_0 (Api.viewCount (Api.statistics details))
  /\ Entry.likeCount video = int_or_0 (Api.likeCount (Api.statistics details))
  /\ Entry.commentCount video
     = int_or_0 (Api.commentCount (Api.statistics details))
  /\ Entry.duration video
     = parse_duration (Api.duration (Api.contentDetails details)).

End FurtherVocabulary.

(** [int(text)] on the decimal text of an integer: [None] when the text is
    no integer. *)
Definition int_of_text (text : string) : option Z :=
  option_map Z.of_int (NilZero.int_of_string text).

(** ** Vocabulary of the video blocks *)
Section VideoVocabulary.
Context {R : Runtime}.

(** The library cannot read the timestamp: reading it is reading the
    clock. *)
Definition unreadable (date_string : string) : Prop :=
  forall w : World, parse_youtube_datetime date_string w = get_utc_now w.

(** The item is another video than [video_id]. *)
Definition other_than (video_id : string) (item : Api.Item) : bool :=
  negb (String.eqb (Api.videoId item) video_id).

(** The item has a thumbnail of medium size. *)
Definition has_medium (item : Api.Item) : bool :=
  match dict_get "medium" (Api.thumbnails (Api.snippet item)) with
  | Some _ => true
  | None => false
  end.

(** The element of [related_videos] for an item. *)
Definition related_of (item : Api.Item) : Related.t :=
  {| Related.id := Api.videoId item;
     Related.title := Api.title (Api.snippet item);
     Related.thumbnail :=
       match dict_get "medium" (Api.thumbnails (Api.snippet item)) with
       | Some medium => Api.url medium
       | None => ""
       end |}.

End VideoVocabulary.

(** ** Vocabulary of the channel's recent videos *)
Section ChannelVocabulary.
Context {R : Runtime}.

(** The search for the ten most recent videos of a channel. *)
Definition recent_videos_search (channel_id : string) : Api.Request :=
  {| Api.endpoint := "search";
     Api.params :=
       [("part", Api.PStr "snippet");
        ("channelId", Api.PStr channel_id);
        ("type", Api.PStr "video");
        ("order", Api.PStr "date");
        ("maxResults", Api.PInt 10);
        key_param] |}.

(** The element of [video_stats] with the title and the publication time
    of [item] and the counts and the duration of [video]. *)
Definition stat_of (item video : Api.Item) : Stat.t :=
  {| Stat.title := Api.title (Api.snippet item);
     Stat.publishedAt := Api.publishedAt (Api.snippet item);
     Stat.views := int_or_0 (Api.viewCount (Api.statistics video));
     Stat.likes := int_or_0 (Api.likeCount (Api.statistics video));
     Stat.comments := int_or_0 (Api.commentCount (Api.statistics video));
     Stat.duration := parse_duration (Api.duration (Api.contentDetails video)) |}.

(** The last [n] elements of a list. *)
Definition last_n {A : Type} (n : nat) (xs : list A) : list A :=
  skipn (length xs - n) xs.

(** The views of the point of the trend for [i] days ago. *)
Definition trend_views (video_stats : list Stat.t) (i : nat) : Z :=
  if (i <? length video_stats)%nat
  then sumZ (map Stat.views (last_n (S i) video_stats))
  else 0%Z.

(** The number of videos whose duration is at least [low] seconds and
    less than [high]. *)
Definition lasting (low high : Z) (video_stats : list Stat.t) : Z :=
  len (filter (fun v => (low <=? Stat.duration v)%Z
                        && (Stat.duration v <? high)%Z) video_stats).

(** The number of videos whose duration is at least [low] seconds. *)
Definition lasting_from (low : Z) (video_stats : list Stat.t) : Z :=
  len (filter (fun v => (low <=? Stat.duration v)%Z) video_stats).

(** The number of videos whose duration is less than [high] seconds. *)
Definition lasting_below (high : Z) (video_stats : list Stat.t) : Z :=
  len (filter (fun v => (Stat.duration v <? high)%Z) video_stats).

End ChannelVocabulary.

(** ** Vocabulary of the comment analyzer *)

(** The character [c] occurs in the text [s]. *)
Definition char_in (c : ascii) (s : string) : Prop :=
  In c (list_ascii_of_string s).

(** The words of all the comments that enter the count, in order. *)
Definition all_counted_words (items : list Comment.t) : list string :=
  flat_map (fun comment => counted_words (Comment.textDisplay comment)) items.

(** How often [word] stands in [words]. *)
Definition times (word : string) (words : list string) : Z :=
  Z.of_nat (count_occ string_dec words word).

(** The comments whose full text is classified as [label]. *)
Definition classified (label : Sentiment) (items : list Comment.t)
  : list Comment.t :=
  filter (fun comment =>
            match label, analyze_sentiment (Comment.textDisplay comment) with
            | positive, positive => true
            | negative, negative => true
            | neutral, neutral => true
            | _, _ => false
            end) items.

(* ================================================================== *)
(** * Part III: properties *)
(* ================================================================== *)

(** ** Strings *)

Lemma startswith_true_iff (s p : string) :
  startswith s p = true <-> exists post, s = p ++ post.
Proof.
  revert s; induction p as [|c p IH]; intros s; simpl.
  - split; [intros _; now exists s | reflexivity].
  - destruct s as [|d s].
    + split; [discriminate | intros [post H]; discriminate].
    + rewrite andb_true_iff, Ascii.eqb_eq, IH.
      split.
      * intros [-> [post ->]]. now exists post.
      * intros [post H]. inversion H. split; [reflexivity | now exists post].
Qed.

Lemma contains_true_iff (w s : string) :
  contains w s = true <-> occurs_in w s.
Proof.
  unfold occurs_in. induction s as [|c s IH]; simpl.
  - destruct (startswith "" w) eqn:E.
    + split; [intros _|reflexivity].
      apply startswith_true_iff in E. destruct E as [post E].
      now exists "", post.
    + split; [discriminate|]. intros [pre [post H]].
      destruct pre; simpl in H; [|discriminate].
      assert (startswith "" w = true)
        by (apply startswith_true_iff; now exists post).
      congruence.
  - destruct (startswith (String c s) w) eqn:E.
    + split; [intros _|reflexivity].
      apply startswith_true_iff in E. destruct E as [post E].
      now exists "", post.
    + rewrite IH. split.
      * intros [pre [post H]]. exists (String c pre), post. simpl. now rewrite H.
      * intros [pre [post H]]. destruct pre as [|d pre]; simpl in H.
        -- assert (startswith (String c s) w = true)
             by (apply startswith_true_iff; now exists post).
           congruence.
        -- inversion H. now exists pre, post.
Qed.

(** ** Sentiment classifier *)

Lemma sum_ones_length {A : Type} (p : A -> bool) (xs : list A) :
  sum_ones p xs = length (filter p xs).
Proof.
  unfold sum_ones. induction (filter p xs) as [|x l IH]; simpl; congruence.
Qed.

Lemma sum_ones_cons {A : Type} (p : A -> bool) (x : A) (xs : list A) :
  sum_ones p (x :: xs) = ((if p x then 1 else 0) + sum_ones p xs)%nat.
Proof. rewrite !sum_ones_length. simpl. now destruct (p x). Qed.

Lemma term_count_sum_ones (t : string) (ws : list string) :
  term_count t ws (sum_ones (fun word => contains word t) ws).
Proof.
  induction ws as [|w ws IH].
  - constructor.
  - rewrite sum_ones_cons. destruct (contains w t) eqn:E.
    + apply tc_hit; [now apply contains_true_iff | exact IH].
    + apply tc_miss; [|exact IH].
      intros H. apply contains_true_iff in H. congruence.
Qed.

Lemma term_count_functional (t : string) (ws : list string) (j k : nat) :
  term_count t ws j -> term_count t ws k -> j = k.
Proof.
  intros Hj. revert k.
  induction Hj as [|w ws j Hw _ IH|w ws j Hw _ IH]; intros k Hk;
    inversion Hk; subst; try contradiction; auto.
Qed.

Lemma lower_idempotent (s : string) : lower (lower s) = lower s.
Proof.
  induction s as [|c s IH]; simpl; [reflexivity|].
  rewrite IH. f_equal.
  destruct c as [[] [] [] [] [] [] [] []]; reflexivity.
Qed.

(** C1. For every text the classifier case-folds it, counts how many terms
    of the positive list and how many terms of the negative list are
    contained in the folded text as substrings (a term contributes one when
    it is contained, whole word or not), and answers positive when the
    positive count is the larger, negative when the negative count is the
    larger, neutral on a tie, zero against zero included.  The four sample
    texts of the specification are classified positive, negative, neutral
    and neutral. *)
Theorem analyze_sentiment_majority :
  (forall text : string,
      exists p n : nat,
        term_count (lower text) positive_words p
        /\ term_count (lower text) negative_words n
        /\ ((n < p)%nat -> analyze_sentiment text = positive)
        /\ ((p < n)%nat -> analyze_sentiment text = negative)
        /\ (p = n -> analyze_sentiment text = neutral))
  /\ analyze_sentiment "This is great and awesome" = positive
  /\ analyze_sentiment "This is terrible and awful" = negative
  /\ analyze_sentiment "It is a video" = neutral
  /\ analyze_sentiment "" = neutral.
Proof.
  split; [|repeat split; reflexivity].
  intros text.
  exists (sum_ones (fun word => contains word (lower text)) positive_words),
         (sum_ones (fun word => contains word (lower text)) negative_words).
  split; [apply term_count_sum_ones|].
  split; [apply term_count_sum_ones|].
  unfold analyze_sentiment.
  set (p := sum_ones _ positive_words). set (n := sum_ones _ negative_words).
  clearbody p n.
  repeat split; intros H.
  - apply Nat.ltb_lt in H. now rewrite H.
  - assert (Hnp : (n <? p)%nat = false) by (apply Nat.ltb_ge; lia).
    apply Nat.ltb_lt in H. now rewrite Hnp, H.
  - subst n. now rewrite Nat.ltb_irrefl.
Qed.

(** Containment is by substring and after case folding: a capitalised term
    inside a longer word still counts, and a repeated term counts once. *)
Example analyze_sentiment_substring :
  analyze_sentiment "A BADGE" = negative
  /\ analyze_sentiment "Thankful" = positive
  /\ analyze_sentiment "good good good, bad, hate" = negative.
Proof. repeat split; reflexivity. Qed.

(** The classifier does not tell a text from its case-folded form. *)
Lemma analyze_sentiment_case_insensitive (text : string) :
  analyze_sentiment (lower text) = analyze_sentiment text.
Proof. unfold analyze_sentiment. now rewrite lower_idempotent. Qed.

(** ** Engagement rate of a video *)

(** C8. The engagement rate of the video handler is
    (likes + comments) / views * 100 when views is positive and 0 when
    views is 0; the division is never reached with a zero divisor, so no
    division error arises for any counts, and for views 0, likes 5,
    comments 3 the rate is 0. *)
Theorem engagement_rate_guarded :
  (forall views likes comments : Z,
      (0 < views)%Z ->
      engagement_rate views likes comments
      = Some (inject_Z (likes + comments) / inject_Z views * 100)%Q)
  /\ (forall likes comments : Z, engagement_rate 0 likes comments = Some 0%Q)
  /\ (forall views likes comments : Z,
         engagement_rate views likes comments <> None)
  /\ engagement_rate 0 5 3 = Some 0%Q.
Proof.
  assert (pos : forall views likes comments : Z,
             (0 < views)%Z ->
             engagement_rate views likes comments
             = Some (inject_Z (likes + comments) / inject_Z views * 100)%Q).
  { intros views likes comments Hv. unfold engagement_rate, truediv.
    destruct (Z.ltb_spec 0 views) as [_|]; [|lia].
    destruct (Z.eqb_spec views 0) as [|_]; [lia|]. reflexivity. }
  repeat split; try assumption; try reflexivity.
  intros views likes comments.
  destruct (Z.ltb_spec 0 views) as [Hv|Hv].
  - rewrite (pos _ _ _ Hv). discriminate.
  - unfold engagement_rate.
    destruct (Z.ltb_spec 0 views) as [|_]; [lia|discriminate].
Qed.

(** ** Duration parser *)

(** [int] of a float drops the fraction: the result lies between zero and
    the float, less than one away from it. *)
Lemma int_of_float_truncates (x : Q) :
  let n := int_of_float x in
  (0 <= x -> 0 <= inject_Z n /\ inject_Z n <= x /\ x < inject_Z n + 1)%Q
  /\ (x <= 0 -> inject_Z n <= 0 /\ x <= inject_Z n /\ inject_Z n - 1 < x)%Q.
Proof.
  cbv zeta. unfold int_of_float.
  destruct (Qle_bool 0 x) eqn:E.
  - apply Qle_bool_iff in E. split; intros H.
    + split; [|split].
      * change (inject_Z (Qfloor 0) <= inject_Z (Qfloor x)).
        rewrite <- Zle_Qle. now apply Qfloor_resp_le.
      * apply Qfloor_le.
      * rewrite <- (inject_Z_plus _ 1). apply Qlt_floor.
    + assert (x0 : x == 0) by (now apply Qle_antisym).
      assert (F : Qfloor x = 0%Z) by (now rewrite x0).
      rewrite F, x0. repeat split; try apply Qle_refl.
  - assert (neg : x < 0).
    { apply Qnot_le_lt. intros H. apply Qle_bool_iff in H. congruence. }
    split; intros H.
    + exfalso. apply (Qlt_irrefl 0). now apply Qle_lt_trans with x.
    + split; [|split].
      * change (inject_Z (Qceiling x) <= inject_Z (Qceiling 0)).
        rewrite <- Zle_Qle. now apply Qceiling_resp_le.
      * apply Qle_ceiling.
      * change (inject_Z (Qceiling x) - 1) with (inject_Z (Qceiling x) + inject_Z (-1)).
        rewrite <- inject_Z_plus. apply Qceiling_lt.
Qed.

(** C9. The duration parser answers the total seconds the ISO 8601 library
    reads from the string, truncated toward zero, and answers 0 whenever
    the library raises; its result is an integer for every input, no error
    leaves it.  With the reference reader of durations, PT5M30S gives 330
    and a text that is no duration gives 0. *)
Theorem parse_duration_total :
  (forall (R : Runtime) (duration : string) (seconds : Q),
      isodate_total_seconds duration = Some seconds ->
      parse_duration duration = int_of_float seconds
      /\ (0 <= seconds ->
          inject_Z (parse_duration duration) <= seconds
          /\ seconds < inject_Z (parse_duration duration) + 1)%Q
      /\ (seconds <= 0 ->
          seconds <= inject_Z (parse_duration duration)
          /\ inject_Z (parse_duration duration) - 1 < seconds)%Q)
  /\ (forall (R : Runtime) (duration : string),
         isodate_total_seconds duration = None ->
         parse_duration duration = 0%Z)
  /\ @parse_duration Reference.runtime "PT5M30S" = 330%Z
  /\ @parse_duration Reference.runtime "not-a-duration" = 0%Z.
Proof.
  split; [|split; [|split; reflexivity]].
  - intros R duration seconds H. unfold parse_duration. rewrite H.
    destruct (int_of_float_truncates seconds) as [Hpos Hneg].
    split; [reflexivity|]. split; intros Hs.
    + now destruct (Hpos Hs) as [_ [? ?]].
    + now destruct (Hneg Hs) as [_ [? ?]].
  - intros R duration H. unfold parse_duration. now rewrite H.
Qed.

(** Fractions of a second are dropped, also below zero. *)
Example parse_duration_fraction :
  @parse_duration Reference.runtime "PT1.9S" = 1%Z
  /\ @parse_duration Reference.runtime "P1DT1H" = 90000%Z
  /\ int_of_float (-19 # 10) = (-1)%Z.
Proof. repeat split; reflexivity. Qed.

(** ** Running a handler in a world *)

Lemma make_youtube_request_run {R : Runtime} (endpoint : string)
    (params : list (string * Api.Param)) (w : World) :
  make_youtube_request endpoint params w
  = (reply_at w 0,
     after_request w {| Api.endpoint := endpoint;
                        Api.params := (params ++ [key_param])%list |}).
Proof.
  unfold make_youtube_request, reply_at, after_request, key_param.
  destruct (replies w); reflexivity.
Qed.

Lemma reply_at_after_request (w : World) (request : Api.Request) (n : nat) :
  reply_at (after_request w request) n = reply_at w (S n).
Proof.
  unfold reply_at, after_request; simpl.
  destruct (replies w) as [|r rs]; simpl; [now destruct n | reflexivity].
Qed.

Lemma get_utc_now_run (w : World) :
  get_utc_now w = (clock w (reads w), after_reading w).
Proof. reflexivity. Qed.

Lemma reply_at_after_reading (w : World) (n : nat) :
  reply_at (after_reading w) n = reply_at w n.
Proof. reflexivity. Qed.

Lemma bind_run {A B : Type} (m : M A) (k : A -> M B) (w w' : World) (a : A) :
  m w = (a, w') -> bind m k w = k a w'.
Proof. intros H. unfold bind. now rewrite H. Qed.

(** ** Upload frequency *)

Lemma whole_days_positive (d : Z) :
  (0 <? days d)%Z = (microseconds_per_day <=? d)%Z.
Proof.
  unfold days. assert (P : (0 < microseconds_per_day)%Z) by reflexivity.
  destruct (Z.leb_spec microseconds_per_day d) as [H|H].
  - apply Z.ltb_lt. apply Z.div_str_pos. lia.
  - apply Z.ltb_ge. destruct (Z.le_gt_cases 0 d) as [H0|H0].
    + rewrite Z.div_small; lia.
    + apply Z.lt_le_incl. apply Z.div_lt_upper_bound; lia.
Qed.

(** C2, as the code has it.  With at least two videos fetched, the first
    published at [t_first] and the last at [t_last], the upload frequency
    is the number of videos fetched divided by the whole days from
    [t_last] to [t_first] when that is at least one day, and 0 when it is
    less; with fewer than two videos fetched, or none, it is 0. *)
Theorem upload_frequency_whole_days :
  forall (R : Runtime) (first second : Api.Item) (rest : list Api.Item)
         (t_first t_last : Z) (w : World),
    let items := first :: second :: rest in
    reads_as (Api.publishedAt (Api.snippet first)) t_first ->
    reads_as (Api.publishedAt (Api.snippet (List.last items first))) t_last ->
    upload_frequency (Some items) w
    = (if (microseconds_per_day <=? t_first - t_last)%Z
       then (inject_Z (len items)
             / inject_Z ((t_first - t_last) / microseconds_per_day))%Q
       else 0%Q,
       w)
    /\ upload_frequency None w = (0%Q, w)
    /\ upload_frequency (Some []) w = (0%Q, w)
    /\ upload_frequency (Some [first]) w = (0%Q, w).
Proof.
  intros R first second rest t_first t_last w items Hfirst Hlast.
  split; [|repeat split].
  unfold upload_frequency. subst items. cbv beta iota.
  set (items := first :: second :: rest) in *.
  rewrite (bind_run _ _ _ _ _ (Hfirst w)).
  rewrite (bind_run _ _ _ _ _ (Hlast w)).
  unfold ret. rewrite whole_days_positive.
  destruct (Z.leb_spec microseconds_per_day (t_first - t_last)) as [H|H];
    [|reflexivity].
  assert (D : (0 < days (t_first - t_last))%Z)
    by (apply Z.ltb_lt; rewrite whole_days_positive; now apply Z.leb_le).
  rewrite Z.max_l by lia. reflexivity.
Qed.

Lemma reference_reads_as (date_string : string) (t : Z) :
  Reference.timestamp_microseconds
    (if endswith date_string "Z" then drop_last date_string ++ "+00:00"
     else date_string) = Some t ->
  @reads_as Reference.runtime date_string t.
Proof.
  intros H w. unfold parse_youtube_datetime. cbn [fromisoformat Reference.runtime].
  now rewrite H.
Qed.

(** Three videos in ten days: 3 / 10. *)
Lemma upload_frequency_whole_days_witness :
  fst (@upload_frequency Reference.runtime (Some Sample.three_in_ten_days)
         (Sample.world []))
  = (3 # 10)%Q.
Proof.
  pose proof (upload_frequency_whole_days Reference.runtime
                (Sample.video "c" "2024-01-01T12:00:00Z" 100 5 3 "PT5M30S")
                (Sample.video "b" "2023-12-28T08:00:00Z" 100 5 3 "PT3M")
                [Sample.video "a" "2023-12-22T12:00:00Z" 200 9 1 "PT25M"]
                1704110400000000 1703246400000000 (Sample.world [])
                (reference_reads_as "2024-01-01T12:00:00Z" 1704110400000000 eq_refl)
                (reference_reads_as "2023-12-22T12:00:00Z" 1703246400000000 eq_refl))
    as [H _].
  unfold Sample.three_in_ten_days. rewrite H. reflexivity.
Defined.

(** The claim fails on two videos published twelve hours apart: it asks
    for 2 / 1, and the code answers 0. *)
Lemma upload_frequency_within_a_day :
  len Sample.same_day = 2%Z
  /\ @reads_as Reference.runtime "2024-01-01T12:00:00Z" 1704110400000000
  /\ @reads_as Reference.runtime "2024-01-01T00:00:00Z" 1704067200000000
  /\ (1704110400000000 - 1704067200000000 < microseconds_per_day)%Z
  /\ fst (@upload_frequency Reference.runtime (Some Sample.same_day)
            (Sample.world [])) = 0%Q
  /\ ~ (fst (@upload_frequency Reference.runtime (Some Sample.same_day)
               (Sample.world []))
        == inject_Z (len Sample.same_day) / 1)%Q.
Proof.
  split; [reflexivity|].
  split; [now apply reference_reads_as|].
  split; [now apply reference_reads_as|].
  split; [reflexivity|].
  split; [vm_compute; reflexivity|].
  vm_compute. discriminate.
Qed.

(** ** Channel resolver *)

Lemma get_channel_id_from_name_run {R : Runtime} (name : string) (w : World) :
  get_channel_id_from_name name w
  = (first_hit (reply_at w 0), after_request w (channel_search name)).
Proof.
  unfold get_channel_id_from_name.
  rewrite (bind_run _ _ _ _ _ (make_youtube_request_run _ _ w)).
  unfold first_hit, channel_search; simpl.
  destruct (reply_at w 0) as [[|item items]|]; reflexivity.
Qed.

Lemma startswith_at (handle : string) : startswith ("@" ++ handle) "@" = true.
Proof. reflexivity. Qed.

(** An input that starts with UC is taken as it is. *)
Lemma resolve_channel_id_literal {R : Runtime} (channel_input : string)
    (w : World) :
  startswith channel_input "UC" = true ->
  resolve_channel_id channel_input w = (Some channel_input, w).
Proof.
  intros Huc. unfold resolve_channel_id.
  apply startswith_true_iff in Huc. destruct Huc as [rest ->].
  change (startswith ("UC" ++ rest) "@") with false.
  change (startswith ("UC" ++ rest) "UC") with true.
  reflexivity.
Qed.

(** A handle is searched for without its sign. *)
Lemma resolve_channel_id_handle {R : Runtime} (handle : string) (w : World) :
  resolve_channel_id ("@" ++ handle) w
  = (first_hit (reply_at w 0), after_request w (channel_search handle)).
Proof.
  unfold resolve_channel_id. rewrite startswith_at. simpl drop_first.
  apply get_channel_id_from_name_run.
Qed.

(** A name is searched for as it is. *)
Lemma resolve_channel_id_name {R : Runtime} (channel_input : string)
    (w : World) :
  startswith channel_input "@" = false ->
  startswith channel_input "UC" = false ->
  String.length channel_input <> 24%nat ->
  resolve_channel_id channel_input w
  = (first_hit (reply_at w 0), after_request w (channel_search channel_input)).
Proof.
  intros Hat Huc Hlen. unfold resolve_channel_id.
  rewrite Hat, Huc. apply Nat.eqb_neq in Hlen. rewrite Hlen. simpl.
  apply get_channel_id_from_name_run.
Qed.

(** C5. An input of exactly 24 characters that starts with UC is the
    channel id, and the world is left as it was: no request goes out.  An
    input that starts with the at sign sends exactly one request, the
    single-result channel search for the input without the sign, and the
    id is the channel id of the first hit.  Any other input that does not
    start with UC and is not 24 characters long sends the same search for
    the input itself. *)
Theorem resolve_channel_id_cases :
  forall (R : Runtime) (channel_input : string) (w : World),
    (String.length channel_input = 24%nat ->
     startswith channel_input "UC" = true ->
     resolve_channel_id channel_input w = (Some channel_input, w))
    /\ (forall handle : string,
           channel_input = "@" ++ handle ->
           resolve_channel_id channel_input w
           = (first_hit (reply_at w 0), after_request w (channel_search handle))
           /\ sent (snd (resolve_channel_id channel_input w))
              = (sent w ++ [channel_search handle])%list)
    /\ (startswith channel_input "@" = false ->
        startswith channel_input "UC" = false ->
        String.length channel_input <> 24%nat ->
        resolve_channel_id channel_input w
        = (first_hit (reply_at w 0), after_request w (channel_search channel_input))
        /\ sent (snd (resolve_channel_id channel_input w))
           = (sent w ++ [channel_search channel_input])%list).
Proof.
  intros R channel_input w. split; [|split].
  - intros _ Huc. now apply resolve_channel_id_literal.
  - intros handle ->. rewrite resolve_channel_id_handle. split; reflexivity.
  - intros Hat Huc Hlen. rewrite resolve_channel_id_name by assumption.
    split; reflexivity.
Qed.

(** The three cases on the inputs UC0123456789abcdefghijkl, @handle and
    some channel, when the search finds one channel. *)
Lemma resolve_channel_id_cases_witness :
  let hit := Some [Sample.video "v" "2024-01-01T12:00:00Z" 1 1 1 "PT1M"] in
  let w := Sample.world [hit] in
  @resolve_channel_id Reference.runtime "UC0123456789abcdefghijkl" w
  = (Some "UC0123456789abcdefghijkl", w)
  /\ sent (snd (@resolve_channel_id Reference.runtime "@handle" w))
     = [@channel_search Reference.runtime "handle"]
  /\ fst (@resolve_channel_id Reference.runtime "some channel" w)
     = Some "UC0123456789abcdefghijkl".
Proof.
  intros hit w.
  split; [|split].
  - apply (resolve_channel_id_cases Reference.runtime
             "UC0123456789abcdefghijkl" w); reflexivity.
  - apply (resolve_channel_id_cases Reference.runtime "@handle" w).
    reflexivity.
  - destruct (resolve_channel_id_cases Reference.runtime "some channel" w)
      as [_ [_ H]].
    destruct H as [H _]; [reflexivity | reflexivity | discriminate |].
    rewrite H. reflexivity.
Defined.

(** ** Channel handler *)

Lemma resolve_channel_id_searches {R : Runtime} (channel_input : string)
    (w : World) :
  searched_for channel_input ->
  exists name : string,
    resolve_channel_id channel_input w
    = (first_hit (reply_at w 0), after_request w (channel_search name)).
Proof.
  intros [Hat|[Huc Hlen]].
  - apply startswith_true_iff in Hat. destruct Hat as [handle ->].
    exists handle. apply resolve_channel_id_handle.
  - destruct (startswith channel_input "@") eqn:Hat.
    + apply startswith_true_iff in Hat. destruct Hat as [handle ->].
      exists handle. apply resolve_channel_id_handle.
    + exists channel_input. now apply resolve_channel_id_name.
Qed.

(** C6. When the resolver searches for the channel and the search gives
    no result (the request fails, or its reply has no item), the channel
    request is answered with status 404 and a body that is an object with
    an error field, whatever the rest of the handler would do; the answer
    is not a 200 one. *)
Theorem channel_not_found_is_404 :
  forall (R : Runtime) (channel_report : string -> M Response)
         (channel_input : string) (w : World),
    searched_for channel_input ->
    no_items (reply_at w 0) = true ->
    fst (get_channel_analytics channel_report channel_input w)
    = channel_not_found channel_input
    /\ snd (fst (get_channel_analytics channel_report channel_input w)) = 404%Z
    /\ snd (fst (get_channel_analytics channel_report channel_input w)) <> 200%Z
    /\ exists message : string,
         fst (fst (get_channel_analytics channel_report channel_input w))
         = ErrorBody message.
Proof.
  intros R channel_report channel_input w Hsearch Hnone.
  assert (H : fst (get_channel_analytics channel_report channel_input w)
              = channel_not_found channel_input).
  { destruct (resolve_channel_id_searches channel_input w Hsearch) as [name Hrun].
    unfold get_channel_analytics.
    rewrite (bind_run _ _ _ _ _ Hrun).
    destruct (reply_at w 0) as [[|item items]|]; try discriminate; reflexivity. }
  rewrite H. repeat split; try discriminate.
  eexists. reflexivity.
Qed.

(** A handle the search does not know, with a rest of the handler that
    would answer 200. *)
Lemma channel_not_found_is_404_witness :
  fst (@get_channel_analytics Reference.runtime
         (fun _ => ret (DocumentBody "{}", 200%Z))
         "@nobody" (Sample.world [Some []]))
  = channel_not_found "@nobody".
Proof.
  apply (channel_not_found_is_404 Reference.runtime
           (fun _ => ret (DocumentBody "{}", 200%Z))
           "@nobody" (Sample.world [Some []])).
  - left. reflexivity.
  - reflexivity.
Defined.

(** A hit whose channel id is the empty string counts as no channel. *)
Lemma channel_found_runs_report {R : Runtime}
    (channel_report : string -> M Response) (channel_input : string)
    (w : World) (channel_id : string) :
  searched_for channel_input ->
  first_hit (reply_at w 0) = Some channel_id ->
  channel_id <> "" ->
  exists name : string,
    get_channel_analytics channel_report channel_input w
    = channel_report channel_id (after_request w (channel_search name)).
Proof.
  intros Hsearch Hhit Hid.
  destruct (resolve_channel_id_searches channel_input w Hsearch) as [name Hrun].
  exists name. unfold get_channel_analytics.
  rewrite (bind_run _ _ _ _ _ Hrun). rewrite Hhit.
  apply String.eqb_neq in Hid. now rewrite Hid.
Qed.

(** ** The requests of the trending handler *)
Section TrendingRequests.
Context {R : Runtime}.

(** The handler, step by step, in terms of the replies of the world. *)
Lemma get_trending_analysis_run (region_code : string) (w : World) :
  let w1 := after_request w (popular_listing region_code) in
  let since := (clock w (reads w) - microseconds_per_day)%Z in
  let w3 := after_request (after_reading w1)
              (recent_search region_code "viewCount" since) in
  let found := items_of (reply_at w 1) in
  let w4 := after_request w3 (details_lookup found) in
  get_trending_analysis region_code w
  = if no_items (reply_at w 0) then
      if no_items (reply_at w 1) then (no_trending_data, w3)
      else match reply_at w 2 with
           | None => (details_failed, w4)
           | Some details =>
               let (trending_videos, w5) := searched_entries 0 found details w4 in
               (trending_report region_code trending_videos, w5)
           end
    else
      let (trending_videos, w2) :=
        for_each popular_entry (items_of (reply_at w 0)) w1 in
      (trending_report region_code trending_videos, w2).
Proof.
  cbv zeta. unfold get_trending_analysis.
  rewrite (bind_run _ _ _ _ _ (make_youtube_request_run _ _ w)).
  fold (popular_listing region_code).
  destruct (no_items (reply_at w 0)); [|reflexivity].
  rewrite (bind_run _ _ _ _ _ (get_utc_now_run _)).
  rewrite (bind_run _ _ _ _ _ (make_youtube_request_run _ _ _)).
  rewrite reply_at_after_reading, reply_at_after_request.
  destruct (no_items (reply_at w 1)); [reflexivity|].
  rewrite (bind_run _ _ _ _ _ (make_youtube_request_run _ _ _)).
  rewrite reply_at_after_request, reply_at_after_reading, reply_at_after_request.
  destruct (reply_at w 2); reflexivity.
Qed.

End TrendingRequests.

(** ** Steps that send nothing *)

Lemma quiet_ret {A : Type} (a : A) : quiet (ret a).
Proof. intros w. split; reflexivity. Qed.

Lemma quiet_bind {A B : Type} (m : M A) (k : A -> M B) :
  quiet m -> (forall a, quiet (k a)) -> quiet (bind m k).
Proof.
  intros Hm Hk w. unfold bind.
  destruct (m w) as [a w'] eqn:E.
  destruct (Hm w) as [Hs Hr]. rewrite E in Hs, Hr. simpl in Hs, Hr.
  destruct (Hk a w') as [Hs' Hr']. split; congruence.
Qed.

Lemma quiet_get_utc_now : quiet get_utc_now.
Proof. intros w. split; reflexivity. Qed.

Lemma quiet_parse_youtube_datetime {R : Runtime} (date_string : string) :
  quiet (parse_youtube_datetime date_string).
Proof.
  unfold parse_youtube_datetime.
  destruct (fromisoformat _); [apply quiet_ret | apply quiet_get_utc_now].
Qed.

Create HintDb quiet.
#[local] Hint Resolve quiet_ret quiet_get_utc_now quiet_parse_youtube_datetime
  : quiet.

Lemma quiet_popular_entry {R : Runtime} (item : Api.Item) :
  quiet (popular_entry item).
Proof.
  unfold popular_entry.
  repeat (apply quiet_bind; [auto with quiet | intros ?]). apply quiet_ret.
Qed.

Lemma quiet_searched_entry {R : Runtime} (item video : Api.Item) :
  quiet (searched_entry item video).
Proof.
  unfold searched_entry.
  repeat (apply quiet_bind; [auto with quiet | intros ?]). apply quiet_ret.
Qed.

Lemma quiet_for_each {A B : Type} (f : A -> M B) (xs : list A) :
  (forall x, quiet (f x)) -> quiet (for_each f xs).
Proof.
  intros Hf. induction xs as [|x xs IH]; simpl.
  - apply quiet_ret.
  - apply quiet_bind; [apply Hf | intros y].
    apply quiet_bind; [apply IH | intros ys]. apply quiet_ret.
Qed.

Lemma quiet_searched_entries {R : Runtime} (items details : list Api.Item) :
  forall i : nat, quiet (searched_entries i items details).
Proof.
  induction items as [|item rest IH]; intros i; simpl.
  - apply quiet_ret.
  - destruct (nth_error details i) as [video|]; [|apply IH].
    apply quiet_bind; [apply quiet_searched_entry | intros entry].
    apply quiet_bind; [apply IH | intros entries]. apply quiet_ret.
Qed.

(** ** The two tiers of the trending handler *)

(** C3, as the code has it.  When the most-popular listing of the region,
    asked for with up to 50 items, gives no item, the handler next sends a
    search for videos published after the instant one day before now,
    ordered by view count; when that search gives items it then sends one
    batch request for their statistics and content details, and otherwise
    nothing more. *)
Theorem trending_fallback_requests :
  forall (R : Runtime) (region_code : string) (w : World),
    no_items (reply_at w 0) = true ->
    let since := (clock w (reads w) - microseconds_per_day)%Z in
    sent (snd (get_trending_analysis region_code w))
    = (sent w
       ++ popular_listing region_code
       :: recent_search region_code "viewCount" since
       :: (if no_items (reply_at w 1) then []
           else [details_lookup (items_of (reply_at w 1))]))%list
    /\ dict_get "maxResults" (Api.params (popular_listing region_code))
       = Some (Api.PInt 50)
    /\ dict_get "publishedAfter"
         (Api.params (recent_search region_code "viewCount" since))
       = Some (Api.PStr (isoformat since)).
Proof.
  intros R region_code w Hnone since.
  split; [|split; reflexivity].
  pose proof (get_trending_analysis_run region_code w) as Hrun.
  cbv zeta in Hrun. rewrite Hnone in Hrun. rewrite Hrun. clear Hrun.
  fold since.
  destruct (no_items (reply_at w 1)).
  - simpl. rewrite <- !app_assoc. reflexivity.
  - destruct (reply_at w 2) as [details|].
    + destruct (quiet_searched_entries (items_of (reply_at w 1)) details 0
                  (after_request
                     (after_request
                        (after_reading (after_request w (popular_listing region_code)))
                        (recent_search region_code "viewCount" since))
                     (details_lookup (items_of (reply_at w 1))))) as [Hs _].
      destruct (searched_entries _ _ _ _) as [entries w5].
      simpl in Hs |- *. rewrite Hs. rewrite <- !app_assoc. reflexivity.
    + simpl. rewrite <- !app_assoc. reflexivity.
Qed.

(** The fallback at noon of 2 January 2024, with one video found. *)
Lemma trending_fallback_requests_witness :
  let found := [Sample.video "a" "2024-01-02T06:00:00Z" 900 30 6 "PT4M"] in
  sent (snd (@get_trending_analysis Reference.runtime "us"
               (Sample.world [Some []; Some found; Some found])))
  = [@popular_listing Reference.runtime "us";
     @recent_search Reference.runtime "us" "viewCount"
       (Sample.noon - microseconds_per_day);
     @details_lookup Reference.runtime found].
Proof.
  intros found.
  apply (trending_fallback_requests Reference.runtime "us"
           (Sample.world [Some []; Some found; Some found])).
  reflexivity.
Defined.

(** The claim fails in that world: no request of the handler is ordered by
    relevance; the search of the fallback is ordered by view count. *)
Lemma trending_fallback_not_by_relevance :
  let found := [Sample.video "a" "2024-01-02T06:00:00Z" 900 30 6 "PT4M"] in
  let w := Sample.world [Some []; Some found; Some found] in
  no_items (reply_at w 0) = true
  /\ ~ (exists request : Api.Request,
           In request (sent (snd (@get_trending_analysis Reference.runtime "us" w)))
           /\ dict_get "order" (Api.params request) = Some (Api.PStr "relevance")).
Proof.
  intros found w. split; [reflexivity|].
  intros [request [Hin Horder]].
  vm_compute in Hin.
  destruct Hin as [<-|[<-|[<-|[]]]]; vm_compute in Horder; discriminate.
Qed.

(** C7. In a trending request whose first tier gives no item: when the
    search of the second tier gives no item either, the answer is status
    404 with an error message that names quotas and restrictions, not a
    200 answer; when the search gives items and the batch request for
    their statistics fails, the answer is status 500. *)
Theorem trending_failures :
  forall (R : Runtime) (region_code : string) (w : World),
    no_items (reply_at w 0) = true ->
    (no_items (reply_at w 1) = true ->
     fst (get_trending_analysis region_code w) = no_trending_data)
    /\ (no_items (reply_at w 1) = false ->
        reply_at w 2 = None ->
        fst (get_trending_analysis region_code w) = details_failed)
    /\ snd no_trending_data = 404%Z
    /\ snd details_failed = 500%Z
    /\ (exists message : string,
           fst no_trending_data = ErrorBody message
           /\ contains "quota" (lower message) = true
           /\ contains "restriction" (lower message) = true).
Proof.
  intros R region_code w Hnone.
  pose proof (get_trending_analysis_run region_code w) as Hrun.
  cbv zeta in Hrun. rewrite Hnone in Hrun.
  split; [|split; [|split; [|split]]]; try reflexivity.
  - intros Hnone'. rewrite Hrun, Hnone'. reflexivity.
  - intros Hsome Hfail. rewrite Hrun, Hsome, Hfail. reflexivity.
  - eexists. split; [reflexivity|]. split; reflexivity.
Qed.

(** Both tiers empty; and a search with one video found whose details
    cannot be fetched. *)
Lemma trending_failures_witness :
  let found := [Sample.video "a" "2024-01-02T06:00:00Z" 900 30 6 "PT4M"] in
  fst (@get_trending_analysis Reference.runtime "us"
         (Sample.world [Some []; Some []]))
  = no_trending_data
  /\ fst (@get_trending_analysis Reference.runtime "us"
            (Sample.world [None; Some found; None]))
     = details_failed.
Proof.
  intros found. split.
  - apply (trending_failures Reference.runtime "us"
             (Sample.world [Some []; Some []])); reflexivity.
  - apply (trending_failures Reference.runtime "us"
             (Sample.world [None; Some found; None])); reflexivity.
Defined.

(** ** The stable sort *)
Section SortProperties.
Context {A : Type} (key : A -> Q).

Lemma insert_desc_perm (x : A) (l : list A) :
  Permutation (x :: l) (insert_desc key x l).
Proof.
  induction l as [|y l IH]; simpl; [reflexivity|].
  destruct (Qle_bool (key y) (key x)); [reflexivity|].
  rewrite perm_swap. now apply perm_skip.
Qed.

Lemma sort_desc_perm (l : list A) : Permutation l (sort_desc key l).
Proof.
  induction l as [|x l IH]; simpl; [reflexivity|].
  rewrite <- insert_desc_perm. now apply perm_skip.
Qed.

Lemma sort_desc_length (l : list A) : length (sort_desc key l) = length l.
Proof. symmetry. apply Permutation_length, sort_desc_perm. Qed.

Lemma insert_desc_sorted (x : A) (l : list A) :
  StronglySorted (ranks_before key) l ->
  StronglySorted (ranks_before key) (insert_desc key x l).
Proof.
  induction 1 as [|y l Hl IH Hy]; simpl.
  - constructor; constructor.
  - destruct (Qle_bool (key y) (key x)) eqn:E.
    + apply Qle_bool_iff in E.
      constructor; [now constructor|].
      constructor; [exact E|].
      eapply Forall_impl; [|exact Hy].
      intros z Hz. unfold ranks_before in *. now apply Qle_trans with (key y).
    + constructor; [exact IH|].
      assert (Hx : ranks_before key y x).
      { unfold ranks_before. apply Qlt_le_weak, Qnot_le_lt.
        intros H. apply Qle_bool_iff in H. congruence. }
      eapply Permutation_Forall; [apply insert_desc_perm|].
      now constructor.
Qed.

Lemma sort_desc_sorted (l : list A) :
  StronglySorted (ranks_before key) (sort_desc key l).
Proof.
  induction l as [|x l IH]; simpl; [constructor|].
  now apply insert_desc_sorted.
Qed.

Lemma insert_desc_with_key (v : Q) (x : A) (l : list A) :
  with_key key v (insert_desc key x l) = with_key key v (x :: l).
Proof.
  unfold with_key. induction l as [|y l IH]; simpl; [reflexivity|].
  destruct (Qle_bool (key y) (key x)) eqn:E; [reflexivity|].
  simpl. rewrite IH. simpl.
  destruct (Qeq_bool (key x) v) eqn:Ex; [|reflexivity].
  destruct (Qeq_bool (key y) v) eqn:Ey; [|reflexivity].
  exfalso. apply Qeq_bool_iff in Ex, Ey.
  assert (H : Qle_bool (key y) (key x) = true).
  { apply Qle_bool_iff. rewrite Ex, Ey. apply Qle_refl. }
  congruence.
Qed.

(** The sort is stable: elements of equal key keep their order. *)
Lemma sort_desc_stable (v : Q) (l : list A) :
  with_key key v (sort_desc key l) = with_key key v l.
Proof.
  induction l as [|x l IH]; simpl; [reflexivity|].
  rewrite insert_desc_with_key. unfold with_key in *. simpl. now rewrite IH.
Qed.

Lemma with_key_cons (v : Q) (x : A) (l : list A) :
  with_key key v (x :: l)
  = if Qeq_bool (key x) v then x :: with_key key v l else with_key key v l.
Proof. reflexivity. Qed.

Lemma with_key_head (x : A) (l : list A) :
  with_key key (key x) (x :: l) = x :: with_key key (key x) l.
Proof. rewrite with_key_cons. now rewrite Qeq_bool_refl. Qed.

Lemma with_key_in (v : Q) (x : A) (l : list A) :
  In x (with_key key v l) -> In x l.
Proof. unfold with_key. intros H. now apply filter_In in H. Qed.

Lemma Qeq_bool_sym_false (a b : Q) :
  Qeq_bool a b = false -> Qeq_bool b a = false.
Proof.
  intros H. destruct (Qeq_bool b a) eqn:E; [|reflexivity].
  apply Qeq_bool_iff in E. symmetry in E. apply Qeq_bool_iff in E. congruence.
Qed.

(** A ranked list is determined by the order of its elements of equal key:
    two stable sorts of one list give the same list. *)
Lemma ranked_unique (l1 l2 : list A) :
  StronglySorted (ranks_before key) l1 ->
  StronglySorted (ranks_before key) l2 ->
  (forall v, with_key key v l1 = with_key key v l2) ->
  l1 = l2.
Proof.
  intros S1. revert l2.
  induction S1 as [|x l1 S1 IH Hx]; intros l2 S2 Hk.
  - destruct l2 as [|y l2]; [reflexivity|].
    specialize (Hk (key y)). rewrite with_key_head in Hk. discriminate.
  - destruct l2 as [|y l2].
    + specialize (Hk (key x)). rewrite with_key_head in Hk. discriminate.
    + inversion S2 as [|? ? S2' Hy]; subst.
      assert (Hxy : Qeq_bool (key y) (key x) = true).
      { destruct (Qeq_bool (key y) (key x)) eqn:E; [reflexivity|exfalso].
        assert (Inx : In x l2).
        { pose proof (Hk (key x)) as H.
          rewrite with_key_head, with_key_cons, E in H.
          apply (with_key_in (key x)). rewrite <- H. now left. }
        assert (Iny : In y l1).
        { pose proof (Hk (key y)) as H.
          rewrite with_key_head, with_key_cons, (Qeq_bool_sym_false _ _ E) in H.
          apply (with_key_in (key y)). rewrite H. now left. }
        rewrite Forall_forall in Hx, Hy.
        specialize (Hx y Iny). specialize (Hy x Inx). unfold ranks_before in *.
        assert (H : key y == key x) by (now apply Qle_antisym).
        apply Qeq_bool_iff in H. congruence. }
      assert (x = y).
      { pose proof (Hk (key x)) as H.
        rewrite with_key_head, with_key_cons, Hxy in H. now inversion H. }
      subst y. f_equal. apply IH; [exact S2'|].
      intros v. specialize (Hk v). rewrite !with_key_cons in Hk.
      destruct (Qeq_bool (key x) v); [now inversion Hk | exact Hk].
Qed.

(** Whatever stable sort ranks the list, the result is [sort_desc]. *)
Corollary sort_desc_unique (l ranked : list A) :
  StronglySorted (ranks_before key) ranked ->
  (forall v, with_key key v ranked = with_key key v l) ->
  ranked = sort_desc key l.
Proof.
  intros S H. apply ranked_unique; [exact S | apply sort_desc_sorted|].
  intros v. now rewrite H, sort_desc_stable.
Qed.

Lemma firstn_sorted (n : nat) (l : list A) :
  StronglySorted (ranks_before key) l -> StronglySorted (ranks_before key) (firstn n l).
Proof.
  intros S. revert n. induction S as [|x l S IH Hx]; intros [|n]; simpl;
    try constructor; [apply IH|].
  rewrite Forall_forall in *. intros y Hy. apply Hx.
  rewrite <- (firstn_skipn n l). apply in_or_app. now left.
Qed.

(** What a ranked list leaves out beyond its first [n] elements ranks
    after each of the first [n]. *)
Lemma firstn_top (n : nat) (l : list A) (a b : A) :
  StronglySorted (ranks_before key) l ->
  In a (firstn n l) -> In b (skipn n l) -> ranks_before key a b.
Proof.
  intros S. revert n. induction S as [|x l S IH Hx]; intros [|n]; simpl;
    try contradiction.
  intros [<-|Ha] Hb.
  - rewrite Forall_forall in Hx. apply Hx.
    rewrite <- (firstn_skipn n l). apply in_or_app. now right.
  - now apply (IH n).
Qed.

End SortProperties.

(** ** The ranking of the trending videos *)
Section Ranking.
Context {R : Runtime}.

(** An answer that carries a trending report is the report on the entries
    fetched. *)
Lemma trending_answer (region_code : string) (w : World)
    (result : Trending.t) (status : Z) :
  fst (get_trending_analysis region_code w) = (TrendingBody result, status) ->
  trending_report region_code (fetched_videos region_code w)
  = (TrendingBody result, status).
Proof.
  pose proof (get_trending_analysis_run region_code w) as Hrun.
  cbv zeta in Hrun. rewrite Hrun. clear Hrun. unfold fetched_videos.
  destruct (no_items (reply_at w 0)).
  - destruct (no_items (reply_at w 1)); [discriminate|].
    destruct (reply_at w 2) as [details|]; [|discriminate].
    destruct (searched_entries _ _ _ _) as [entries w5]. now simpl.
  - destruct (for_each _ _ _) as [entries w2]. now simpl.
Qed.

(** The first tier answers whenever the listing has items. *)
Lemma trending_first_tier_answers (region_code : string) (w : World) :
  no_items (reply_at w 0) = false ->
  fst (get_trending_analysis region_code w)
  = trending_report region_code (fetched_videos region_code w).
Proof.
  intros H. pose proof (get_trending_analysis_run region_code w) as Hrun.
  cbv zeta in Hrun. rewrite Hrun. unfold fetched_videos. rewrite H.
  now destruct (for_each _ _ _).
Qed.

(** The second tier answers whenever the search has items and the details
    arrive. *)
Lemma trending_second_tier_answers (region_code : string) (w : World)
    (details : list Api.Item) :
  no_items (reply_at w 0) = true ->
  no_items (reply_at w 1) = false ->
  reply_at w 2 = Some details ->
  fst (get_trending_analysis region_code w)
  = trending_report region_code (fetched_videos region_code w).
Proof.
  intros H0 H1 H2. pose proof (get_trending_analysis_run region_code w) as Hrun.
  cbv zeta in Hrun. rewrite Hrun. unfold fetched_videos. rewrite H0, H1, H2.
  now destruct (searched_entries _ _ _ _).
Qed.

Lemma for_each_length {A B : Type} (f : A -> M B) (xs : list A) (w : World) :
  length (fst (for_each f xs w)) = length xs.
Proof.
  revert w. induction xs as [|x xs IH]; intros w; simpl; [reflexivity|].
  unfold bind. destruct (f x w) as [y w1].
  specialize (IH w1). destruct (for_each f xs w1) as [ys w2].
  simpl in *. now rewrite IH.
Qed.

Lemma searched_entries_length (items details : list Api.Item) :
  forall (i : nat) (w : World),
    length (fst (searched_entries i items details w))
    = Nat.min (length items) (length details - i).
Proof.
  induction items as [|item rest IH]; intros i w; [reflexivity|].
  cbn [searched_entries length].
  destruct (nth_error details i) as [video|] eqn:E.
  - assert (i < length details)%nat by (apply nth_error_Some; congruence).
    unfold bind. destruct (searched_entry item video w) as [entry w1].
    specialize (IH (S i) w1).
    destruct (searched_entries (S i) rest details w1) as [entries w2].
    cbn [fst length ret] in *. rewrite IH. lia.
  - apply nth_error_None in E. rewrite IH. lia.
Qed.

(** The number of entries fetched: the items of the listing in the first
    tier; in the second tier the videos found, as far as there are
    details. *)
Lemma fetched_videos_length (region_code : string) (w : World) :
  (no_items (reply_at w 0) = false ->
   length (fetched_videos region_code w) = length (items_of (reply_at w 0)))
  /\ (forall details,
         no_items (reply_at w 0) = true ->
         no_items (reply_at w 1) = false ->
         reply_at w 2 = Some details ->
         length (fetched_videos region_code w)
         = Nat.min (length (items_of (reply_at w 1))) (length details)).
Proof.
  unfold fetched_videos. split.
  - intros ->. apply for_each_length.
  - intros details -> -> ->. rewrite searched_entries_length. lia.
Qed.

(** The entries of the first tier follow the items of the listing, one by
    one: same id, same counts. *)
Lemma popular_entries_follow (items : list Api.Item) (w : World) :
  Forall2
    (fun (item : Api.Item) (video : Entry.t) =>
       Entry.id video = Api.id item
       /\ Entry.viewCount video = int_or_0 (Api.viewCount (Api.statistics item))
       /\ Entry.likeCount video = int_or_0 (Api.likeCount (Api.statistics item))
       /\ Entry.commentCount video
          = int_or_0 (Api.commentCount (Api.statistics item))
       /\ Entry.duration video
          = parse_duration (Api.duration (Api.contentDetails item)))
    items (fst (for_each popular_entry items w)).
Proof.
  revert w. induction items as [|item items IH]; intros w; simpl.
  - constructor.
  - unfold bind at 1.
    destruct (popular_entry item w) as [video w1] eqn:E.
    unfold bind at 1. specialize (IH w1).
    destruct (for_each popular_entry items w1) as [videos w2]. simpl in *.
    constructor; [|exact IH].
    unfold popular_entry, bind in E.
    destruct (parse_youtube_datetime _ w) as [published w'].
    unfold get_utc_now, ret in E. inversion E; subst. repeat split.
Qed.

(** In the first tier the entries stand in the order of the listing. *)
Lemma fetched_videos_ids (region_code : string) (w : World) :
  no_items (reply_at w 0) = false ->
  map Entry.id (fetched_videos region_code w)
  = map Api.id (items_of (reply_at w 0)).
Proof.
  intros H. unfold fetched_videos. rewrite H.
  pose proof (popular_entries_follow (items_of (reply_at w 0))
                (after_request w (popular_listing region_code))) as F.
  induction F as [|item video items videos [Hid _] _ IH]; simpl;
    [reflexivity | now rewrite Hid, IH].
Qed.

End Ranking.

Lemma sort_three_example {A : Type} (key : A -> Q) (a b c : A) :
  (key a == 10)%Q -> (key b == 50)%Q -> (key c == 30)%Q ->
  sort_desc key [a; b; c] = [b; c; a].
Proof.
  intros Ha Hb Hc. simpl.
  assert (cb : Qle_bool (key c) (key b) = true).
  { apply Qle_bool_iff. rewrite Hb, Hc. discriminate. }
  assert (ba : Qle_bool (key b) (key a) = false).
  { destruct (Qle_bool (key b) (key a)) eqn:E; [|reflexivity].
    apply Qle_bool_iff in E. rewrite Ha, Hb in E. now contradict E. }
  assert (ca : Qle_bool (key c) (key a) = false).
  { destruct (Qle_bool (key c) (key a)) eqn:E; [|reflexivity].
    apply Qle_bool_iff in E. rewrite Ha, Hc in E. now contradict E. }
  rewrite cb. simpl. rewrite ba, ca. reflexivity.
Qed.

#[local] Opaque firstn skipn.

(** C4. The trendingVideos of a trending answer are the first 30 of the
    entries fetched after a stable sort by falling view velocity: the
    ranked list holds the fetched entries, each as often as fetched;
    velocities fall (weakly) along it; entries of equal velocity stand in
    their upstream order (in the first tier, the order of the listing);
    at most 30 entries are returned, and every entry left out has a
    velocity no larger than each one returned.  Three entries with
    velocities 10, 50, 30 are ranked 50, 30, 10. *)
Theorem trending_videos_ranked :
  forall (R : Runtime) (region_code : string) (w : World)
         (result : Trending.t) (status : Z),
    fst (get_trending_analysis region_code w) = (TrendingBody result, status) ->
    let videos := fetched_videos region_code w in
    let ranked := sort_desc Entry.viewVelocity videos in
    Trending.trendingVideos result = firstn 30 ranked
    /\ Permutation videos ranked
    /\ StronglySorted (ranks_before Entry.viewVelocity) ranked
    /\ StronglySorted (ranks_before Entry.viewVelocity)
         (Trending.trendingVideos result)
    /\ (forall v : Q,
           with_key Entry.viewVelocity v ranked
           = with_key Entry.viewVelocity v videos)
    /\ length (Trending.trendingVideos result) = Nat.min 30 (length videos)
    /\ (forall a b : Entry.t,
           In a (Trending.trendingVideos result) ->
           In b (skipn 30 ranked) ->
           (Entry.viewVelocity b <= Entry.viewVelocity a)%Q)
    /\ (no_items (reply_at w 0) = false ->
        map Entry.id videos = map Api.id (items_of (reply_at w 0)))
    /\ (forall a b c : Entry.t,
           (Entry.viewVelocity a == 10)%Q ->
           (Entry.viewVelocity b == 50)%Q ->
           (Entry.viewVelocity c == 30)%Q ->
           sort_desc Entry.viewVelocity [a; b; c] = [b; c; a]).
Proof.
  intros R region_code w result status Hanswer videos ranked.
  apply trending_answer in Hanswer. fold videos in Hanswer.
  unfold trending_report in Hanswer. fold ranked in Hanswer.
  injection Hanswer as Hresult Hstatus. subst result.
  cbn [Trending.trendingVideos].
  split; [reflexivity|].
  split; [apply sort_desc_perm|].
  split; [apply sort_desc_sorted|].
  split; [apply firstn_sorted, sort_desc_sorted|].
  split; [intros v; apply sort_desc_stable|].
  split; [rewrite length_firstn; unfold ranked; now rewrite sort_desc_length|].
  split; [|split; [apply fetched_videos_ids | apply sort_three_example]].
  intros a b Ha Hb.
  now apply (firstn_top Entry.viewVelocity 30 ranked a b (sort_desc_sorted _ _)).
Qed.

(** Three videos with 10, 50 and 30 views an hour after publication. *)
Lemma trending_videos_ranked_witness :
  exists result : Trending.t,
    report_in (fst (@get_trending_analysis Reference.runtime "us"
                      (Sample.world [Some Sample.three_by_velocity])))
    = Some result
    /\ map Entry.id (Trending.trendingVideos result) = ["b"; "c"; "a"]
    /\ StronglySorted (ranks_before Entry.viewVelocity)
         (Trending.trendingVideos result).
Proof.
  set (w := Sample.world [Some Sample.three_by_velocity]).
  assert (H : fst (@get_trending_analysis Reference.runtime "us" w)
              = @trending_report Reference.runtime "us"
                  (@fetched_videos Reference.runtime "us" w))
    by (apply trending_first_tier_answers; reflexivity).
  unfold trending_report in H.
  match type of H with
  | _ = (TrendingBody ?r, _) => exists r
  end.
  split; [now rewrite H|].
  split; [vm_compute; reflexivity|].
  apply (trending_videos_ranked Reference.runtime "us" w _ 200%Z H).
Defined.

(** ** Dictionaries *)
Section DictProperties.
Context {V : Type}.

Lemma dict_mem_get (k : string) (d : dict V) :
  dict_mem k d = match dict_get k d with Some _ => true | None => false end.
Proof.
  induction d as [|[k' v] d IH]; simpl; [reflexivity|].
  destruct (String.eqb k' k); [reflexivity | exact IH].
Qed.

Lemma dict_get_update (k k' : string) (f : V -> V) (d : dict V) :
  dict_get k (dict_update k' f d)
  = if String.eqb k' k then option_map f (dict_get k d) else dict_get k d.
Proof.
  induction d as [|[k0 v] d IH]; simpl.
  - now destruct (String.eqb k' k).
  - destruct (String.eqb k0 k') eqn:E0; simpl.
    + apply String.eqb_eq in E0. subst k0.
      destruct (String.eqb k' k); reflexivity.
    + destruct (String.eqb k0 k) eqn:E1; [|exact IH].
      apply String.eqb_eq in E1. subst k0.
      rewrite String.eqb_sym in E0. now rewrite E0.
Qed.

Lemma dict_get_add (k k' : string) (v : V) (d : dict V) :
  dict_get k (dict_add k' v d)
  = match dict_get k d with
    | Some x => Some x
    | None => if String.eqb k' k then Some v else None
    end.
Proof.
  unfold dict_add. induction d as [|[k0 v0] d IH]; simpl; [reflexivity|].
  destruct (String.eqb k0 k); [reflexivity | exact IH].
Qed.

Lemma dict_keys_update (k : string) (f : V -> V) (d : dict V) :
  map fst (dict_update k f d) = map fst d.
Proof.
  induction d as [|[k0 v] d IH]; simpl; [reflexivity|].
  destruct (String.eqb k0 k); simpl; [reflexivity | now rewrite IH].
Qed.

Lemma dict_keys_add (k : string) (v : V) (d : dict V) :
  map fst (dict_add k v d) = (map fst d ++ [k])%list.
Proof. unfold dict_add. now rewrite map_app. Qed.

Lemma dict_get_none_not_key (k : string) (d : dict V) :
  dict_get k d = None -> ~ In k (map fst d).
Proof.
  induction d as [|[k0 v] d IH]; simpl; [tauto|].
  destruct (String.eqb k0 k) eqn:E; [discriminate|].
  apply String.eqb_neq in E. intros H [H0|H0]; [contradiction | now apply IH].
Qed.

(** With no key twice, an entry of the dictionary is what its key gives. *)
Lemma dict_get_in (k : string) (v : V) (d : dict V) :
  NoDup (map fst d) -> In (k, v) d -> dict_get k d = Some v.
Proof.
  induction d as [|[k0 v0] d IH]; simpl; [tauto|].
  intros Hnd [H|H].
  - inversion H; subst. now rewrite String.eqb_refl.
  - inversion Hnd as [|? ? Hnot Hnd']; subst.
    destruct (String.eqb k0 k) eqn:E; [|now apply IH].
    apply String.eqb_eq in E. subst k0. exfalso. apply Hnot.
    change k with (fst (k, v)). now apply in_map.
Qed.

End DictProperties.

(** ** Sums *)

Lemma fold_left_Zadd (xs : list Z) (a : Z) :
  fold_left Z.add xs a = (a + sumZ xs)%Z.
Proof.
  unfold sumZ. revert a. induction xs as [|x xs IH]; intros a; simpl.
  - lia.
  - rewrite IH, (IH x). lia.
Qed.

Lemma sumZ_cons (x : Z) (xs : list Z) : sumZ (x :: xs) = (x + sumZ xs)%Z.
Proof. unfold sumZ at 1. simpl. now rewrite fold_left_Zadd. Qed.

Lemma sumZ_perm (xs ys : list Z) : Permutation xs ys -> sumZ xs = sumZ ys.
Proof.
  induction 1 as [|x xs ys _ IH|x y xs|xs ys zs _ IH1 _ IH2];
    rewrite ?sumZ_cons; lia.
Qed.

Lemma len_cons {A : Type} (x : A) (xs : list A) : len (x :: xs) = (1 + len xs)%Z.
Proof. unfold len. simpl length. lia. Qed.

(** ** The tallies of the trending report *)

Lemma tally_engagement_band (engagement_ranges : dict Z) (video : Entry.t) :
  tally_engagement engagement_ranges video
  = dict_update (band_of video) Z.succ engagement_ranges.
Proof.
  unfold tally_engagement, band_of.
  destruct (Qlt_le_dec (engagement video) 2); [reflexivity|].
  destruct (Qlt_le_dec (engagement video) 5); reflexivity.
Qed.

Lemma band_of_cases (video : Entry.t) :
  band_of video = "Low (0-2%)"
  \/ band_of video = "Medium (2-5%)"
  \/ band_of video = "High (5%+)".
Proof.
  unfold band_of.
  destruct (Qlt_le_dec (engagement video) 2); [now left|].
  destruct (Qlt_le_dec (engagement video) 5); [right; now left | right; now right].
Qed.

Lemma tally_engagement_counts (videos : list Entry.t) :
  forall low medium high : Z,
    fold_left tally_engagement videos
      [("Low (0-2%)", low); ("Medium (2-5%)", medium); ("High (5%+)", high)]
    = [("Low (0-2%)", (low + len (in_band "Low (0-2%)" videos))%Z);
       ("Medium (2-5%)", (medium + len (in_band "Medium (2-5%)" videos))%Z);
       ("High (5%+)", (high + len (in_band "High (5%+)" videos))%Z)].
Proof.
  induction videos as [|video videos IH]; intros low medium high.
  - simpl. unfold len. simpl. now rewrite !Z.add_0_r.
  - cbn [fold_left]. rewrite tally_engagement_band. unfold in_band.
    cbn [filter].
    destruct (band_of_cases video) as [E|[E|E]]; rewrite E;
      cbn [dict_update String.eqb Ascii.eqb Bool.eqb fst snd];
      rewrite IH; unfold in_band; rewrite ?len_cons;
      repeat match goal with
             | |- (_ :: _) = (_ :: _) => f_equal
             | |- (_, _) = (_, _) => f_equal
             end; lia.
Qed.

Lemma in_band_partition (videos : list Entry.t) :
  (len (in_band "Low (0-2%)" videos) + len (in_band "Medium (2-5%)" videos)
   + len (in_band "High (5%+)" videos))%Z = len videos.
Proof.
  induction videos as [|video videos IH]; [reflexivity|].
  unfold in_band in *. cbn [filter].
  destruct (band_of_cases video) as [E|[E|E]]; rewrite E;
    cbn [String.eqb Ascii.eqb Bool.eqb]; rewrite ?len_cons; lia.
Qed.

Lemma tally_category_credit (categories : dict Category.t) (video : Entry.t) :
  tally_category categories video
  = dict_update (category_of (Entry.duration video)) (credit video)
      (if dict_mem (category_of (Entry.duration video)) categories
       then categories
       else dict_add (category_of (Entry.duration video)) no_data categories).
Proof. reflexivity. Qed.

Lemma tally_category_get (category : string) (categories : dict Category.t)
    (video : Entry.t) :
  dict_get category (tally_category categories video)
  = if String.eqb (category_of (Entry.duration video)) category
    then Some (credit video
                 match dict_get category categories with
                 | Some data => data
                 | None => no_data
                 end)
    else dict_get category categories.
Proof.
  rewrite tally_category_credit, dict_get_update, dict_mem_get.
  set (c := category_of (Entry.duration video)).
  destruct (String.eqb c category) eqn:E.
  - apply String.eqb_eq in E. subst category.
    destruct (dict_get c categories) as [data|] eqn:G.
    + now rewrite G.
    + rewrite dict_get_add, G, String.eqb_refl. reflexivity.
  - destruct (dict_get c categories) as [data|] eqn:G; [reflexivity|].
    rewrite dict_get_add, E. now destruct (dict_get category categories).
Qed.

Lemma tally_category_fold_get (category : string) (videos : list Entry.t) :
  forall categories : dict Category.t,
    dict_get category (fold_left tally_category videos categories)
    = match dict_get category categories, in_category category videos with
      | Some data, members => Some (accumulate members data)
      | None, [] => None
      | None, members => Some (accumulate members no_data)
      end.
Proof.
  induction videos as [|video videos IH]; intros categories.
  - simpl. now destruct (dict_get category categories).
  - cbn [fold_left]. rewrite IH, tally_category_get. unfold in_category.
    cbn [filter].
    destruct (String.eqb (category_of (Entry.duration video)) category).
    + destruct (dict_get category categories); reflexivity.
    + reflexivity.
Qed.

Lemma tally_category_keys (videos : list Entry.t) :
  forall categories : dict Category.t,
    NoDup (map fst categories) ->
    NoDup (map fst (fold_left tally_category videos categories)).
Proof.
  induction videos as [|video videos IH]; intros categories Hnd; [exact Hnd|].
  cbn [fold_left]. apply IH.
  rewrite tally_category_credit, dict_keys_update, dict_mem_get.
  destruct (dict_get _ categories) eqn:G; [exact Hnd|].
  rewrite dict_keys_add. apply NoDup_app; [exact Hnd | repeat constructor; tauto|].
  intros k Hk [<-|[]]. now apply dict_get_none_not_key in G.
Qed.

Lemma accumulate_totals (videos : list Entry.t) :
  forall start : Category.t,
    Category.count (accumulate videos start)
    = (Category.count start + len videos)%Z
    /\ Category.totalViews (accumulate videos start)
       = (Category.totalViews start + sumZ (map Entry.viewCount videos))%Z.
Proof.
  unfold accumulate.
  induction videos as [|video videos IH]; intros start.
  - simpl. unfold len, sumZ. simpl. lia.
  - cbn [fold_left map]. destruct (IH (credit video start)) as [Hc Hv].
    rewrite Hc, Hv, len_cons, sumZ_cons.
    cbn [credit Category.count Category.totalViews]. lia.
Qed.

Lemma dict_get_some_in {V : Type} (k : string) (v : V) (d : dict V) :
  dict_get k d = Some v -> In (k, v) d.
Proof.
  induction d as [|[k0 v0] d IH]; simpl; [discriminate|].
  destruct (String.eqb k0 k) eqn:E.
  - apply String.eqb_eq in E. subst k0. intros H. inversion H. now left.
  - intros H. right. now apply IH.
Qed.

Lemma len_sort_desc {A : Type} (key : A -> Q) (l : list A) :
  len (sort_desc key l) = len l.
Proof. unfold len. now rewrite sort_desc_length. Qed.

Section Report.
Context {R : Runtime}.

(** Each row of the category breakdown covers all the videos of its
    category in the list, and there is at least one. *)
Lemma category_rows (videos : list Entry.t) (row : Breakdown.t) :
  In row (map breakdown_row
            (map average_category (fold_left tally_category videos []))) ->
  let members := in_category (Breakdown.category row) videos in
  members <> []
  /\ Breakdown.count row = len members
  /\ Breakdown.avgViews row
     = (sumZ (map Entry.viewCount members) / len members)%Z.
Proof.
  intros Hrow. apply in_map_iff in Hrow. destruct Hrow as [[k averaged] [<- Hin]].
  apply in_map_iff in Hin. destruct Hin as [[k' data] [Havg Hin]].
  unfold average_category in Havg. inversion Havg; subst. clear Havg.
  apply dict_get_in in Hin; [|apply tally_category_keys; constructor].
  rewrite tally_category_fold_get in Hin. cbn [dict_get] in Hin.
  cbn [breakdown_row Breakdown.category Breakdown.count Breakdown.avgViews
       Category.count Category.totalViews].
  destruct (in_category k videos) as [|video members] eqn:E; [discriminate|].
  injection Hin as Hdata. rewrite <- Hdata.
  change (accumulate members (credit video no_data))
    with (accumulate (video :: members) no_data).
  destruct (accumulate_totals (video :: members) no_data) as [Hc Hv].
  rewrite Hc, Hv. cbn [no_data Category.count Category.totalViews].
  rewrite !Z.add_0_l. now repeat split.
Qed.

(** Every video of the list is counted in a row. *)
Lemma category_rows_cover (videos : list Entry.t) (video : Entry.t) :
  In video videos ->
  exists row : Breakdown.t,
    In row (map breakdown_row
              (map average_category (fold_left tally_category videos [])))
    /\ Breakdown.category row = category_of (Entry.duration video).
Proof.
  intros Hin. set (k := category_of (Entry.duration video)).
  assert (Hmember : In video (in_category k videos)).
  { apply filter_In. split; [exact Hin | apply String.eqb_refl]. }
  pose proof (tally_category_fold_get k videos []) as Hget.
  cbn [dict_get] in Hget.
  destruct (in_category k videos) as [|first members] eqn:E; [contradiction|].
  apply dict_get_some_in in Hget.
  exists (breakdown_row (average_category (k, accumulate (first :: members) no_data))).
  split; [|reflexivity].
  apply in_map, in_map. exact Hget.
Qed.

End Report.

(** C10. In a trending answer, the summary, the category breakdown and the
    engagement distribution are computed from all the entries fetched and
    ranked, while trendingVideos holds the first 30 of them only: the
    summary counts and sums the views of all entries; each row of the
    category breakdown counts all entries of its category, and every entry
    falls in a row; the three bands of the engagement distribution count
    all entries between them.  So when more than 30 entries were fetched,
    trendingVideos has 30 entries and totalVideos is larger. *)
Theorem trending_summary_over_all :
  forall (R : Runtime) (region_code : string) (w : World)
         (result : Trending.t) (status : Z),
    fst (get_trending_analysis region_code w) = (TrendingBody result, status) ->
    let videos := fetched_videos region_code w in
    let ranked := sort_desc Entry.viewVelocity videos in
    let summary := Trending.summary result in
    Trending.trendingVideos result = firstn 30 ranked
    /\ Summary.totalVideos summary = len videos
    /\ Summary.totalViews summary = sumZ (map Entry.viewCount videos)
    /\ Summary.averageViews summary
       = (if (len videos =? 0)%Z then 0
          else sumZ (map Entry.viewCount videos) / len videos)%Z
    /\ Summary.topPerformer summary = hd_error ranked
    /\ Summary.avgEngagement summary
       = (if (len videos =? 0)%Z then 0
          else sumQ (map engagement ranked) / inject_Z (len videos))%Q
    /\ (forall row : Breakdown.t,
           In row (Trending.categoryBreakdown result) ->
           let members := in_category (Breakdown.category row) ranked in
           members <> []
           /\ Breakdown.count row = len members
           /\ Breakdown.avgViews row
              = (sumZ (map Entry.viewCount members) / len members)%Z)
    /\ (forall video : Entry.t,
           In video videos ->
           exists row : Breakdown.t,
             In row (Trending.categoryBreakdown result)
             /\ Breakdown.category row = category_of (Entry.duration video))
    /\ Trending.engagementDistribution result
       = [{| Band.range := "Low (0-2%)";
             Band.count := len (in_band "Low (0-2%)" ranked) |};
          {| Band.range := "Medium (2-5%)";
             Band.count := len (in_band "Medium (2-5%)" ranked) |};
          {| Band.range := "High (5%+)";
             Band.count := len (in_band "High (5%+)" ranked) |}]
    /\ (len (in_band "Low (0-2%)" ranked) + len (in_band "Medium (2-5%)" ranked)
        + len (in_band "High (5%+)" ranked))%Z = len videos
    /\ ((30 < len videos)%Z ->
        len (Trending.trendingVideos result) = 30%Z
        /\ (len (Trending.trendingVideos result) < Summary.totalVideos summary)%Z)
    /\ (no_items (reply_at w 0) = false ->
        len videos = len (items_of (reply_at w 0))).
Proof.
  intros R region_code w result status Hanswer videos ranked summary.
  apply trending_answer in Hanswer. fold videos in Hanswer.
  unfold trending_report in Hanswer. fold ranked in Hanswer.
  injection Hanswer as Hresult Hstatus. subst summary result.
  cbn [Trending.trendingVideos Trending.summary Trending.categoryBreakdown
       Trending.engagementDistribution Summary.totalVideos Summary.totalViews
       Summary.averageViews Summary.topPerformer Summary.avgEngagement].
  assert (Hlen : len ranked = len videos) by apply len_sort_desc.
  assert (Hviews : sumZ (map Entry.viewCount ranked)
                   = sumZ (map Entry.viewCount videos)).
  { apply sumZ_perm, Permutation_map, Permutation_sym, sort_desc_perm. }
  rewrite Hlen, Hviews.
  split; [reflexivity|].
  split; [reflexivity|].
  split; [reflexivity|].
  split; [now destruct (len videos =? 0)%Z|].
  split; [reflexivity|].
  split; [now destruct (len videos =? 0)%Z|].
  split; [intros row Hrow; now apply category_rows|].
  split.
  { intros video Hin. apply category_rows_cover.
    eapply Permutation_in; [apply sort_desc_perm | exact Hin]. }
  split.
  { rewrite (tally_engagement_counts ranked 0 0 0). reflexivity. }
  split; [rewrite in_band_partition; exact Hlen|].
  split.
  - intros Hmany.
    assert (L : len (firstn 30 ranked) = 30%Z).
    { unfold len in *. rewrite length_firstn. lia. }
    rewrite L. split; [reflexivity | exact Hmany].
  - intros Hitems. unfold len, videos.
    now rewrite (proj1 (fetched_videos_length region_code w) Hitems).
Qed.

(** A listing of 31 videos: 30 are returned, 31 are counted. *)
Lemma trending_summary_over_all_witness :
  exists result : Trending.t,
    report_in (fst (@get_trending_analysis Reference.runtime "us"
                      (Sample.world [Some (Sample.listing 31)])))
    = Some result
    /\ len (Trending.trendingVideos result) = 30%Z
    /\ Summary.totalVideos (Trending.summary result) = 31%Z
    /\ (len (Trending.trendingVideos result)
        < Summary.totalVideos (Trending.summary result))%Z.
Proof.
  set (w := Sample.world [Some (Sample.listing 31)]).
  assert (H : fst (@get_trending_analysis Reference.runtime "us" w)
              = @trending_report Reference.runtime "us"
                  (@fetched_videos Reference.runtime "us" w))
    by (apply trending_first_tier_answers; reflexivity).
  unfold trending_report in H.
  match type of H with
  | _ = (TrendingBody ?r, _) => exists r
  end.
  split; [now rewrite H|].
  destruct (trending_summary_over_all Reference.runtime "us" w _ 200%Z H)
    as [_ [Htotal [_ [_ [_ [_ [_ [_ [_ [_ [Hmany Hfetched]]]]]]]]]]].
  assert (L : len (@fetched_videos Reference.runtime "us" w) = 31%Z)
    by (rewrite Hfetched; reflexivity).
  destruct Hmany as [H30 Hless]; [rewrite L; reflexivity|].
  split; [exact H30|]. split; [|exact Hless].
  rewrite Htotal. exact L.
Defined.

(* ================================================================== *)
(** * Part III, continued: further properties of the code *)
(* ================================================================== *)

(** ** More on strings *)

Lemma length_append (a b : string) :
  String.length (a ++ b) = (String.length a + String.length b)%nat.
Proof. induction a as [|c a IH]; simpl; [reflexivity | now rewrite IH]. Qed.

Lemma substring_whole (s : string) : substring 0 (String.length s) s = s.
Proof. induction s as [|c s IH]; simpl; [reflexivity | now rewrite IH]. Qed.

Lemma substring_append_left (s t : string) :
  substring 0 (String.length s) (s ++ t) = s.
Proof.
  induction s as [|c s IH]; simpl; [now destruct t | now rewrite IH].
Qed.

Lemma substring_append_right (s t : string) (k m : nat) :
  substring (String.length s + k) m (s ++ t) = substring k m t.
Proof. induction s as [|c s IH]; simpl; [reflexivity | exact IH]. Qed.

Lemma endswith_append (s suffix : string) : endswith (s ++ suffix) suffix = true.
Proof.
  unfold endswith. rewrite length_append.
  replace (String.length s + String.length suffix - String.length suffix)%nat
    with (String.length s + 0)%nat by lia.
  rewrite substring_append_right, substring_whole, String.eqb_refl.
  rewrite andb_true_r. apply Nat.leb_le. lia.
Qed.

Lemma drop_last_append (s : string) (c : ascii) :
  drop_last (s ++ String c "") = s.
Proof.
  unfold drop_last. rewrite length_append. simpl String.length.
  replace (String.length s + 1 - 1)%nat with (String.length s) by lia.
  apply substring_append_left.
Qed.

Lemma lower_append (a b : string) : lower (a ++ b) = lower a ++ lower b.
Proof. induction a as [|c a IH]; simpl; [reflexivity | now rewrite IH]. Qed.

Lemma occurs_in_trans (u v s : string) :
  occurs_in u v -> occurs_in v s -> occurs_in u s.
Proof.
  intros [p1 [q1 ->]] [p2 [q2 ->]]. exists (p2 ++ p1), (q1 ++ q2).
  induction p2 as [|c p2 IH]; simpl.
  - induction p1 as [|c p1 IH]; simpl.
    + induction u as [|c u IH]; simpl; [reflexivity | now rewrite IH].
    + now rewrite IH.
  - now rewrite IH.
Qed.

(** ** Timestamps *)

(** X1. A timestamp that ends in Z is read as the same text with the UTC
    offset +00:00 in place of the Z: both give the same instant and leave
    the same world.  When the library reads it, the world is untouched;
    when the library raises, the answer is the next reading of the clock,
    and the clock has been read once. *)
Theorem parse_youtube_datetime_zulu :
  forall (R : Runtime) (stamp : string) (w : World),
    parse_youtube_datetime (stamp ++ "Z") w
    = parse_youtube_datetime (stamp ++ "+00:00") w
    /\ (forall t : Z,
           fromisoformat (stamp ++ "+00:00") = Some t ->
           parse_youtube_datetime (stamp ++ "Z") w = (t, w))
    /\ (fromisoformat (stamp ++ "+00:00") = None ->
        parse_youtube_datetime (stamp ++ "Z") w
        = (clock w (reads w), after_reading w)).
Proof.
  intros R stamp w.
  assert (Z : endswith (stamp ++ "Z") "Z" = true) by apply endswith_append.
  assert (D : drop_last (stamp ++ "Z") = stamp) by apply drop_last_append.
  assert (O : endswith (stamp ++ "+00:00") "Z" = false).
  { unfold endswith. rewrite length_append. simpl String.length.
    replace (String.length stamp + 6 - 1)%nat
      with (String.length stamp + 5)%nat by lia.
    rewrite substring_append_right. simpl. apply andb_false_r. }
  unfold parse_youtube_datetime. rewrite Z, D, O.
  split; [reflexivity|]. split.
  - intros t H. now rewrite H.
  - intros H. now rewrite H.
Qed.

(** ** More on the channel resolver *)

(** An input without the at sign that starts with UC or has 24 characters
    is kept as it is. *)
Lemma resolve_channel_id_kept {R : Runtime} (channel_input : string)
    (w : World) :
  startswith channel_input "@" = false ->
  startswith channel_input "UC" = true
  \/ String.length channel_input = 24%nat ->
  resolve_channel_id channel_input w = (Some channel_input, w).
Proof.
  intros Hat [Huc|Hlen].
  - now apply resolve_channel_id_literal.
  - unfold resolve_channel_id. rewrite Hat, Hlen. simpl.
    now rewrite andb_false_r.
Qed.

(** X2. An input that does not start with the at sign is used as the
    channel id, with no request sent, as soon as it starts with UC or is
    24 characters long: one of the two suffices, so a channel name of 24
    characters is not searched for. *)
Theorem resolve_channel_id_without_search :
  forall (R : Runtime) (channel_input : string) (w : World),
    startswith channel_input "@" = false ->
    startswith channel_input "UC" = true
    \/ String.length channel_input = 24%nat ->
    resolve_channel_id channel_input w = (Some channel_input, w)
    /\ sent (snd (resolve_channel_id channel_input w)) = sent w
    /\ replies (snd (resolve_channel_id channel_input w)) = replies w.
Proof.
  intros R channel_input w Hat Hid.
  rewrite (resolve_channel_id_kept channel_input w Hat Hid).
  repeat split.
Qed.

(** A channel name of 24 characters, and a short text that starts with
    UC. *)
Lemma resolve_channel_id_without_search_witness :
  let w := Sample.world [Some (Sample.listing 1)] in
  @resolve_channel_id Reference.runtime "The Twenty-Four Channel!" w
  = (Some "The Twenty-Four Channel!", w)
  /\ @resolve_channel_id Reference.runtime "UCLA" w = (Some "UCLA", w).
Proof.
  intros w. split.
  - apply (resolve_channel_id_without_search Reference.runtime
             "The Twenty-Four Channel!" w); [reflexivity | now right].
  - apply (resolve_channel_id_without_search Reference.runtime "UCLA" w);
      [reflexivity | now left].
Defined.

(** X3. The channel handler hands the resolved id to the rest of the
    handler: an input taken as the id itself reaches it in the world as it
    was; an input that is searched for reaches it as the channel id of the
    first hit, in the world after exactly that one search.  A first hit
    whose channel id is empty counts as no channel: the answer is the 404
    one. *)
Theorem get_channel_analytics_resolved :
  forall (R : Runtime) (channel_report : string -> M Response)
         (channel_input : string) (w : World),
    (startswith channel_input "@" = false ->
     startswith channel_input "UC" = true
     \/ String.length channel_input = 24%nat ->
     get_channel_analytics channel_report channel_input w
     = channel_report channel_input w)
    /\ (forall channel_id : string,
           searched_for channel_input ->
           first_hit (reply_at w 0) = Some channel_id ->
           channel_id <> "" ->
           exists name : string,
             (channel_input = "@" ++ name \/ channel_input = name)
             /\ get_channel_analytics channel_report channel_input w
                = channel_report channel_id
                    (after_request w (channel_search name)))
    /\ (searched_for channel_input ->
        first_hit (reply_at w 0) = Some "" ->
        fst (get_channel_analytics channel_report channel_input w)
        = channel_not_found channel_input).
Proof.
  intros R channel_report channel_input w. split; [|split].
  - intros Hat Hid. unfold get_channel_analytics.
    rewrite (bind_run _ _ _ _ _
               (resolve_channel_id_kept channel_input w Hat Hid)).
    destruct (String.eqb_spec channel_input "") as [->|_]; [|reflexivity].
    destruct Hid as [Huc|Hlen]; discriminate.
  - intros channel_id Hsearch Hhit Hid.
    assert (Hname : exists name : string,
               (channel_input = "@" ++ name \/ channel_input = name)
               /\ resolve_channel_id channel_input w
                  = (first_hit (reply_at w 0),
                     after_request w (channel_search name))).
    { destruct (startswith channel_input "@") eqn:Hat.
      - apply startswith_true_iff in Hat. destruct Hat as [handle ->].
        exists handle. split; [now left | apply resolve_channel_id_handle].
      - destruct Hsearch as [H|[Huc Hlen]]; [congruence|].
        exists channel_input. split; [now right|].
        now apply resolve_channel_id_name. }
    destruct Hname as [name [Hshape Hrun]]. exists name. split; [exact Hshape|].
    unfold get_channel_analytics. rewrite (bind_run _ _ _ _ _ Hrun), Hhit.
    apply String.eqb_neq in Hid. now rewrite Hid.
  - intros Hsearch Hhit.
    destruct (resolve_channel_id_searches channel_input w Hsearch) as [name Hrun].
    unfold get_channel_analytics. rewrite (bind_run _ _ _ _ _ Hrun), Hhit.
    reflexivity.
Qed.

(** A handle that the search resolves, with a rest of the handler that
    reports the id it is given. *)
Lemma get_channel_analytics_resolved_witness :
  let hit := Sample.video "v" "2024-01-01T12:00:00Z" 1 1 1 "PT1M" in
  let report := fun channel_id : string => ret (DocumentBody channel_id, 200%Z) in
  fst (@get_channel_analytics Reference.runtime report "@handle"
         (Sample.world [Some [hit]]))
  = (DocumentBody "UC0123456789abcdefghijkl", 200%Z).
Proof.
  intros hit report.
  destruct (get_channel_analytics_resolved Reference.runtime report "@handle"
              (Sample.world [Some [hit]])) as [_ [H _]].
  destruct (H "UC0123456789abcdefghijkl") as [name [_ Hrun]];
    [now left | reflexivity | discriminate |].
  rewrite Hrun. reflexivity.
Defined.

(** ** More on the sentiment classifier *)

Lemma sum_ones_app {A : Type} (p : A -> bool) (xs ys : list A) :
  sum_ones p (xs ++ ys)%list = (sum_ones p xs + sum_ones p ys)%nat.
Proof.
  rewrite !sum_ones_length, filter_app, length_app. reflexivity.
Qed.

(** X4. The positive list holds both thanks and thank, and the second is
    contained in the first: a text that contains thanks scores two
    positive terms at least, so it is classified positive whenever at most
    one negative term occurs in it. *)
Theorem analyze_sentiment_thanks :
  forall (text : string) (n : nat),
    occurs_in "thanks" (lower text) ->
    term_count (lower text) negative_words n ->
    (n <= 1)%nat ->
    analyze_sentiment text = positive.
Proof.
  intros text n Hthanks Hn Hle.
  assert (Hthank : occurs_in "thank" (lower text)).
  { apply occurs_in_trans with "thanks"; [|exact Hthanks]. now exists "", "s". }
  apply contains_true_iff in Hthanks, Hthank.
  unfold analyze_sentiment.
  set (hit := fun word : string => contains word (lower text)).
  assert (Hp : (2 <= sum_ones hit positive_words)%nat).
  { change positive_words
      with (firstn 13 positive_words ++ ["thanks"; "thank"])%list.
    rewrite sum_ones_app, !sum_ones_cons. unfold hit at 2 3.
    rewrite Hthanks, Hthank. lia. }
  assert (Hneg : sum_ones hit negative_words = n).
  { apply (term_count_functional (lower text) negative_words);
      [apply term_count_sum_ones | exact Hn]. }
  rewrite Hneg.
  destruct (Nat.ltb_spec n (sum_ones hit positive_words)); [reflexivity | lia].
Qed.

(** Thanks against one negative term. *)
Lemma analyze_sentiment_thanks_witness :
  analyze_sentiment "Thanks for nothing, that was terrible" = positive.
Proof.
  apply (analyze_sentiment_thanks "Thanks for nothing, that was terrible" 1).
  - now exists "", " for nothing, that was terrible".
  - change 1%nat
      with (sum_ones (fun word =>
                        contains word
                          (lower "Thanks for nothing, that was terrible"))
                     negative_words).
    apply term_count_sum_ones.
  - lia.
Defined.

(** ** More on the upload frequency *)


(** ** More on the trending handler *)

Lemma carries_key_popular_listing {R : Runtime} (region_code : string) :
  carries_key (popular_listing region_code).
Proof. eexists. unfold popular_listing. cbn [Api.params].
  now instantiate (1 := [_; _; _; _]). Qed.

Lemma carries_key_recent_search {R : Runtime} (region_code order : string)
    (since : Z) :
  carries_key (recent_search region_code order since).
Proof. eexists. unfold recent_search. cbn [Api.params].
  now instantiate (1 := [_; _; _; _; _; _]). Qed.

Lemma carries_key_details_lookup {R : Runtime} (found : list Api.Item) :
  carries_key (details_lookup found).
Proof. eexists. unfold details_lookup. cbn [Api.params].
  now instantiate (1 := [_; _]). Qed.

(** X6. A trending request sends one, two or three requests upstream, each
    with the API key as its last parameter, and consumes one reply for
    each request sent.  When the most-popular listing has items nothing
    but the listing is requested. *)
Theorem trending_requests_sent :
  forall (R : Runtime) (region_code : string) (w : World),
    exists new : list Api.Request,
      sent (snd (get_trending_analysis region_code w)) = (sent w ++ new)%list
      /\ replies (snd (get_trending_analysis region_code w))
         = Nat.iter (length new) (@tl _) (replies w)
      /\ (1 <= length new <= 3)%nat
      /\ Forall carries_key new
      /\ (no_items (reply_at w 0) = false -> new = [popular_listing region_code]).
Proof.
  intros R region_code w.
  pose proof (get_trending_analysis_run region_code w) as Hrun.
  cbv zeta in Hrun. rewrite Hrun. clear Hrun.
  set (since := (clock w (reads w) - microseconds_per_day)%Z).
  destruct (no_items (reply_at w 0)) eqn:H0.
  - destruct (no_items (reply_at w 1)) eqn:H1.
    + exists [popular_listing region_code;
              recent_search region_code "viewCount" since].
      cbn [snd sent replies after_request after_reading length Nat.iter].
      rewrite <- app_assoc.
      repeat split; try lia; try discriminate.
      repeat constructor;
        [apply carries_key_popular_listing | apply carries_key_recent_search].
    + exists [popular_listing region_code;
              recent_search region_code "viewCount" since;
              details_lookup (items_of (reply_at w 1))].
      assert (K : Forall carries_key
                    [popular_listing region_code;
                     recent_search region_code "viewCount" since;
                     details_lookup (items_of (reply_at w 1))]).
      { repeat constructor;
          [apply carries_key_popular_listing | apply carries_key_recent_search
          | apply carries_key_details_lookup]. }
      destruct (reply_at w 2) as [details|].
      * match goal with
        | |- context [searched_entries 0 ?f ?d ?w4] =>
            destruct (quiet_searched_entries f d 0 w4) as [Hs Hr];
            destruct (searched_entries 0 f d w4) as [entries w5]
        end.
        cbn [snd fst] in *. rewrite Hs, Hr.
        cbn [sent replies after_request after_reading length Nat.iter].
        rewrite <- !app_assoc.
        repeat split; try lia; try discriminate; exact K.
      * cbn [snd sent replies after_request after_reading length Nat.iter].
        rewrite <- !app_assoc.
        repeat split; try lia; try discriminate; exact K.
  - exists [popular_listing region_code].
    match goal with
    | |- context [for_each popular_entry ?items ?w1] =>
        destruct (quiet_for_each popular_entry items quiet_popular_entry w1)
          as [Hs Hr];
        destruct (for_each popular_entry items w1) as [entries w2]
    end.
    cbn [snd fst] in *. rewrite Hs, Hr.
    cbn [sent replies after_request length Nat.iter].
    repeat split; try lia.
    repeat constructor. apply carries_key_popular_listing.
Qed.

(** X7. The top performer of a trending answer is the first of
    trendingVideos and one of the entries fetched, and no entry fetched
    has a larger view velocity; there is none exactly when no entry was
    fetched, and then trendingVideos is empty. *)
Theorem trending_top_performer :
  forall (R : Runtime) (region_code : string) (w : World)
         (result : Trending.t) (status : Z),
    fst (get_trending_analysis region_code w) = (TrendingBody result, status) ->
    let videos := fetched_videos region_code w in
    match Summary.topPerformer (Trending.summary result) with
    | Some top =>
        In top videos
        /\ hd_error (Trending.trendingVideos result) = Some top
        /\ (forall video : Entry.t,
               In video videos ->
               (Entry.viewVelocity video <= Entry.viewVelocity top)%Q)
    | None => videos = [] /\ Trending.trendingVideos result = []
    end.
Proof.
  intros R region_code w result status Hanswer videos.
  apply trending_answer in Hanswer. fold videos in Hanswer.
  unfold trending_report in Hanswer.
  set (ranked := sort_desc Entry.viewVelocity videos) in Hanswer.
  injection Hanswer as Hresult Hstatus. subst result.
  cbn [Trending.trendingVideos Trending.summary Summary.topPerformer].
  pose proof (sort_desc_perm Entry.viewVelocity videos) as Hperm.
  pose proof (sort_desc_sorted Entry.viewVelocity videos) as Hsorted.
  fold ranked in Hperm, Hsorted.
  destruct ranked as [|top ranked]; cbn [hd_error].
  - split; [|reflexivity]. now apply Permutation_nil, Permutation_sym.
  - split; [|split].
    + eapply Permutation_in; [apply Permutation_sym, Hperm | now left].
    + reflexivity.
    + intros video Hin.
      apply (Permutation_in _ Hperm) in Hin.
      inversion Hsorted as [|? ? _ Hall]; subst.
      destruct Hin as [<-|Hin]; [apply Qle_refl|].
      rewrite Forall_forall in Hall. now apply Hall.
Qed.

(** The three videos with 10, 50 and 30 views an hour after publication:
    the one with 50 views is on top. *)
Lemma trending_top_performer_witness :
  exists result : Trending.t,
    report_in (fst (@get_trending_analysis Reference.runtime "us"
                      (Sample.world [Some Sample.three_by_velocity])))
    = Some result
    /\ option_map Entry.id (Summary.topPerformer (Trending.summary result))
       = Some "b".
Proof.
  set (w := Sample.world [Some Sample.three_by_velocity]).
  assert (H : fst (@get_trending_analysis Reference.runtime "us" w)
              = @trending_report Reference.runtime "us"
                  (@fetched_videos Reference.runtime "us" w))
    by (apply trending_first_tier_answers; reflexivity).
  unfold trending_report in H.
  match type of H with
  | _ = (TrendingBody ?r, _) => exists r
  end.
  split; [now rewrite H|].
  pose proof (trending_top_performer Reference.runtime "us" w _ 200%Z H) as T.
  cbv zeta in T.
  destruct (Summary.topPerformer _) as [top|] eqn:E.
  - destruct T as [_ [Hhead _]]. vm_compute in Hhead.
    injection Hhead as <-. reflexivity.
  - destruct T as [Hnone _]. vm_compute in Hnone. discriminate.
Defined.

(** X8. In the second tier, when the search has items and the reply to
    the details request is a document without items, the answer is a 200
    one with an empty report: no video, totals and averages 0, no top
    performer, no category, three empty bands; the averages are not
    divided by the zero count. *)
Theorem trending_empty_details :
  forall (R : Runtime) (region_code : string) (w : World),
    no_items (reply_at w 0) = true ->
    no_items (reply_at w 1) = false ->
    reply_at w 2 = Some [] ->
    fst (get_trending_analysis region_code w)
    = (TrendingBody (empty_report region_code), 200%Z).
Proof.
  intros R region_code w H0 H1 H2.
  pose proof (get_trending_analysis_run region_code w) as Hrun.
  cbv zeta in Hrun. rewrite Hrun, H0, H1, H2. clear Hrun.
  match goal with
  | |- context [searched_entries 0 ?f [] ?w4] =>
      pose proof (searched_entries_length f [] 0 w4) as Hlen;
      destruct (searched_entries 0 f [] w4) as [entries w5]
  end.
  cbn [fst length] in *. rewrite Nat.min_0_r in Hlen.
  destruct entries; [reflexivity | discriminate].
Qed.

(** A search that finds one video, and details that hold none. *)
Lemma trending_empty_details_witness :
  fst (@get_trending_analysis Reference.runtime "us"
         (Sample.world [Some []; Some (Sample.listing 1); Some []]))
  = (TrendingBody (@empty_report "us"), 200%Z).
Proof.
  apply (trending_empty_details Reference.runtime "us"
           (Sample.world [Some []; Some (Sample.listing 1); Some []]));
    reflexivity.
Defined.

Lemma skipn_nth_error {A : Type} (l : list A) (i : nat) (x : A) :
  nth_error l i = Some x -> skipn i l = x :: skipn (S i) l.
Proof.
  revert i. induction l as [|y l IH]; intros [|i] H; try discriminate.
  - injection H as ->. reflexivity.
  - change (skipn (S i) (y :: l)) with (skipn i l).
    change (skipn (S (S i)) (y :: l)) with (skipn (S i) l).
    now apply IH.
Qed.

Lemma skipn_nth_error_none {A : Type} (l : list A) (i : nat) :
  nth_error l i = None -> skipn i l = [].
Proof. intros H. apply skipn_all2. now apply nth_error_None. Qed.

Lemma searched_entry_shows {R : Runtime} (item video : Api.Item) (w : World) :
  shows item video (fst (searched_entry item video w)).
Proof.
  unfold searched_entry, bind.
  destruct (parse_youtube_datetime _ w) as [published w1].
  unfold get_utc_now, ret. cbn [fst]. repeat split.
Qed.

Lemma searched_entries_show {R : Runtime} (items details : list Api.Item) :
  forall (i : nat) (w : World),
    Forall2 (fun pair video => shows (fst pair) (snd pair) video)
      (combine items (skipn i details))
      (fst (searched_entries i items details w)).
Proof.
  induction items as [|item rest IH]; intros i w.
  - constructor.
  - cbn [searched_entries].
    destruct (nth_error details i) as [video|] eqn:E.
    + rewrite (skipn_nth_error _ _ _ E). cbn [combine].
      unfold bind at 1.
      pose proof (searched_entry_shows item video w) as Hfirst.
      destruct (searched_entry item video w) as [entry w1].
      unfold bind at 1. specialize (IH (S i) w1).
      destruct (searched_entries (S i) rest details w1) as [entries w2].
      cbn [fst ret] in *. now constructor.
    + rewrite (skipn_nth_error_none _ _ E).
      specialize (IH (S i) w).
      rewrite (skipn_all2 details) in IH
        by (apply nth_error_None in E; lia).
      destruct rest; exact IH.
Qed.

(** X9. In the second tier the entries pair the videos found with the
    details by position: the i-th entry shows the id, the title and the
    publication time of the i-th search result with the counts and the
    duration of the i-th item of the details, whatever video that item
    describes, and there are as many entries as the shorter of the two
    lists has items. *)
Theorem trending_second_tier_pairs :
  forall (R : Runtime) (region_code : string) (w : World)
         (details : list Api.Item),
    no_items (reply_at w 0) = true ->
    no_items (reply_at w 1) = false ->
    reply_at w 2 = Some details ->
    Forall2 (fun pair video => shows (fst pair) (snd pair) video)
      (combine (items_of (reply_at w 1)) details)
      (fetched_videos region_code w)
    /\ fst (get_trending_analysis region_code w)
       = trending_report region_code (fetched_videos region_code w).
Proof.
  intros R region_code w details H0 H1 H2. split.
  - unfold fetched_videos. rewrite H0, H1, H2.
    apply (searched_entries_show (items_of (reply_at w 1)) details 0).
  - now apply trending_second_tier_answers with details.
Qed.

(** Details that come back in another order than the videos found: the
    first entry has the id of the first video found and the views of the
    first item of the details. *)
Lemma trending_second_tier_pairs_witness :
  let w := Sample.world [Some []; Some (fst Sample.crossed_details);
                         Some (snd Sample.crossed_details)] in
  map (fun video => (Entry.id video, Entry.viewCount video))
      (@fetched_videos Reference.runtime "us" w)
  = [("a", 50%Z); ("b", 10%Z)].
Proof.
  intros w.
  destruct (trending_second_tier_pairs Reference.runtime "us" w
              (snd Sample.crossed_details) eq_refl eq_refl eq_refl)
    as [Hpairs _].
  remember (@fetched_videos Reference.runtime "us" w) as videos eqn:Hvideos.
  clear Hvideos.
  change (combine (items_of (reply_at w 1)) (snd Sample.crossed_details))
    with [(Sample.video "a" "2024-01-02T11:00:00Z" 0 0 0 "",
           Sample.video "b" "" 50 2 1 "PT10M");
          (Sample.video "b" "2024-01-02T11:00:00Z" 0 0 0 "",
           Sample.video "a" "" 10 1 0 "PT4M")] in Hpairs.
  inversion Hpairs as [|p1 e1 ps es1 [Hid1 [_ [_ [Hv1 _]]]] Hrest]; subst.
  inversion Hrest as [|p2 e2 ps' es2 [Hid2 [_ [_ [Hv2 _]]]] Hnil]; subst.
  inversion Hnil; subst.
  cbn [map]. rewrite Hid1, Hv1, Hid2, Hv2. reflexivity.
Defined.

(** ** More on the category breakdown *)

Section CategoryTotals.
Context {R : Runtime}.

Lemma dict_update_counts (video : Entry.t) (k : string)
    (d : dict Category.t) :
  dict_mem k d = true ->
  sumZ (map (fun entry => Category.count (snd entry))
            (dict_update k (credit video) d))
  = (sumZ (map (fun entry => Category.count (snd entry)) d) + 1)%Z.
Proof.
  induction d as [|[k0 data] d IH]; [discriminate|].
  cbn [dict_mem existsb fst dict_update].
  destruct (String.eqb k0 k) eqn:E; cbn [map snd]; rewrite !sumZ_cons.
  - intros _. cbn [credit Category.count]. lia.
  - intros H. cbn [orb] in H. unfold dict_mem in IH. rewrite (IH H). lia.
Qed.

Lemma sumZ_app (xs ys : list Z) : sumZ (xs ++ ys)%list = (sumZ xs + sumZ ys)%Z.
Proof.
  induction xs as [|x xs IH]; cbn [app]; [unfold sumZ at 2; simpl; lia|].
  rewrite !sumZ_cons, IH. lia.
Qed.

Lemma tally_category_counts (videos : list Entry.t) :
  forall categories : dict Category.t,
    sumZ (map (fun entry => Category.count (snd entry))
              (fold_left tally_category videos categories))
    = (sumZ (map (fun entry => Category.count (snd entry)) categories)
       + len videos)%Z.
Proof.
  induction videos as [|video videos IH]; intros categories.
  - unfold len. simpl. lia.
  - cbn [fold_left]. rewrite IH, len_cons, tally_category_credit.
    set (k := category_of (Entry.duration video)).
    destruct (dict_mem k categories) eqn:E.
    + rewrite dict_update_counts by exact E. lia.
    + rewrite dict_update_counts.
      * unfold dict_add. rewrite map_app, sumZ_app.
        cbn [map snd no_data Category.count].
        change (sumZ [0%Z]) with 0%Z. lia.
      * unfold dict_add, dict_mem. rewrite existsb_app. cbn [existsb fst].
        rewrite String.eqb_refl. now rewrite orb_true_r.
Qed.

Lemma breakdown_rows_counts (categories : dict Category.t) :
  map Breakdown.count (map breakdown_row (map average_category categories))
  = map (fun entry => Category.count (snd entry)) categories.
Proof.
  induction categories as [|[k data] d IH]; [reflexivity|].
  cbn [map]. now rewrite IH.
Qed.

Lemma breakdown_rows_categories (categories : dict Category.t) :
  map Breakdown.category (map breakdown_row (map average_category categories))
  = map fst categories.
Proof.
  induction categories as [|[k data] d IH]; [reflexivity|].
  cbn [map]. now rewrite IH.
Qed.

Lemma category_of_cases (duration : Z) :
  In (category_of duration) ["Short"; "Medium"; "Long"].
Proof.
  unfold category_of.
  destruct (duration <? 300)%Z; [now left|].
  destruct (duration <? 1200)%Z; [right; now left | right; right; now left].
Qed.

End CategoryTotals.

(** X10. The category breakdown of a trending answer has at most three
    rows, for different categories among Short, Medium and Long; each row
    counts at least one video, and the counts of the rows add up to
    totalVideos. *)
Theorem trending_category_breakdown :
  forall (R : Runtime) (region_code : string) (w : World)
         (result : Trending.t) (status : Z),
    fst (get_trending_analysis region_code w) = (TrendingBody result, status) ->
    let rows := Trending.categoryBreakdown result in
    (length rows <= 3)%nat
    /\ NoDup (map Breakdown.category rows)
    /\ (forall row : Breakdown.t,
           In row rows ->
           In (Breakdown.category row) ["Short"; "Medium"; "Long"]
           /\ (1 <= Breakdown.count row)%Z)
    /\ sumZ (map Breakdown.count rows)
       = Summary.totalVideos (Trending.summary result).
Proof.
  intros R region_code w result status Hanswer rows.
  apply trending_answer in Hanswer. unfold trending_report in Hanswer.
  set (ranked := sort_desc Entry.viewVelocity (fetched_videos region_code w))
    in Hanswer.
  injection Hanswer as Hresult Hstatus. subst rows result.
  cbn [Trending.categoryBreakdown Trending.summary Summary.totalVideos].
  fold breakdown_row.
  assert (Hnodup : NoDup (map Breakdown.category
                            (map breakdown_row
                               (map average_category
                                  (fold_left tally_category ranked []))))).
  { rewrite breakdown_rows_categories. apply tally_category_keys. constructor. }
  assert (Hrows : forall row : Breakdown.t,
             In row (map breakdown_row
                       (map average_category
                          (fold_left tally_category ranked []))) ->
             In (Breakdown.category row) ["Short"; "Medium"; "Long"]
             /\ (1 <= Breakdown.count row)%Z).
  { intros row Hrow. destruct (category_rows ranked row Hrow) as [Hsome [Hcount _]].
    destruct (in_category (Breakdown.category row) ranked) as [|video members] eqn:E;
      [contradiction|].
    split.
    - assert (Hin : In video (in_category (Breakdown.category row) ranked))
        by (rewrite E; now left).
      apply filter_In in Hin. destruct Hin as [_ Hcat].
      apply String.eqb_eq in Hcat. rewrite <- Hcat. apply category_of_cases.
    - rewrite Hcount, len_cons. unfold len. lia. }
  split; [|split; [exact Hnodup | split; [exact Hrows|]]].
  - rewrite <- (length_map Breakdown.category).
    apply (NoDup_incl_length Hnodup (l' := ["Short"; "Medium"; "Long"])).
    intros k Hk. apply in_map_iff in Hk. destruct Hk as [row [<- Hrow]].
    now apply Hrows.
  - rewrite breakdown_rows_counts, tally_category_counts. unfold sumZ at 1.
    simpl. reflexivity.
Qed.

(** The three videos of 4, 10 and 30 minutes: three rows of one video. *)
Lemma trending_category_breakdown_witness :
  exists result : Trending.t,
    report_in (fst (@get_trending_analysis Reference.runtime "us"
                      (Sample.world [Some Sample.three_by_velocity])))
    = Some result
    /\ sumZ (map Breakdown.count (Trending.categoryBreakdown result)) = 3%Z.
Proof.
  set (w := Sample.world [Some Sample.three_by_velocity]).
  assert (H : fst (@get_trending_analysis Reference.runtime "us" w)
              = @trending_report Reference.runtime "us"
                  (@fetched_videos Reference.runtime "us" w))
    by (apply trending_first_tier_answers; reflexivity).
  unfold trending_report in H.
  match type of H with
  | _ = (TrendingBody ?r, _) => exists r
  end.
  split; [now rewrite H|].
  destruct (trending_category_breakdown Reference.runtime "us" w _ 200%Z H)
    as [_ [_ [_ Hsum]]].
  rewrite Hsum. reflexivity.
Defined.

(** X11. The average views of a trending answer are the total views
    divided by the number of videos and rounded down: the average times
    the number of videos is at most the total, and less than one more per
    video would exceed it.  With no video the total and the average are
    0. *)
Theorem trending_average_views :
  forall (R : Runtime) (region_code : string) (w : World)
         (result : Trending.t) (status : Z),
    fst (get_trending_analysis region_code w) = (TrendingBody result, status) ->
    let summary := Trending.summary result in
    (0 <= Summary.totalVideos summary)%Z
    /\ (Summary.totalVideos summary = 0%Z ->
        Summary.totalViews summary = 0%Z /\ Summary.averageViews summary = 0%Z)
    /\ ((0 < Summary.totalVideos summary)%Z ->
        (Summary.averageViews summary * Summary.totalVideos summary
         <= Summary.totalViews summary)%Z
        /\ (Summary.totalViews summary
            < (Summary.averageViews summary + 1) * Summary.totalVideos summary)%Z).
Proof.
  intros R region_code w result status Hanswer summary.
  apply trending_answer in Hanswer. unfold trending_report in Hanswer.
  set (ranked := sort_desc Entry.viewVelocity (fetched_videos region_code w))
    in Hanswer.
  injection Hanswer as Hresult Hstatus. subst summary result.
  cbn [Trending.summary Summary.totalVideos Summary.totalViews
       Summary.averageViews].
  split; [unfold len; lia|]. split.
  - intros Hzero. rewrite Hzero. cbn [Z.eqb negb].
    destruct ranked; [now split | unfold len in Hzero; simpl in Hzero; lia].
  - intros Hpos.
    destruct (Z.eqb_spec (len ranked) 0) as [E|_]; [lia|]. cbn [negb].
    split.
    + rewrite Z.mul_comm. now apply Z.mul_div_le.
    + rewrite Z.mul_comm. now apply Z.mul_succ_div_gt.
Qed.

(** Three videos with 10, 50 and 30 views: the average is 30. *)
Lemma trending_average_views_witness :
  exists result : Trending.t,
    report_in (fst (@get_trending_analysis Reference.runtime "us"
                      (Sample.world [Some Sample.three_by_velocity])))
    = Some result
    /\ (Summary.averageViews (Trending.summary result) * 3
        <= Summary.totalViews (Trending.summary result))%Z.
Proof.
  set (w := Sample.world [Some Sample.three_by_velocity]).
  assert (H : fst (@get_trending_analysis Reference.runtime "us" w)
              = @trending_report Reference.runtime "us"
                  (@fetched_videos Reference.runtime "us" w))
    by (apply trending_first_tier_answers; reflexivity).
  unfold trending_report in H.
  match type of H with
  | _ = (TrendingBody ?r, _) => exists r
  end.
  split; [now rewrite H|].
  destruct (trending_average_views Reference.runtime "us" w _ 200%Z H)
    as [_ [_ Hpos]].
  now destruct Hpos as [Hle _].
Defined.

(** ** Durations and categories *)

(** X12. A video whose duration the library cannot read enters the
    trending list with a duration of 0 seconds, in either tier, and so
    falls in the category Short. *)
Theorem trending_unreadable_duration :
  forall (R : Runtime) (item video : Api.Item) (w : World),
    isodate_total_seconds (Api.duration (Api.contentDetails video)) = None ->
    Entry.duration (fst (popular_entry video w)) = 0%Z
    /\ Entry.duration (fst (searched_entry item video w)) = 0%Z
    /\ category_of (Entry.duration (fst (popular_entry video w))) = "Short"
    /\ category_of (Entry.duration (fst (searched_entry item video w))) = "Short".
Proof.
  intros R item video w Hnone.
  assert (P : Entry.duration (fst (popular_entry video w)) = 0%Z).
  { unfold popular_entry, bind.
    destruct (parse_youtube_datetime _ w) as [published w1].
    unfold get_utc_now, ret. cbn [fst Entry.duration].
    unfold parse_duration. now rewrite Hnone. }
  assert (S : Entry.duration (fst (searched_entry item video w)) = 0%Z).
  { destruct (searched_entry_shows item video w) as [_ [_ [_ [_ [_ [_ Hd]]]]]].
    rewrite Hd. unfold parse_duration. now rewrite Hnone. }
  rewrite P, S. repeat split.
Qed.

(** A video whose duration reads LIVE. *)
Lemma trending_unreadable_duration_witness :
  let video := Sample.video "a" "2024-01-02T11:00:00Z" 10 1 0 "LIVE" in
  category_of (Entry.duration
                 (fst (@popular_entry Reference.runtime video (Sample.world []))))
  = "Short".
Proof.
  intros video.
  apply (trending_unreadable_duration Reference.runtime video video
           (Sample.world [])).
  reflexivity.
Defined.

(** ** The formatter *)

Lemma int_of_text_str (n : Z) : int_of_text (str n) = Some n.
Proof.
  unfold int_of_text, str. rewrite NilZero.isi.
  - cbn [option_map]. now rewrite DecimalZ.of_to.
  - destruct n as [|p|p]; cbn [Z.to_int]; try discriminate.
    intros H. injection H as H. now apply Unsigned.to_uint_nonnil in H.
  - destruct n as [|p|p]; cbn [Z.to_int]; try discriminate.
    intros H. injection H as H. now apply Unsigned.to_uint_nonnil in H.
Qed.

(** X13. Below one thousand, negative numbers included, the formatter
    gives the plain decimal text of the number, from which the number can
    be read back. *)
Theorem format_number_small :
  forall (R : Runtime) (num : Z),
    (num < 1000)%Z ->
    format_number num = str num
    /\ int_of_text (format_number num) = Some num.
Proof.
  intros R num Hsmall.
  assert (E : format_number num = str num).
  { unfold format_number.
    destruct (Z.leb_spec 1000000000 num); [lia|].
    destruct (Z.leb_spec 1000000 num); [lia|].
    destruct (Z.leb_spec 1000 num); [lia|]. reflexivity. }
  rewrite E. split; [reflexivity | apply int_of_text_str].
Qed.

(** 999 and -5. *)
Lemma format_number_small_witness :
  @format_number Reference.runtime 999 = "999"
  /\ int_of_text (@format_number Reference.runtime (-5)) = Some (-5)%Z.
Proof.
  split.
  - apply (format_number_small Reference.runtime 999). reflexivity.
  - apply (format_number_small Reference.runtime (-5)). reflexivity.
Defined.

Lemma scaled_bounds (num scale : Z) :
  (0 < scale)%Z -> (scale <= num)%Z ->
  (1 <= inject_Z num / inject_Z scale)%Q
  /\ ((num < 1000 * scale)%Z -> (inject_Z num / inject_Z scale < 1000)%Q).
Proof.
  intros Hscale Hle.
  assert (Hpos : (0 < inject_Z scale)%Q)
    by (change 0%Q with (inject_Z 0); now rewrite <- Zlt_Qlt).
  split.
  - apply Qle_shift_div_l; [exact Hpos|]. rewrite Qmult_1_l.
    now rewrite <- Zle_Qle.
  - intros Hlt. apply Qlt_shift_div_r; [exact Hpos|].
    change 1000%Q with (inject_Z 1000).
    now rewrite <- inject_Z_mult, <- Zlt_Qlt.
Qed.

(** X14. From one thousand on, the formatter scales the number by the
    largest of a thousand, a million and a billion that does not exceed
    it, formats the quotient with one decimal and appends K, M or B.  The
    quotient is at least 1, and below 1000 for K and M: the scale is
    chosen before the quotient is rounded to one decimal. *)
Theorem format_number_scaled :
  forall (R : Runtime) (num : Z),
    (1000 <= num)%Z ->
    exists (scale : Z) (suffix : string),
      format_number num
      = format_1f (inject_Z num / inject_Z scale)%Q ++ suffix
      /\ endswith (format_number num) suffix = true
      /\ (1 <= inject_Z num / inject_Z scale)%Q
      /\ ((suffix = "K" /\ scale = 1000%Z /\ (num < 1000000)%Z
           /\ (inject_Z num / inject_Z scale < 1000)%Q)
          \/ (suffix = "M" /\ scale = 1000000%Z /\ (num < 1000000000)%Z
              /\ (inject_Z num / inject_Z scale < 1000)%Q)
          \/ (suffix = "B" /\ scale = 1000000000%Z)).
Proof.
  intros R num Hbig. unfold format_number.
  destruct (Z.leb_spec 1000000000 num).
  - exists 1000000000%Z, "B". split; [reflexivity|].
    split; [apply endswith_append|].
    split; [apply scaled_bounds; lia|]. right; right. now split.
  - destruct (Z.leb_spec 1000000 num).
    + exists 1000000%Z, "M". split; [reflexivity|].
      split; [apply endswith_append|].
      destruct (scaled_bounds num 1000000) as [Hone Hbelow]; [lia | lia|].
      split; [exact Hone|]. right; left.
      repeat split; try assumption. apply Hbelow. lia.
    + destruct (Z.leb_spec 1000 num); [|lia].
      exists 1000%Z, "K". split; [reflexivity|].
      split; [apply endswith_append|].
      destruct (scaled_bounds num 1000) as [Hone Hbelow]; [lia | lia|].
      split; [exact Hone|]. left.
      repeat split; try assumption. apply Hbelow. lia.
Qed.

(** 1500 is 1.5K with the reference format. *)
Lemma format_number_scaled_witness :
  exists (scale : Z) (suffix : string),
    @format_number Reference.runtime 1500
    = Reference.one_decimal (inject_Z 1500 / inject_Z scale)%Q ++ suffix
    /\ scale = 1000%Z /\ suffix = "K".
Proof.
  destruct (format_number_scaled Reference.runtime 1500)
    as [scale [suffix [Heq [_ [_ Hcase]]]]]; [lia|].
  exists scale, suffix. split; [exact Heq|].
  destruct Hcase as [[Hs [Hc _]]|[[Hs [Hc _]]|[Hs Hc]]]; subst;
    [now split | vm_compute in Heq; discriminate | vm_compute in Heq; discriminate].
Defined.

(** ** Views per hour *)

Lemma hours_zero (d : Z) :
  Qeq_bool (total_seconds d / 3600) 0 = (d =? 0)%Z.
Proof.
  unfold Qeq_bool, total_seconds, microseconds_per_second.
  destruct d as [|p|p]; reflexivity.
Qed.

Lemma hours_sign (d : Z) :
  (d <= 0)%Z -> (total_seconds d / 3600 <= 0)%Q.
Proof.
  intros H. unfold total_seconds, microseconds_per_second, Qle.
  destruct d as [|p|p]; simpl; lia.
Qed.

(** X15. Views per hour are 0, with the clock left alone, when the video
    has no views.  Otherwise the clock is read first and the publication
    time second, and the views are divided by the hours between them: a
    publication time equal to the reading of the clock raises a division
    error; a timestamp the library cannot read is replaced by a second
    reading of the clock, so that the hours elapsed are zero or negative
    whenever the clock does not run backwards. *)
Theorem views_per_hour_cases :
  forall (R : Runtime) (views : Z) (publishedAt : string) (w : World),
    let now := clock w (reads w) in
    ((views <= 0)%Z -> views_per_hour views publishedAt w = (Some 0%Q, w))
    /\ (forall published : Z,
           (0 < views)%Z ->
           reads_as publishedAt published ->
           views_per_hour views publishedAt w
           = (if (now - published =? 0)%Z then None
              else Some (round2 (inject_Z views
                                 / (total_seconds (now - published) / 3600))%Q),
              after_reading w))
    /\ ((0 < views)%Z ->
        unreadable publishedAt ->
        let again := clock w (S (reads w)) in
        views_per_hour views publishedAt w
        = (if (now - again =? 0)%Z then None
           else Some (round2 (inject_Z views
                              / (total_seconds (now - again) / 3600))%Q),
           after_reading (after_reading w))
        /\ ((now <= again)%Z -> (total_seconds (now - again) / 3600 <= 0)%Q)).
Proof.
  intros R views publishedAt w now. split; [|split].
  - intros Hviews. unfold views_per_hour.
    destruct (Z.ltb_spec 0 views); [lia | reflexivity].
  - intros published Hviews Hreads. unfold views_per_hour.
    destruct (Z.ltb_spec 0 views); [|lia].
    rewrite (bind_run _ _ _ _ _ (get_utc_now_run w)).
    rewrite (bind_run _ _ _ _ _ (Hreads (after_reading w))).
    unfold ret, float_truediv. rewrite hours_zero. fold now.
    now destruct (now - published =? 0)%Z.
  - intros Hviews Hunreadable again. split.
    + unfold views_per_hour.
      destruct (Z.ltb_spec 0 views); [|lia].
      rewrite (bind_run _ _ _ _ _ (get_utc_now_run w)).
      rewrite (bind_run _ _ _ _ _
                 (eq_trans (Hunreadable (after_reading w))
                           (get_utc_now_run (after_reading w)))).
      unfold ret, float_truediv. rewrite hours_zero.
      change (clock (after_reading w) (reads (after_reading w))) with again.
      fold now. now destruct (now - again =? 0)%Z.
    + intros Hclock. apply hours_sign. lia.
Qed.

Lemma reference_unreadable (date_string : string) :
  Reference.timestamp_microseconds
    (if endswith date_string "Z" then drop_last date_string ++ "+00:00"
     else date_string) = None ->
  @unreadable Reference.runtime date_string.
Proof.
  intros H w. unfold parse_youtube_datetime. cbn [fromisoformat Reference.runtime].
  now rewrite H.
Qed.

(** A video published an hour before noon, and one whose timestamp
    cannot be read, while the clock stands still. *)
Lemma views_per_hour_cases_witness :
  let still := {| clock := fun _ => Sample.noon; reads := 0;
                  replies := []; sent := [] |} in
  fst (@views_per_hour Reference.runtime 50 "2024-01-02T11:00:00Z" still)
  = Some 50%Q
  /\ fst (@views_per_hour Reference.runtime 50 "yesterday" still) = None.
Proof.
  intros still.
  destruct (views_per_hour_cases Reference.runtime 50 "2024-01-02T11:00:00Z" still)
    as [_ [Hread _]].
  destruct (views_per_hour_cases Reference.runtime 50 "yesterday" still)
    as [_ [_ Hunread]].
  split.
  - rewrite (Hread 1704193200000000%Z);
      [reflexivity | lia | now apply reference_reads_as].
  - destruct Hunread as [Hrun _]; [lia | now apply reference_unreadable|].
    rewrite Hrun. reflexivity.
Defined.

(** ** Related videos *)

Lemma collect_related_all (video_id : string) (items : list Api.Item) :
  forall related_videos : list Related.t,
    forallb (fun item => negb (other_than video_id item) || has_medium item) items
    = true ->
    collect_related video_id items related_videos
    = Some (related_videos
            ++ map related_of (filter (other_than video_id) items))%list.
Proof.
  induction items as [|item rest IH]; intros related_videos Hall.
  - cbn [collect_related filter map]. now rewrite app_nil_r.
  - cbn [forallb] in Hall. apply andb_true_iff in Hall. destruct Hall as [Hitem Hrest].
    cbn [collect_related filter]. unfold other_than at 1 in Hitem.
    unfold has_medium in Hitem. unfold other_than at 1.
    destruct (negb (String.eqb (Api.videoId item) video_id)).
    + cbn [negb orb] in Hitem.
      destruct (dict_get "medium" (Api.thumbnails (Api.snippet item)))
        as [medium|] eqn:E; [|discriminate].
      rewrite (IH _ Hrest). cbn [map]. rewrite <- app_assoc.
      unfold related_of at 2. now rewrite E.
    + now apply IH.
Qed.

Lemma collect_related_raises (video_id : string) (items : list Api.Item) :
  forall related_videos : list Related.t,
    forallb (fun item => negb (other_than video_id item) || has_medium item) items
    = false ->
    collect_related video_id items related_videos = None.
Proof.
  induction items as [|item rest IH]; intros related_videos Hsome;
    [discriminate|].
  cbn [forallb] in Hsome. cbn [collect_related].
  unfold other_than, has_medium in *.
  destruct (negb (String.eqb (Api.videoId item) video_id)).
  - destruct (dict_get "medium" (Api.thumbnails (Api.snippet item)));
      [|reflexivity].
    now apply IH.
  - now apply IH.
Qed.

(** X16. The related videos of the response are the first three of the
    channel's videos fetched that are not the video itself, in the order
    fetched, each with its id, title and medium thumbnail.  The list is
    built from all videos fetched before it is cut to three: when any
    other video fetched has no thumbnail of medium size the lookup raises,
    and with no reply, or none with items, the list is empty. *)
Theorem related_videos_cases :
  forall (video_id : string) (items : list Api.Item),
    let others := filter (other_than video_id) items in
    (forallb has_medium others = true ->
     relatedVideos video_id (Some items)
     = Some (map related_of (firstn 3 others))
     /\ (forall related : Related.t,
            In related (map related_of (firstn 3 others)) ->
            Related.id related <> video_id)
     /\ (length (map related_of (firstn 3 others)) <= 3)%nat)
    /\ (forallb has_medium others = false ->
        relatedVideos video_id (Some items) = None)
    /\ relatedVideos video_id None = Some []
    /\ relatedVideos video_id (Some []) = Some [].
Proof.
  intros video_id items others.
  assert (Hall : forallb (fun item => negb (other_than video_id item)
                                      || has_medium item) items
                 = forallb has_medium others).
  { subst others. induction items as [|item rest IH]; [reflexivity|].
    cbn [forallb filter]. destruct (other_than video_id item); cbn [negb orb forallb];
      now rewrite IH. }
  split; [|split; [|split; reflexivity]].
  - intros Hmedium. rewrite <- Hall in Hmedium. split; [|split].
    + unfold relatedVideos, related_videos.
      destruct items as [|item rest]; [reflexivity|].
      rewrite (collect_related_all _ _ [] Hmedium). cbn [app option_map].
      fold others. now rewrite firstn_map.
    + intros related Hin. apply in_map_iff in Hin.
      destruct Hin as [item [<- Hin]].
      assert (Hother : In item others).
      { rewrite <- (firstn_skipn 3 others). apply in_or_app. now left. }
      apply filter_In in Hother. destruct Hother as [_ Hother].
      unfold other_than in Hother. cbn [related_of Related.id].
      intros Heq. rewrite Heq, String.eqb_refl in Hother. discriminate.
    + rewrite length_map, length_firstn. lia.
  - intros Hmissing. rewrite <- Hall in Hmissing.
    unfold relatedVideos, related_videos.
    destruct items as [|item rest]; [discriminate|].
    now rewrite (collect_related_raises _ _ [] Hmissing).
Qed.

(** Five videos of the channel, the second of them the video itself: the
    first, the third and the fourth are related.  The same with a fifth
    video that has no thumbnail: the lookup raises. *)
Lemma related_videos_cases_witness :
  let five := map Sample.with_thumbnail ["a"; "b"; "c"; "d"; "e"] in
  option_map (map Related.id) (relatedVideos "b" (Some five))
  = Some ["a"; "c"; "d"]
  /\ relatedVideos "b"
       (Some (firstn 4 five ++ [Sample.video "e" "" 0 0 0 ""])%list)
     = None.
Proof.
  intros five. split.
  - destruct (related_videos_cases "b" five) as [[H _] _]; [reflexivity|].
    rewrite H. reflexivity.
  - now apply (related_videos_cases "b"
                 (firstn 4 five ++ [Sample.video "e" "" 0 0 0 ""])%list).
Defined.

(** ** The recent videos of a channel *)

Lemma collect_stats_pairs {R : Runtime} (items : list Api.Item) :
  forall (details : list Api.Item) (i : nat) (video_stats : list Stat.t),
    (i + length details <= length items)%nat ->
    collect_stats i details items video_stats
    = Some (video_stats
            ++ map (fun pair => stat_of (fst pair) (snd pair))
                   (combine (skipn i items) details))%list.
Proof.
  induction details as [|video rest IH]; intros i video_stats Hlen.
  - cbn [collect_stats]. rewrite combine_nil, app_nil_r. reflexivity.
  - cbn [collect_stats length] in *.
    destruct (nth_error items i) as [item|] eqn:E.
    + rewrite IH by lia. rewrite (skipn_nth_error _ _ _ E).
      cbn [combine map fst snd]. now rewrite <- app_assoc.
    + apply nth_error_None in E. lia.
Qed.

Lemma collect_stats_raises {R : Runtime} (items : list Api.Item) :
  forall (details : list Api.Item) (i : nat) (video_stats : list Stat.t),
    (i <= length items < i + length details)%nat ->
    collect_stats i details items video_stats = None.
Proof.
  induction details as [|video rest IH]; intros i video_stats Hlen.
  - cbn [length] in Hlen. lia.
  - cbn [collect_stats length] in *.
    destruct (nth_error items i) as [item|] eqn:E; [|reflexivity].
    assert (i < length items)%nat by (apply nth_error_Some; congruence).
    apply IH. lia.
Qed.

(** X17. The recent videos of a channel cost one search, for the ten
    newest videos of the channel, and, when it has items, one batch
    request for their details.  A search without items, or details that
    cannot be fetched, give an empty list, not an error.  The details are
    paired with the videos found by position; there is one entry for each
    item of the details, and an item of the details beyond the last video
    found raises an index error. *)
Theorem recent_video_stats_cases :
  forall (R : Runtime) (channel_id : string) (w : World),
    let w1 := after_request w (recent_videos_search channel_id) in
    let found := items_of (reply_at w 0) in
    let w2 := after_request w1 (details_lookup found) in
    (no_items (reply_at w 0) = true ->
     recent_video_stats channel_id w = (Some [], w1))
    /\ (no_items (reply_at w 0) = false ->
        reply_at w 1 = None ->
        recent_video_stats channel_id w = (Some [], w2))
    /\ (forall details : list Api.Item,
           no_items (reply_at w 0) = false ->
           reply_at w 1 = Some details ->
           snd (recent_video_stats channel_id w) = w2
           /\ ((length details <= length found)%nat ->
               fst (recent_video_stats channel_id w)
               = Some (map (fun pair => stat_of (fst pair) (snd pair))
                           (combine found details)))
           /\ ((length found < length details)%nat ->
               fst (recent_video_stats channel_id w) = None)).
Proof.
  intros R channel_id w w1 found w2.
  assert (Hrun : recent_video_stats channel_id w
                 = match reply_at w 0 with
                   | Some ((_ :: _) as items) =>
                       match reply_at w 1 with
                       | Some details => (collect_stats 0 details items [], w2)
                       | None => (Some [], w2)
                       end
                   | _ => (Some [], w1)
                   end).
  { unfold recent_video_stats.
    rewrite (bind_run _ _ _ _ _ (make_youtube_request_run _ _ w)).
    fold (recent_videos_search channel_id). fold w1.
    subst w2 found.
    destruct (reply_at w 0) as [[|item items]|]; try reflexivity.
    rewrite (bind_run _ _ _ _ _ (make_youtube_request_run _ _ w1)).
    unfold w1 at 1. rewrite reply_at_after_request.
    destruct (reply_at w 1); reflexivity. }
  rewrite Hrun. subst found.
  destruct (reply_at w 0) as [[|item items]|]; cbn [no_items items_of] in *.
  - repeat split; intros; discriminate.
  - split; [discriminate|]. split.
    + intros _ ->. reflexivity.
    + intros details _ ->. cbn [fst snd]. split; [reflexivity|]. split.
      * intros Hlen. rewrite collect_stats_pairs by (cbn [length] in *; lia).
        reflexivity.
      * intros Hlen. apply collect_stats_raises. cbn [length] in *. lia.
  - repeat split; intros; discriminate.
Qed.

(** Two videos found and their details; and details of three videos for
    two videos found. *)
Lemma recent_video_stats_cases_witness :
  let found := fst Sample.crossed_details in
  let details := snd Sample.crossed_details in
  option_map (map Stat.views)
    (fst (@recent_video_stats Reference.runtime "UC0123456789abcdefghijkl"
            (Sample.world [Some found; Some details])))
  = Some [50%Z; 10%Z]
  /\ fst (@recent_video_stats Reference.runtime "UC0123456789abcdefghijkl"
            (Sample.world [Some found; Some (details ++ details)%list]))
     = None.
Proof.
  intros found details.
  destruct (recent_video_stats_cases Reference.runtime
              "UC0123456789abcdefghijkl"
              (Sample.world [Some found; Some details])) as [_ [_ H]].
  destruct (H details eq_refl eq_refl) as [_ [Hpairs _]].
  destruct (recent_video_stats_cases Reference.runtime
              "UC0123456789abcdefghijkl"
              (Sample.world [Some found; Some (details ++ details)%list]))
    as [_ [_ H']].
  destruct (H' (details ++ details)%list eq_refl eq_refl) as [_ [_ Hraise]].
  split.
  - rewrite Hpairs; [reflexivity | cbn; lia].
  - apply Hraise. cbn. lia.
Defined.

(** ** What the channel handler derives from the recent videos *)

Lemma duration_analysis_fold (video_stats : list Stat.t) :
  forall short medium long : Z,
    fold_left
      (fun (duration_analysis : dict Z) (video : Stat.t) =>
         if (Stat.duration video <? 300)%Z then
           dict_update "short" Z.succ duration_analysis
         else if (Stat.duration video <? 1200)%Z then
           dict_update "medium" Z.succ duration_analysis
         else
           dict_update "long" Z.succ duration_analysis)
      video_stats
      [("short", short); ("medium", medium); ("long", long)]
    = [("short", (short + lasting_below 300 video_stats)%Z);
       ("medium", (medium + lasting 300 1200 video_stats)%Z);
       ("long", (long + lasting_from 1200 video_stats)%Z)].
Proof.
  unfold lasting_below, lasting, lasting_from.
  induction video_stats as [|video rest IH]; intros short medium long.
  - cbn [fold_left filter]. unfold len. cbn [length Z.of_nat].
    now rewrite !Z.add_0_r.
  - cbn [fold_left filter].
    destruct (Z.ltb_spec (Stat.duration video) 300) as [H1|H1];
      destruct (Z.ltb_spec (Stat.duration video) 1200) as [H2|H2];
      destruct (Z.leb_spec 300 (Stat.duration video)) as [H3|H3];
      destruct (Z.leb_spec 1200 (Stat.duration video)) as [H4|H4];
      try lia;
      cbn [dict_update String.eqb Ascii.eqb Bool.eqb fst snd andb];
      rewrite IH, ?len_cons;
      repeat match goal with
             | |- (_ :: _) = (_ :: _) => f_equal
             | |- (_, _) = (_, _) => f_equal
             end; lia.
Qed.

Lemma duration_partition (video_stats : list Stat.t) :
  (lasting_below 300 video_stats + lasting 300 1200 video_stats
   + lasting_from 1200 video_stats)%Z = len video_stats.
Proof.
  unfold lasting_below, lasting, lasting_from.
  induction video_stats as [|video rest IH]; [reflexivity|].
  cbn [filter].
  destruct (Z.ltb_spec (Stat.duration video) 300) as [H1|H1];
    destruct (Z.ltb_spec (Stat.duration video) 1200) as [H2|H2];
    destruct (Z.leb_spec 300 (Stat.duration video)) as [H3|H3];
    destruct (Z.leb_spec 1200 (Stat.duration video)) as [H4|H4];
    try lia; cbn [andb]; rewrite ?len_cons; lia.
Qed.

(** X18. The content distribution of the channel analytics has the three
    entries short, medium and long, in this order, which count the recent
    videos under 5 minutes, from 5 to under 20 minutes, and of 20 minutes
    or more; together they count every recent video once. *)
Theorem duration_analysis_counts :
  forall video_stats : list Stat.t,
    duration_analysis video_stats
    = [("short", lasting_below 300 video_stats);
       ("medium", lasting 300 1200 video_stats);
       ("long", lasting_from 1200 video_stats)]
    /\ (lasting_below 300 video_stats + lasting 300 1200 video_stats
        + lasting_from 1200 video_stats)%Z = len video_stats.
Proof.
  intros video_stats. split; [|apply duration_partition].
  unfold duration_analysis. rewrite duration_analysis_fold. reflexivity.
Qed.

Lemma max_by_first {A : Type} (key : A -> Z) (xs : list A) :
  forall best : A,
    exists pre post : list A,
      best :: xs = (pre ++ max_by key best xs :: post)%list
      /\ (forall x, In x pre -> (key x < key (max_by key best xs))%Z)
      /\ (forall x, In x post -> (key x <= key (max_by key best xs))%Z).
Proof.
  induction xs as [|x xs IH]; intros best.
  - exists [], []. cbn [max_by app]. repeat split; intros x [].
  - cbn [max_by].
    destruct (Z.ltb_spec (key best) (key x)) as [Hlt|Hge].
    + destruct (IH x) as [pre [post [Heq [Hpre Hpost]]]].
      exists (best :: pre), post. split; [cbn [app]; now rewrite Heq|].
      split; [|exact Hpost].
      intros y [<-|Hy]; [|now apply Hpre].
      destruct pre as [|p pre]; cbn [app] in Heq; injection Heq as Hx Hrest.
      * rewrite <- Hx. exact Hlt.
      * subst p. assert (key x < key (max_by key x xs))%Z by (apply Hpre; now left).
        lia.
    + destruct (IH best) as [pre [post [Heq [Hpre Hpost]]]].
      destruct pre as [|p pre]; cbn [app] in Heq; injection Heq as Hb Hrest.
      * exists [], (x :: post). cbn [app].
        split; [subst post; f_equal; exact Hb|].
        split; [intros y []|].
        intros y [<-|Hy]; [rewrite <- Hb; exact Hge | now apply Hpost].
      * subst p. exists (best :: x :: pre), post. cbn [app].
        split; [do 2 f_equal; exact Hrest|]. split; [|exact Hpost].
        assert (Hbest : (key best < key (max_by key best xs))%Z)
          by (apply Hpre; now left).
        intros y [<-|[<-|Hy]]; [exact Hbest | lia | apply Hpre; now right].
Qed.

(** X19. The top performing video of the channel analytics is the first
    of the recent videos with the most views: every recent video before it
    has fewer views and none has more.  There is none exactly when there
    is no recent video. *)
Theorem top_performing_video_first_maximum :
  forall (R : Runtime) (round_int : Q -> Z) (video_stats : list Stat.t),
    match Enhanced.topPerformingVideo (enhancedAnalytics round_int video_stats) with
    | Some top =>
        exists before after : list Stat.t,
          video_stats = (before ++ top :: after)%list
          /\ (forall v, In v before -> (Stat.views v < Stat.views top)%Z)
          /\ (forall v, In v after -> (Stat.views v <= Stat.views top)%Z)
    | None => video_stats = []
    end.
Proof.
  intros R round_int video_stats.
  destruct video_stats as [|first rest]; cbn [enhancedAnalytics Enhanced.topPerformingVideo];
    [reflexivity|].
  apply max_by_first.
Qed.

(** ** The trend of the channel *)
Section TrendData.
Context (strftime_date : Z -> string).

Lemma trend_point_run (video_stats : list Stat.t) (i : nat) (w : World) :
  trend_point strftime_date video_stats (Z.of_nat i) w
  = ({| Trend.date :=
          strftime_date (clock w (reads w) - timedelta_days (Z.of_nat i));
        Trend.views := trend_views video_stats i |},
     after_reading w).
Proof.
  unfold trend_point. rewrite (bind_run _ _ _ _ _ (get_utc_now_run w)).
  unfold ret. f_equal. f_equal. unfold trend_views, len.
  destruct (Nat.ltb_spec i (length video_stats)) as [Hlt|Hge].
  - destruct (Z.ltb_spec (Z.of_nat i) (Z.of_nat (length video_stats))); [|lia].
    unfold slice_from, last_n, len.
    destruct (Z.ltb_spec (- Z.of_nat i - 1) 0); [|lia].
    do 3 f_equal. lia.
  - destruct (Z.ltb_spec (Z.of_nat i) (Z.of_nat (length video_stats))); [lia|].
    reflexivity.
Qed.

Lemma trend_points_run (video_stats : list Stat.t) (days_ago : list nat) :
  forall w : World,
    for_each (trend_point strftime_date video_stats) (map Z.of_nat days_ago) w
    = (map (fun p =>
              {| Trend.date :=
                   strftime_date (clock w (fst p) - timedelta_days (Z.of_nat (snd p)));
                 Trend.views := trend_views video_stats (snd p) |})
           (combine (seq (reads w) (length days_ago)) days_ago),
       {| clock := clock w; reads := (reads w + length days_ago)%nat;
          replies := replies w; sent := sent w |}).
Proof.
  induction days_ago as [|i rest IH]; intros w.
  - cbn [map for_each length seq combine]. unfold ret.
    rewrite Nat.add_0_r. now destruct w.
  - cbn [map for_each length seq combine].
    rewrite (bind_run _ _ _ _ _ (trend_point_run video_stats i w)).
    rewrite (bind_run _ _ _ _ _ (IH (after_reading w))).
    unfold ret. cbn [after_reading clock reads replies sent fst snd].
    f_equal. f_equal. lia.
Qed.

Lemma last_n_step {A : Type} (xs : list A) (n : nat) :
  (S n <= length xs)%nat ->
  exists x : A,
    nth_error xs (length xs - S n) = Some x
    /\ last_n (S n) xs = x :: last_n n xs.
Proof.
  intros Hlen. unfold last_n.
  destruct (nth_error xs (length xs - S n)) as [x|] eqn:E.
  - exists x. split; [reflexivity|].
    rewrite (skipn_nth_error _ _ _ E). do 2 f_equal. lia.
  - apply nth_error_None in E. lia.
Qed.

Lemma last_n_one {A : Type} (xs : list A) (d : A) :
  xs <> [] -> last_n 1 xs = [List.last xs d].
Proof.
  unfold last_n. induction xs as [|x xs IH]; [contradiction|]. intros _.
  destruct xs as [|y xs]; [reflexivity|].
  change (List.last (x :: y :: xs) d) with (List.last (y :: xs) d).
  rewrite <- IH by discriminate.
  cbn [length]. rewrite !Nat.sub_succ, !Nat.sub_0_r. reflexivity.
Qed.

End TrendData.

(** X20. The trend of the channel analytics has eight points, for 7 days
    ago down to today, each dated by its own reading of the clock.  The
    views of the point for i days ago are the summed views of the last
    i + 1 of the recent videos, whatever their publication dates, and 0
    when there are no more than i recent videos: going back one day adds
    the views of one more video, the next one toward the front of the
    list. *)
Theorem trend_data_running_totals :
  forall (strftime_date : Z -> string) (video_stats : list Stat.t)
         (w : World),
    let points := fst (trendData strftime_date video_stats w) in
    map Trend.views points
    = map (trend_views video_stats) [7; 6; 5; 4; 3; 2; 1; 0]%nat
    /\ map Trend.date points
       = map (fun p => strftime_date
                         (clock w (reads w + fst p)%nat
                          - timedelta_days (Z.of_nat (snd p)))%Z)
             (combine (seq 0 8) [7; 6; 5; 4; 3; 2; 1; 0]%nat)
    /\ reads (snd (trendData strftime_date video_stats w)) = (reads w + 8)%nat
    /\ (forall i : nat,
           (length video_stats <= i)%nat -> trend_views video_stats i = 0%Z)
    /\ (forall i : nat,
           (S i < length video_stats)%nat ->
           exists video : Stat.t,
             nth_error video_stats (length video_stats - S (S i)) = Some video
             /\ trend_views video_stats (S i)
                = (Stat.views video + trend_views video_stats i)%Z)
    /\ (forall (first : Stat.t) (rest : list Stat.t),
           video_stats = first :: rest ->
           trend_views video_stats 0
           = Stat.views (List.last video_stats first)).
Proof.
  intros strftime_date video_stats w points.
  assert (Hrun := trend_points_run strftime_date video_stats
                    [7; 6; 5; 4; 3; 2; 1; 0]%nat w).
  change (map Z.of_nat [7; 6; 5; 4; 3; 2; 1; 0]%nat)
    with [7; 6; 5; 4; 3; 2; 1; 0]%Z in Hrun.
  fold (trendData strftime_date video_stats) in Hrun.
  subst points. rewrite Hrun. cbn [fst snd reads length].
  split; [|split; [|split; [reflexivity|split; [|split]]]].
  - rewrite map_map. cbn [Trend.views]. cbn [seq combine map snd]. reflexivity.
  - rewrite map_map. cbn [Trend.date]. cbn [seq combine map fst snd].
    rewrite !Nat.add_0_r.
    repeat (f_equal; try (f_equal; f_equal; f_equal; lia)).
  - intros i Hi. unfold trend_views.
    destruct (Nat.ltb_spec i (length video_stats)); [lia | reflexivity].
  - intros i Hi. unfold trend_views.
    destruct (Nat.ltb_spec (S i) (length video_stats)); [|lia].
    destruct (Nat.ltb_spec i (length video_stats)); [|lia].
    destruct (last_n_step video_stats (S i)) as [video [Hnth Hstep]]; [lia|].
    exists video. split; [exact Hnth|].
    rewrite Hstep. cbn [map]. now rewrite sumZ_cons.
  - intros first rest ->. unfold trend_views.
    cbn [length]. cbn [Nat.ltb Nat.leb].
    rewrite (last_n_one _ first) by discriminate. cbn [map].
    rewrite sumZ_cons. change (sumZ []) with 0%Z. lia.
Qed.

(** Three recent videos with 100, 700 and 200 views: the points for 2, 1
    and 0 days ago show 1000, 900 and 200 views, the earlier ones 0. *)
Lemma trend_data_running_totals_witness :
  map Trend.views
      (fst (trendData MoreSamples.date_text MoreSamples.stats
              (Sample.world [])))
  = [0; 0; 0; 0; 0; 1000; 900; 200]%Z
  /\ map Trend.date
         (fst (trendData MoreSamples.date_text MoreSamples.stats
                 (Sample.world [])))
     = ["2023-12-26"; "2023-12-27"; "2023-12-28"; "2023-12-29";
        "2023-12-30"; "2023-12-31"; "2024-01-01"; "2024-01-02"].
Proof.
  destruct (trend_data_running_totals MoreSamples.date_text
              MoreSamples.stats (Sample.world [])) as [Hviews [Hdates _]].
  split.
  - rewrite Hviews. reflexivity.
  - rewrite Hdates. vm_compute. reflexivity.
Defined.

(** ** The comment analyzer *)

Lemma occurrences_classified (label : Sentiment) (items : list Comment.t) :
  occurrences label
    (map (fun comment => analyze_sentiment (Comment.textDisplay comment)) items)
  = len (classified label items).
Proof.
  unfold occurrences, classified, len. f_equal.
  induction items as [|item items IH]; [reflexivity|].
  cbn [map filter].
  destruct label, (analyze_sentiment (Comment.textDisplay item));
    cbn [length]; now rewrite IH.
Qed.

Lemma classified_partition (items : list Comment.t) :
  (len (classified positive items) + len (classified negative items)
   + len (classified neutral items))%Z = len items.
Proof.
  unfold classified.
  induction items as [|item items IH]; [reflexivity|].
  cbn [filter].
  destruct (analyze_sentiment (Comment.textDisplay item));
    rewrite ?len_cons; lia.
Qed.

Lemma comments_analysis_some (items : list Comment.t) :
  items <> [] ->
  comments_analysis (Some items)
  = Some {| Analysis.comments := firstn 20 (map remark items);
            Analysis.sentimentDistribution :=
              {| Distribution.positive := len (classified positive items);
                 Distribution.negative := len (classified negative items);
                 Distribution.neutral := len (classified neutral items) |};
            Analysis.topWords :=
              most_common 10
                (fold_left
                   (fun (word_freq : dict Z) (comment : Comment.t) =>
                      counter_update word_freq
                        (counted_words (Comment.textDisplay comment)))
                   items []);
            Analysis.totalComments := len (map remark items) |}.
Proof.
  intros Hsome. rewrite <- !occurrences_classified.
  destruct items as [|item items]; [contradiction | reflexivity].
Qed.

(** X21. The comment analysis is absent exactly when there is no reply or
    the reply has no item.  Otherwise the total is the number of comments
    received; the three counts of the sentiment distribution are the
    numbers of comments whose full text is classified positive, negative
    and neutral, and they add up to the total; and the comments returned
    are those of the first 20 items, in order. *)
Theorem comments_analysis_totals :
  forall comments_data : option (list Comment.t),
    (comments_analysis comments_data = None
     <-> comments_data = None \/ comments_data = Some [])
    /\ (forall (items : list Comment.t) (analysis : Analysis.t),
           comments_data = Some items ->
           comments_analysis comments_data = Some analysis ->
           let distribution := Analysis.sentimentDistribution analysis in
           Analysis.totalComments analysis = len items
           /\ Distribution.positive distribution = len (classified positive items)
           /\ Distribution.negative distribution = len (classified negative items)
           /\ Distribution.neutral distribution = len (classified neutral items)
           /\ (Distribution.positive distribution
               + Distribution.negative distribution
               + Distribution.neutral distribution)%Z
              = Analysis.totalComments analysis
           /\ Analysis.comments analysis = map remark (firstn 20 items)
           /\ length (Analysis.comments analysis) = Nat.min 20 (length items)).
Proof.
  intros comments_data. split.
  - destruct comments_data as [[|item items]|]; cbn [comments_analysis].
    + split; [now right | reflexivity].
    + split; [discriminate | intros [H|H]; discriminate].
    + split; [now left | reflexivity].
  - intros items analysis -> Hsome.
    assert (Hitems : items <> []) by (intros ->; discriminate).
    rewrite (comments_analysis_some items Hitems) in Hsome.
    injection Hsome as <-.
    cbn [Analysis.sentimentDistribution Analysis.totalComments
         Analysis.comments Distribution.positive Distribution.negative
         Distribution.neutral].
    split; [unfold len; now rewrite length_map|].
    split; [reflexivity|]. split; [reflexivity|]. split; [reflexivity|].
    split; [rewrite classified_partition; unfold len; now rewrite length_map|].
    split; [now rewrite firstn_map|].
    now rewrite length_firstn, length_map.
Qed.

Lemma length_substring_prefix (n : nat) (s : string) :
  String.length (substring 0 n s) = Nat.min n (String.length s).
Proof.
  revert n. induction s as [|c s IH]; intros [|n]; simpl; try reflexivity.
  now rewrite IH.
Qed.

Lemma substring_prefix_rest (n : nat) (s : string) :
  s = substring 0 n s ++ substring n (String.length s - n) s.
Proof.
  revert n. induction s as [|c s IH]; intros [|n]; simpl.
  - reflexivity.
  - reflexivity.
  - now rewrite substring_whole.
  - now rewrite <- IH.
Qed.

(** X22. A comment of at most 100 characters is returned whole; a longer
    one is cut to its first 100 characters followed by three dots, 103
    characters in all.  The sentiment returned with it is that of the full
    text, so words beyond the part shown still decide it. *)
Theorem remark_truncation :
  forall comment : Comment.t,
    let text := Comment.textDisplay comment in
    ((String.length text <= 100)%nat -> Remark.text (remark comment) = text)
    /\ ((100 < String.length text)%nat ->
        Remark.text (remark comment) = substring 0 100 text ++ "..."
        /\ String.length (Remark.text (remark comment)) = 103%nat
        /\ exists rest : string, text = substring 0 100 text ++ rest)
    /\ (String.length (Remark.text (remark comment)) <= 103)%nat
    /\ Remark.sentiment (remark comment) = analyze_sentiment text
    /\ Remark.likeCount (remark comment) = int_or_0 (Comment.likeCount comment).
Proof.
  intros comment text. unfold remark. fold text. cbn [Remark.text Remark.sentiment
    Remark.likeCount].
  destruct (Nat.ltb_spec 100 (String.length text)) as [Hlong|Hshort].
  - split; [intros; lia|]. split; [|split; [|split; reflexivity]].
    + intros _. split; [reflexivity|]. split.
      * rewrite length_append, length_substring_prefix. simpl String.length. lia.
      * eexists. apply substring_prefix_rest.
    + rewrite length_append, length_substring_prefix. simpl String.length. lia.
  - split; [reflexivity|]. split; [intros; lia|].
    split; [lia | split; reflexivity].
Qed.

(** ** The most frequent words *)

Lemma counter_step_get (word u : string) (counter : dict Z) :
  dict_get word
    (if dict_mem u counter then dict_update u Z.succ counter
     else dict_add u 1%Z counter)
  = if String.eqb u word
    then Some (match dict_get word counter with
               | Some k => k + 1
               | None => 1
               end)%Z
    else dict_get word counter.
Proof.
  rewrite dict_mem_get.
  destruct (String.eqb u word) eqn:E.
  - apply String.eqb_eq in E. subst u.
    destruct (dict_get word counter) as [k|] eqn:G.
    + rewrite dict_get_update, String.eqb_refl, G. reflexivity.
    + rewrite dict_get_add, G, String.eqb_refl. reflexivity.
  - destruct (dict_get u counter) as [k|] eqn:G.
    + rewrite dict_get_update, E. reflexivity.
    + rewrite dict_get_add, E. now destruct (dict_get word counter).
Qed.

Lemma times_cons (word u : string) (words : list string) :
  times word (u :: words)
  = ((if String.eqb u word then 1 else 0) + times word words)%Z.
Proof.
  unfold times. cbn [count_occ].
  destruct (string_dec u word) as [->|Hne].
  - rewrite String.eqb_refl. lia.
  - apply String.eqb_neq in Hne. rewrite Hne. lia.
Qed.

Lemma times_nonneg (word : string) (words : list string) :
  (0 <= times word words)%Z.
Proof. unfold times. lia. Qed.

(** After an update the counter holds, for each word, what it held before
    plus the number of times the word stands in the update. *)
Lemma counter_update_get (word : string) (words : list string) :
  forall counter : dict Z,
    dict_get word (counter_update counter words)
    = match dict_get word counter with
      | Some k => Some (k + times word words)%Z
      | None => if (times word words =? 0)%Z then None
                else Some (times word words)
      end.
Proof.
  unfold counter_update.
  induction words as [|u words IH]; intros counter.
  - cbn [fold_left]. unfold times. cbn [count_occ Z.of_nat Z.eqb].
    destruct (dict_get word counter); [f_equal; lia | reflexivity].
  - cbn [fold_left]. rewrite IH, counter_step_get, times_cons.
    pose proof (times_nonneg word words) as Hn.
    destruct (String.eqb u word).
    + destruct (dict_get word counter) as [k|].
      * f_equal; lia.
      * destruct (Z.eqb_spec (1 + times word words) 0); [lia|]. f_equal; lia.
    + now rewrite Z.add_0_l.
Qed.

Lemma counter_update_keys (words : list string) :
  forall counter : dict Z,
    NoDup (map fst counter) ->
    NoDup (map fst (counter_update counter words)).
Proof.
  unfold counter_update.
  induction words as [|u words IH]; intros counter Hnd; [exact Hnd|].
  cbn [fold_left]. apply IH. rewrite dict_mem_get.
  destruct (dict_get u counter) eqn:G.
  - now rewrite dict_keys_update.
  - rewrite dict_keys_add. apply NoDup_app; [exact Hnd | repeat constructor; tauto|].
    intros k Hk [<-|[]]. now apply dict_get_none_not_key in G.
Qed.

Lemma counter_update_app (words more : list string) (counter : dict Z) :
  counter_update counter (words ++ more)%list
  = counter_update (counter_update counter words) more.
Proof. unfold counter_update. apply fold_left_app. Qed.

Lemma word_freq_all (items : list Comment.t) :
  forall counter : dict Z,
    fold_left
      (fun (word_freq : dict Z) (comment : Comment.t) =>
         counter_update word_freq (counted_words (Comment.textDisplay comment)))
      items counter
    = counter_update counter (all_counted_words items).
Proof.
  unfold all_counted_words.
  induction items as [|item items IH]; intros counter; [reflexivity|].
  cbn [fold_left flat_map]. now rewrite IH, counter_update_app.
Qed.

Lemma char_in_append (c : ascii) (a b : string) :
  char_in c (a ++ b) <-> char_in c a \/ char_in c b.
Proof.
  unfold char_in. induction a as [|d a IH]; cbn [append list_ascii_of_string In].
  - tauto.
  - rewrite IH. tauto.
Qed.

(** The words of a split are made of the characters of the text that are
    no white space. *)
Lemma split_from_chars (P : ascii -> Prop) (s : string) :
  forall word : string,
    (forall c, char_in c s -> is_space c = false -> P c) ->
    (forall c, char_in c word -> P c) ->
    forall t : string,
      In t (split_from s word) -> forall c, char_in c t -> P c.
Proof.
  induction s as [|d s IH]; intros word Hs Hword t Ht c Hc.
  - cbn [split_from] in Ht. destruct (String.eqb word ""); [contradiction|].
    destruct Ht as [<-|[]]. now apply Hword.
  - cbn [split_from] in Ht.
    assert (Hs' : forall c, char_in c s -> is_space c = false -> P c).
    { intros c' Hc'. apply Hs. unfold char_in in *. now right. }
    destruct (is_space d) eqn:Hd.
    + assert (Hempty : forall c, char_in c "" -> P c) by (intros c' []).
      destruct (String.eqb word "").
      * now apply (IH "" Hs' Hempty t Ht).
      * destruct Ht as [<-|Ht]; [now apply Hword|].
        now apply (IH "" Hs' Hempty t Ht).
    + apply (IH (word ++ String d "") Hs') with t; try assumption.
      intros c' Hc'. apply char_in_append in Hc'. destruct Hc' as [Hc'|Hc'].
      * now apply Hword.
      * destruct Hc' as [<-|[]]. apply Hs; [now left | exact Hd].
Qed.

Lemma strip_punctuation_chars (c : ascii) (s : string) :
  char_in c (strip_punctuation s) ->
  char_in c s /\ is_word c || is_space c = true.
Proof.
  unfold char_in. induction s as [|d s IH]; cbn [strip_punctuation]; [intros []|].
  destruct (is_word d || is_space d) eqn:E; cbn [list_ascii_of_string In].
  - intros [<-|H]; [split; [now left | exact E]|].
    destruct (IH H) as [Hin Hc]. split; [now right | exact Hc].
  - intros H. destruct (IH H) as [Hin Hc]. split; [now right | exact Hc].
Qed.

Lemma lower_char_idempotent (c : ascii) : lower_char (lower_char c) = lower_char c.
Proof. destruct c as [[] [] [] [] [] [] [] []]; reflexivity. Qed.

Lemma lower_chars (c : ascii) (s : string) :
  char_in c (lower s) -> lower_char c = c.
Proof.
  unfold char_in. induction s as [|d s IH]; cbn [lower list_ascii_of_string In];
    [intros []|].
  intros [<-|H]; [apply lower_char_idempotent | now apply IH].
Qed.

Lemma lower_fixed (s : string) :
  (forall c, char_in c s -> lower_char c = c) -> lower s = s.
Proof.
  unfold char_in. induction s as [|d s IH]; intros H; cbn [lower]; [reflexivity|].
  rewrite (H d) by now left. rewrite IH; [reflexivity|].
  intros c Hc. apply H. now right.
Qed.

(** A word that enters the count has more than three characters, all of
    them word characters in lower case. *)
Lemma counted_words_shape (text word : string) :
  In word (counted_words text) ->
  (3 < String.length word)%nat
  /\ (forall c, char_in c word -> is_word c = true /\ is_space c = false)
  /\ lower word = word.
Proof.
  unfold counted_words, split. intros Hin. apply filter_In in Hin.
  destruct Hin as [Hsplit Hlen]. apply Nat.ltb_lt in Hlen.
  assert (Hchars : forall c, char_in c word ->
                             is_word c = true /\ is_space c = false
                             /\ lower_char c = c).
  { apply (split_from_chars
             (fun c => is_word c = true /\ is_space c = false /\ lower_char c = c)
             (strip_punctuation (lower text)) ""); [| intros c [] | exact Hsplit].
    intros c Hc Hspace. apply strip_punctuation_chars in Hc.
    destruct Hc as [Hc Hclass]. rewrite Hspace, orb_false_r in Hclass.
    split; [exact Hclass|]. split; [exact Hspace|]. now apply lower_chars with text. }
  split; [exact Hlen|]. split.
  - intros c Hc. destruct (Hchars c Hc) as [Hw [Hs _]]. now split.
  - apply lower_fixed. intros c Hc. now destruct (Hchars c Hc) as [_ [_ Hl]].
Qed.

Lemma times_positive_in (word : string) (words : list string) :
  (0 < times word words)%Z <-> In word words.
Proof.
  unfold times. rewrite (count_occ_In string_dec). lia.
Qed.

Lemma all_counted_words_in (word : string) (items : list Comment.t) :
  In word (all_counted_words items) ->
  exists comment : Comment.t,
    In comment items /\ In word (counted_words (Comment.textDisplay comment)).
Proof. unfold all_counted_words. intros H. now apply in_flat_map in H. Qed.

Lemma firstn_incl {A : Type} (n : nat) (l : list A) (x : A) :
  In x (firstn n l) -> In x l.
Proof.
  intros H. rewrite <- (firstn_skipn n l). apply in_or_app. now left.
Qed.

Lemma strongly_sorted_impl {A : Type} (P Q : A -> A -> Prop) (l : list A) :
  (forall a b, P a b -> Q a b) -> StronglySorted P l -> StronglySorted Q l.
Proof.
  intros H. induction 1 as [|x l _ IH Hx]; constructor; [exact IH|].
  eapply Forall_impl; [|exact Hx]. intros b. apply H.
Qed.

Lemma firstn_nodup {A : Type} (n : nat) (l : list A) :
  NoDup l -> NoDup (firstn n l).
Proof.
  intros H. rewrite <- (firstn_skipn n l) in H. now apply NoDup_app_remove_r in H.
Qed.

(** A comment whose one negative word lies beyond the first 100
    characters: the text shown ends in dots, the sentiment is negative. *)
Lemma remark_truncation_witness :
  String.length (Remark.text (remark MoreSamples.long_comment)) = 103%nat
  /\ contains "terrible" (Remark.text (remark MoreSamples.long_comment)) = false
  /\ Remark.sentiment (remark MoreSamples.long_comment) = negative.
Proof.
  destruct (remark_truncation MoreSamples.long_comment)
    as [_ [Hlong [_ [Hsentiment _]]]].
  destruct Hlong as [_ [Hlen _]]; [vm_compute; lia|].
  split; [exact Hlen|]. split; [vm_compute; reflexivity|].
  rewrite Hsentiment. vm_compute. reflexivity.
Defined.

(** X23. The top words of a comment analysis are at most ten, all
    different.  Each is a word of more than three characters from the
    case-folded comments, made of word characters only, with the number
    of times it stands in all the comments received; the counts fall
    (weakly) along the list; and a counted word that is missing from the
    list stands no more often than any word in it, the list then being
    full. *)
Theorem top_words_counts :
  forall (items : list Comment.t) (analysis : Analysis.t),
    comments_analysis (Some items) = Some analysis ->
    let top := Analysis.topWords analysis in
    let words := all_counted_words items in
    (length top <= 10)%nat
    /\ NoDup (map fst top)
    /\ (forall (word : string) (count : Z),
           In (word, count) top ->
           count = times word words
           /\ (1 <= count)%Z
           /\ (3 < String.length word)%nat
           /\ (forall c, char_in c word -> is_word c = true /\ is_space c = false)
           /\ lower word = word)
    /\ StronglySorted (fun a b : string * Z => (snd b <= snd a)%Z) top
    /\ (forall word : string,
           In word words ->
           ~ In word (map fst top) ->
           length top = 10%nat
           /\ forall entry, In entry top -> (times word words <= snd entry)%Z).
Proof.
  intros items analysis Hsome top words.
  assert (Hitems : items <> []) by (intros ->; discriminate).
  rewrite (comments_analysis_some items Hitems) in Hsome.
  injection Hsome as <-. subst top. cbn [Analysis.topWords].
  rewrite word_freq_all. fold words. unfold most_common.
  set (key := fun entry : string * Z => inject_Z (snd entry)).
  set (counter := counter_update [] words).
  pose proof (sort_desc_perm key counter) as Hperm.
  pose proof (sort_desc_sorted key counter) as Hsorted.
  assert (Hkeys : NoDup (map fst counter))
    by (apply counter_update_keys; constructor).
  assert (Hget : forall word count,
             In (word, count) counter ->
             count = times word words /\ (1 <= count)%Z).
  { intros word count Hin. apply (dict_get_in _ _ _ Hkeys) in Hin.
    unfold counter in Hin. rewrite counter_update_get in Hin. cbn [dict_get] in Hin.
    pose proof (times_nonneg word words).
    destruct (Z.eqb_spec (times word words) 0); [discriminate|].
    injection Hin as <-. split; [reflexivity | lia]. }
  assert (Hranked : NoDup (map fst (sort_desc key counter))).
  { eapply Permutation_NoDup; [apply Permutation_map, Hperm | exact Hkeys]. }
  split; [rewrite length_firstn; lia|].
  split; [rewrite <- firstn_map; now apply firstn_nodup|].
  split; [|split].
  - intros word count Hin. apply firstn_incl in Hin.
    apply (Permutation_in _ (Permutation_sym Hperm)) in Hin.
    destruct (Hget word count Hin) as [Hcount Hone].
    split; [exact Hcount|]. split; [exact Hone|].
    assert (Hword : In word words) by (apply times_positive_in; lia).
    apply all_counted_words_in in Hword. destruct Hword as [comment [_ Hword]].
    now apply counted_words_shape in Hword.
  - pose proof (firstn_sorted key 10 _ Hsorted) as Hfirst.
    eapply strongly_sorted_impl; [|exact Hfirst].
    intros a b H. unfold ranks_before, key in H. now rewrite Zle_Qle.
  - intros word Hword Hmissing.
    assert (Hin : In (word, times word words) counter).
    { apply dict_get_some_in. unfold counter.
      rewrite counter_update_get. cbn [dict_get].
      apply times_positive_in in Hword.
      destruct (Z.eqb_spec (times word words) 0); [lia | reflexivity]. }
    apply (Permutation_in _ Hperm) in Hin.
    rewrite <- (firstn_skipn 10 (sort_desc key counter)) in Hin.
    apply in_app_or in Hin. destruct Hin as [Hin|Hin].
    + exfalso. apply Hmissing. change word with (fst (word, times word words)).
      now apply in_map.
    + split.
      * rewrite length_firstn.
        destruct (Nat.le_gt_cases 10 (length (sort_desc key counter))); [lia|].
        rewrite skipn_all2 in Hin by lia. contradiction.
      * intros entry Hentry.
        pose proof (firstn_top key 10 _ entry _ Hsorted Hentry Hin) as H.
        unfold ranks_before, key in H. cbn [snd] in H. now rewrite Zle_Qle.
Qed.

(** Three comments: great stands twice in the first of them and editing
    once in each of the first two. *)
Lemma top_words_counts_witness :
  exists analysis : Analysis.t,
    comments_analysis (Some MoreSamples.comments) = Some analysis
    /\ Analysis.topWords analysis
       = [("great", 2%Z); ("editing", 2%Z); ("video", 1%Z); ("thanks", 1%Z);
          ("really", 1%Z); ("boring", 1%Z); ("sound", 1%Z); ("terrible", 1%Z);
          ("first", 1%Z)]
    /\ StronglySorted (fun a b : string * Z => (snd b <= snd a)%Z)
         (Analysis.topWords analysis).
Proof.
  eexists. split; [vm_compute; reflexivity|].
  split; [reflexivity|].
  apply (top_words_counts MoreSamples.comments). reflexivity.
Defined.

(** ** The health check *)

(** X24. The health check sends nothing upstream and reads the clock
    once; it reports healthy whether or not a key is configured, and it
    reports a key as configured exactly when it reports a key length above
    zero. *)
Theorem health_check_key :
  forall (R : Runtime) (w : World),
    let health := fst (health_check w) in
    snd (health_check w) = after_reading w
    /\ Health.status health = "healthy"
    /\ Health.timestamp health = isoformat (clock w (reads w))
    /\ (Health.api_key_configured health = true
        <-> (0 < Health.api_key_length health)%Z)
    /\ (YOUTUBE_API_KEY = None -> Health.api_key_length health = 0%Z)
    /\ (forall k : string,
           YOUTUBE_API_KEY = Some k ->
           Health.api_key_length health = Z.of_nat (String.length k)).
Proof.
  intros R w health. subst health. unfold health_check.
  rewrite (bind_run _ _ _ _ _ (get_utc_now_run w)). unfold ret.
  cbn [fst snd Health.status Health.timestamp Health.api_key_configured
       Health.api_key_length].
  split; [reflexivity|]. split; [reflexivity|]. split; [reflexivity|].
  unfold key_configured.
  destruct YOUTUBE_API_KEY as [k|].
  - destruct (String.eqb_spec k "") as [->|Hne]; cbn [negb].
    + split; [split; [discriminate | lia]|].
      split; [discriminate | intros k' Hk; injection Hk as <-; reflexivity].
    + assert (0 < String.length k)%nat by (destruct k; [contradiction | simpl; lia]).
      split; [split; [lia | reflexivity]|].
      split; [discriminate | intros k' Hk; injection Hk as <-; reflexivity].
  - split; [split; [discriminate | lia]|].
    split; [reflexivity | discriminate].
Qed.

(** ** Engagement without views *)

Lemma Qdiv_1 (x : Q) : (x / 1 == x)%Q.
Proof. unfold Qdiv. change (/ 1)%Q with 1%Q. apply Qmult_1_r. Qed.

(** X25. The trending handler divides the likes and comments of a video
    by its views floored at 1: a video without views has an engagement of
    a hundred times its likes and comments, and falls in the highest band
    as soon as it has one like or comment, where the video handler reports
    an engagement rate of 0. *)
Theorem engagement_without_views :
  forall video : Entry.t,
    (Entry.viewCount video <= 0)%Z ->
    (engagement video
     == inject_Z (Entry.likeCount video + Entry.commentCount video) * 100)%Q
    /\ ((1 <= Entry.likeCount video + Entry.commentCount video)%Z ->
        band_of video = "High (5%+)")
    /\ engagement_rate (Entry.viewCount video) (Entry.likeCount video)
         (Entry.commentCount video) = Some 0%Q.
Proof.
  intros video Hviews.
  assert (E : (engagement video
               == inject_Z (Entry.likeCount video + Entry.commentCount video) * 100)%Q).
  { unfold engagement. rewrite Z.max_r by lia.
    change (inject_Z 1) with 1%Q. now rewrite Qdiv_1. }
  split; [exact E|]. split.
  - intros Hlikes. unfold band_of.
    assert (Hbig : (100 <= engagement video)%Q).
    { rewrite E. change 100%Q with (inject_Z 1 * 100)%Q.
      apply Qmult_le_compat_r; [|discriminate]. now rewrite <- Zle_Qle. }
    destruct (Qlt_le_dec (engagement video) 2) as [H|_].
    + exfalso. apply (Qlt_irrefl 100).
      apply Qle_lt_trans with (engagement video); [exact Hbig|].
      apply Qlt_trans with 2%Q; [exact H | reflexivity].
    + destruct (Qlt_le_dec (engagement video) 5) as [H|_]; [|reflexivity].
      exfalso. apply (Qlt_irrefl 100).
      apply Qle_lt_trans with (engagement video); [exact Hbig|].
      apply Qlt_trans with 5%Q; [exact H | reflexivity].
  - unfold engagement_rate. destruct (Z.ltb_spec 0 (Entry.viewCount video));
      [lia | reflexivity].
Qed.

(** A video with no views, 5 likes and 3 comments. *)
Lemma engagement_without_views_witness :
  band_of (Sample.entry "a" 0 5 3 0 60) = "High (5%+)"
  /\ (engagement (Sample.entry "a" 0 5 3 0 60) == 800)%Q.
Proof.
  destruct (engagement_without_views (Sample.entry "a" 0 5 3 0 60))
    as [Hvalue [Hband _]]; [cbn; lia|].
  split; [apply Hband; cbn; lia|].
  rewrite Hvalue. reflexivity.
Defined.

(** ** View velocity *)

(** X26. The view velocity of a trending entry is 0 when the clock has not
    passed the publication time of the video, so the views are never
    divided by zero or negative hours; otherwise it is the rounded
    quotient of the views by the positive hours since publication. *)
Theorem view_velocity_guard :
  forall (R : Runtime) (views now published : Z),
    ((now <= published)%Z -> view_velocity views now published = 0%Q)
    /\ ((published < now)%Z ->
        (0 < total_seconds (now - published) / 3600)%Q
        /\ view_velocity views now published
           = round2 (inject_Z views / (total_seconds (now - published) / 3600))%Q).
Proof.
  intros R views now published. unfold view_velocity. split.
  - intros Hle.
    destruct (Qlt_le_dec 0 (total_seconds (now - published) / 3600)) as [H|_];
      [|reflexivity].
    exfalso. apply (Qlt_irrefl 0).
    apply Qlt_le_trans with (total_seconds (now - published) / 3600)%Q;
      [exact H | apply hours_sign; lia].
  - intros Hlt.
    assert (Hpos : (0 < total_seconds (now - published) / 3600)%Q).
    { unfold total_seconds, microseconds_per_second, Qlt.
      destruct (now - published)%Z as [|p|p] eqn:E; simpl; lia. }
    split; [exact Hpos|].
    destruct (Qlt_le_dec 0 (total_seconds (now - published) / 3600)) as [_|H];
      [reflexivity|].
    exfalso. apply (Qlt_irrefl 0).
    now apply Qlt_le_trans with (total_seconds (now - published) / 3600)%Q.
Qed.

(** Three comments, one positive, one negative and one neutral. *)
Lemma comments_analysis_totals_witness :
  exists analysis : Analysis.t,
    comments_analysis (Some MoreSamples.comments) = Some analysis
    /\ Analysis.totalComments analysis = 3%Z
    /\ Analysis.sentimentDistribution analysis
       = {| Distribution.positive := 1; Distribution.negative := 1;
            Distribution.neutral := 1 |}.
Proof.
  eexists. split; [vm_compute; reflexivity|].
  destruct (comments_analysis_totals (Some MoreSamples.comments)) as [_ H].
  destruct (H MoreSamples.comments _ eq_refl eq_refl) as [Htotal _].
  split; [exact Htotal | reflexivity].
Defined.
